(** * duckdb-pipeline: the GHArchive ingester and the DuckDB transformer

    A shallow embedding of [data_lake_ingester.py],
    [data_lake_transformer.py] and [scripts/run_batch_agg_data.py].

    Python [str] values are [string]s, Python [int]s are [Z], [bytes] are
    [list Byte.byte], a [configparser] section table and the DuckDB catalog
    are [gmap]s keyed by name.  Code that logs, raises or calls a
    collaborator runs in a small state-and-exception monad. *)

From Stdlib Require Import ZArith Ascii String List Lia.
From Stdlib.Strings Require Import Byte.
From stdpp Require Import base option list gmap strings.

Local Open Scope Z_scope.

(** ** Text rendering: decimal numbers, [strftime], [str] and [repr] *)

Module Text.

Definition digit (d : Z) : ascii := ascii_of_nat (48 + Z.to_nat (d mod 10)).

(** Most significant digit first, written to the left of [acc]. *)
Fixpoint dec_digits (fuel : nat) (n : Z) (acc : string) : string :=
  match fuel with
  | O => acc
  | S fuel' =>
      let acc' := String (digit n) acc in
      if n / 10 =? 0 then acc' else dec_digits fuel' (n / 10) acc'
  end.

(** [str(n)] for an [int]: no padding, no leading zero, and a minus sign
    before the digits of a negative number. *)
Definition decimal (n : Z) : string :=
  if n <? 0 then String "-" (dec_digits (S (Z.to_nat (Z.log2 (- n)))) (- n) "")
  else dec_digits (S (Z.to_nat (Z.log2 n))) n "".

Fixpoint zeros (k : nat) : string :=
  match k with
  | O => ""
  | S k' => String "0" (zeros k')
  end.

(** [%0wd]: left-pad with zeros up to width [w], never truncate. *)
Definition zpad (w : nat) (s : string) : string :=
  zeros (w - String.length s) +:+ s.

Definition lower_hex_digit (d : Z) : ascii :=
  if d mod 16 <? 10 then ascii_of_nat (48 + Z.to_nat (d mod 16))
  else ascii_of_nat (87 + Z.to_nat (d mod 16)).

(** [w] lower-case hexadecimal digits of [n mod 16^w]. *)
Fixpoint hex_fixed (w : nat) (n : Z) : string :=
  match w with
  | O => ""
  | S w' => hex_fixed w' (n / 16) +:+ String (lower_hex_digit n) ""
  end.

Fixpoint take (k : nat) (s : string) : string :=
  match k, s with
  | S k', String c s' => String c (take k' s')
  | _, _ => ""
  end.

Fixpoint contains_char (c : ascii) (s : string) : bool :=
  match s with
  | EmptyString => false
  | String d s' => if Ascii.eqb c d then true else contains_char c s'
  end.

Fixpoint join (sep : string) (parts : list string) : string :=
  match parts with
  | [] => ""
  | [p] => p
  | p :: rest => p +:+ sep +:+ join sep rest
  end.

(** [list.insert(i, x)] for [0 <= i]: past the end it appends. *)
Fixpoint list_insert_at {A} (i : nat) (x : A) (l : list A) : list A :=
  match i, l with
  | O, _ => x :: l
  | S _, [] => [x]
  | S i', y :: l' => y :: list_insert_at i' x l'
  end.

(** [repr] of a [str] whose characters are ASCII: the text is put between
    single quotes, or between double quotes when it holds a single quote
    and no double quote; the chosen quote and the backslash are escaped,
    control characters are written as backslash escapes (t, n, r, xNN). *)
Definition repr_char (quote : ascii) (c : ascii) : string :=
  let n := Z.of_nat (nat_of_ascii c) in
  if Ascii.eqb c quote || Ascii.eqb c "\"%char then String "\" (String c "")
  else if n =? 9 then "\t"
  else if n =? 10 then "\n"
  else if n =? 13 then "\r"
  else if (n <? 32) || (n =? 127) then "\x" +:+ hex_fixed 2 n
  else String c "".

Fixpoint repr_body (quote : ascii) (s : string) : string :=
  match s with
  | EmptyString => ""
  | String c s' => repr_char quote c +:+ repr_body quote s'
  end.

Definition dquote : ascii := ascii_of_nat 34.
Definition squote : ascii := ascii_of_nat 39.

Definition repr (s : string) : string :=
  let quote :=
    if contains_char squote s && negb (contains_char dquote s)
    then dquote else squote in
  String quote (repr_body quote s) +:+ String quote "".

(** Fixed-width renderings, digit by digit. *)
Definition two_digits (n : Z) : string :=
  String (digit (n / 10)) (String (digit n) "").

Definition four_digits (n : Z) : string :=
  String (digit (n / 1000)) (String (digit (n / 100)) (two_digits n)).

Definition is_digit (c : ascii) : bool :=
  let n := nat_of_ascii c in (48 <=? n)%nat && (n <=? 57)%nat.

Definition is_hex_digit (c : ascii) : bool :=
  let n := nat_of_ascii c in
  is_digit c || ((97 <=? n)%nat && (n <=? 102)%nat).

Fixpoint all_chars (p : ascii -> bool) (s : string) : bool :=
  match s with
  | EmptyString => true
  | String c s' => p c && all_chars p s'
  end.

(** [p] holds of 0, 1, ..., n - 1. *)
Definition all_below (n : nat) (p : Z -> bool) : bool :=
  forallb p (map Z.of_nat (seq 0 n)).

End Text.

(** ** [datetime] and the [strftime] directives the pipeline uses *)

Record datetime := mkDatetime {
  year : Z; month : Z; day : Z;
  hour : Z; minute : Z; second : Z; microsecond : Z
}.

Definition is_leap (y : Z) : bool :=
  ((y mod 4 =? 0) && negb (y mod 100 =? 0)) || (y mod 400 =? 0).

Definition days_in_month (y m : Z) : Z :=
  if m =? 2 then (if is_leap y then 29 else 28)
  else if (m =? 4) || (m =? 6) || (m =? 9) || (m =? 11) then 30 else 31.

(** The range checks of the [datetime] constructor
    ([MINYEAR = 1], [MAXYEAR = 9999]). *)
Definition valid_datetime (d : datetime) : Prop :=
  1 <= year d <= 9999 /\ 1 <= month d <= 12 /\
  1 <= day d <= days_in_month (year d) (month d) /\
  0 <= hour d < 24 /\ 0 <= minute d < 60 /\ 0 <= second d < 60 /\
  0 <= microsecond d < 1000000.

(** One conversion: [padded = false] is the [-] flag ([%-H]), which drops the
    padding.  [datetime.strftime] hands the format to the C library, and
    there (glibc) [%Y] is the year in decimal with no padding at all: 2023
    gives [2023], 999 gives [999]. *)
Definition strftime_conv (padded : bool) (c : ascii) (d : datetime) : string :=
  let field w n := if padded then Text.zpad w (Text.decimal n) else Text.decimal n in
  if Ascii.eqb c "Y" then Text.decimal (year d)
  else if Ascii.eqb c "m" then field 2%nat (month d)
  else if Ascii.eqb c "d" then field 2%nat (day d)
  else if Ascii.eqb c "H" then field 2%nat (hour d)
  else if Ascii.eqb c "M" then field 2%nat (minute d)
  else if Ascii.eqb c "S" then field 2%nat (second d)
  else if Ascii.eqb c "%" then "%"
  else if padded then String "%" (String c "")
  else String "%" (String "-" (String c "")).

Fixpoint strftime (d : datetime) (fmt : string) : string :=
  match fmt with
  | EmptyString => ""
  | String c rest =>
      if Ascii.eqb c "%" then
        match rest with
        | String f rest' =>
            if Ascii.eqb f "-" then
              match rest' with
              | String g rest'' => strftime_conv false g d +:+ strftime d rest''
              | EmptyString => "%-"
              end
            else strftime_conv true f d +:+ strftime d rest'
        | EmptyString => "%"
        end
      else String c (strftime d rest)
  end.

(** [str(d.date())]: [date.isoformat()], which pads the year itself
    ([%04d-%02d-%02d]) and does not go through [strftime]. *)
Definition str_date (d : datetime) : string :=
  Text.zpad 4 (Text.decimal (year d)) +:+ "-" +:+
  Text.zpad 2 (Text.decimal (month d)) +:+ "-" +:+
  Text.zpad 2 (Text.decimal (day d)).

(** [str(d)] of a naive [datetime]: [isoformat(sep=' ')]. *)
Definition str_datetime (d : datetime) : string :=
  Text.zpad 4 (Text.decimal (year d)) +:+ "-" +:+
  Text.zpad 2 (Text.decimal (month d)) +:+ "-" +:+
  Text.zpad 2 (Text.decimal (day d)) +:+ " " +:+
  Text.zpad 2 (Text.decimal (hour d)) +:+ ":" +:+
  Text.zpad 2 (Text.decimal (minute d)) +:+ ":" +:+
  Text.zpad 2 (Text.decimal (second d)) +:+
  (if microsecond d =? 0 then ""
   else "." +:+ Text.zpad 6 (Text.decimal (microsecond d))).

(** ** Exceptions, log records and the effect monad *)

(** The [Exception] instances the pipeline raises or meets; any other
    [Exception] subclass is [OtherError] with its class name and text. *)
Inductive PyExc :=
| HTTPError (status : Z) (msg : string)
| KeyError (arg : string)
| NoSectionError (section : string)
| NoOptionError (opt section : string)
| TypeError (msg : string)
| AttributeError (msg : string)
| S3UploadFailedError (msg : string)
| OtherError (cls msg : string).

#[global] Instance PyExc_eq_dec : EqDecision PyExc.
Proof. solve_decision. Defined.

(** [str(e)]: a [KeyError] shows the [repr] of its argument, the two
    [configparser] errors quote the names they carry. *)
Definition str_exc (e : PyExc) : string :=
  match e with
  | HTTPError _ m => m
  | KeyError a => Text.repr a
  | NoSectionError s => "No section: " +:+ Text.repr s
  | NoOptionError o s =>
      "No option " +:+ Text.repr o +:+ " in section: " +:+ Text.repr s
  | TypeError m => m
  | AttributeError m => m
  | S3UploadFailedError m => m
  | OtherError _ m => m
  end.

Inductive Level := INFO | ERROR.

#[global] Instance Level_eq_dec : EqDecision Level.
Proof. solve_decision. Defined.

Record LogRecord := mkLog { levelname : Level; message : string }.

#[global] Instance LogRecord_eq_dec : EqDecision LogRecord.
Proof. solve_decision. Defined.

(** A computation over a state [S] that returns an [A] or raises. *)
Definition M (S A : Type) : Type := S -> (PyExc + A) * S.

Module Eff.
Section Ops.
Context {S : Type}.

Definition ret {A} (a : A) : M S A := fun s => (inr a, s).

Definition bind {A B} (m : M S A) (k : A -> M S B) : M S B :=
  fun s => match m s with
           | (inl e, s') => (inl e, s')
           | (inr a, s') => k a s'
           end.

Definition raise {A} (e : PyExc) : M S A := fun s => (inl e, s).

(** [try: body except Exception as e: handler e] *)
Definition try_except {A} (body : M S A) (handler : PyExc -> M S A) : M S A :=
  fun s => match body s with
           | (inl e, s') => handler e s'
           | (inr a, s') => (inr a, s')
           end.

Definition modify (f : S -> S) : M S unit := fun s => (inr tt, f s).

(** A result computed outside the state: returned, or raised. *)
Definition lift_result {A} (r : PyExc + A) : M S A :=
  match r with inl e => raise e | inr a => ret a end.

(** Run a computation over a part [T] of the state. *)
Definition zoom {T A} (get : S -> T) (set : T -> S -> S) (m : M T A) : M S A :=
  fun s => let '(r, t) := m (get s) in (r, set t s).
End Ops.
End Eff.

Notation "x <- c1 ;; c2" := (Eff.bind c1 (fun x => c2))
  (at level 100, c1 at next level, right associativity).
Notation "c1 ;;; c2" := (Eff.bind c1 (fun _ => c2))
  (at level 100, right associativity).

(** ** [data_lake_ingester.py] *)

Module Ingester.

Record S3Credentials := mkCreds {
  aws_access_key_id : string;
  aws_secret_access_key : string;
  region_name : option string;
  endpoint_url : option string
}.

(** *** [configparser.ConfigParser] *)

(** [sections] and [defaults] hold the raw option values; [before_get] is
    the parser's interpolation step, applied by [get] to a value it found
    (it may raise on a bad reference). *)
Record ConfigParser := mkConfig {
  defaults : gmap string string;
  sections : gmap string (gmap string string);
  before_get : string -> string -> string -> PyExc + string
}.

Definition default_section : string := "DEFAULT".

Definition cp_get (c : ConfigParser) (section opt : string) : PyExc + string :=
  let lookup_in (d : gmap string string) :=
    match d !! opt with
    | Some v => Some v
    | None => defaults c !! opt
    end in
  match sections c !! section with
  | None =>
      if String.eqb section default_section then
        match defaults c !! opt with
        | Some v => before_get c section opt v
        | None => inl (NoOptionError opt section)
        end
      else inl (NoSectionError section)
  | Some d =>
      match lookup_in d with
      | Some v => before_get c section opt v
      | None => inl (NoOptionError opt section)
      end
  end.

Definition has_option (c : ConfigParser) (section opt : string) : bool :=
  if String.eqb section "" || String.eqb section default_section then
    bool_decide (is_Some (defaults c !! opt))
  else
    match sections c !! section with
    | None => false
    | Some d =>
        bool_decide (is_Some (d !! opt)) || bool_decide (is_Some (defaults c !! opt))
    end.

(** *** Collector and storage interfaces *)

(** [io.BytesIO]: the buffer and the read position. *)
Record BytesIO := mkBytesIO { getvalue : list byte; tell : nat }.

(** What [collect] hands back: a stream, or Python's [None]. *)
Definition PyData := option BytesIO.

(** Objects of the store, by bucket and key. *)
Abbreviation Objects := (gmap (string * string) (list byte)).

(** [DataCollector]: given a URL, log lines and a result; a collector has
    no handle on the object store. *)
Record DataCollector := mkCollector {
  collect : string -> M (list LogRecord) PyData
}.

(** [DataStorage]: may log and may change the object store. *)
Record DataStorage := mkStorage {
  store : PyData -> string -> M (list LogRecord * Objects) unit
}.

Definition log_to_list (l : Level) (msg : string) : M (list LogRecord) unit :=
  Eff.modify (fun lg => lg ++ [mkLog l msg]).

(** *** [HttpDataCollector] *)

Record Response := mkResponse {
  status_code : Z; reason : string; url : string; content : list byte
}.

(** [requests.Response.raise_for_status]: raises for 4xx and 5xx only. *)
Definition raise_for_status (r : Response) : option PyExc :=
  let line kind :=
    Text.decimal (status_code r) +:+ " " +:+ kind +:+ " Error: " +:+
    reason r +:+ " for url: " +:+ url r in
  if (400 <=? status_code r) && (status_code r <? 500)
  then Some (HTTPError (status_code r) (line "Client"))
  else if (500 <=? status_code r) && (status_code r <? 600)
  then Some (HTTPError (status_code r) (line "Server"))
  else None.

Section Http.
(** [requests.get]: a response, or a transport error. *)
Variable requests_get : string -> PyExc + Response.

Definition HttpDataCollector_collect (source_url : string)
  : M (list LogRecord) PyData :=
  log_to_list INFO ("Downloading data from: " +:+ source_url) ;;;
  response <- Eff.lift_result (requests_get source_url) ;;
  if status_code response =? 200 then
    Eff.ret (Some (mkBytesIO (content response) 0))
  else
    log_to_list ERROR
      ("Failed to download file from " +:+ source_url +:+
       ". Status code: " +:+ Text.decimal (status_code response)) ;;;
    match raise_for_status response with
    | Some e => Eff.raise e
    | None => Eff.ret None
    end.

Definition HttpDataCollector : DataCollector :=
  mkCollector HttpDataCollector_collect.
End Http.

(** *** [S3DataStorage] *)

(** The [boto3] client: [upload_fileobj data bucket key] reports byte
    counts to the callback, may fail, and leaves the store in some state. *)
Record S3Client := mkClient {
  upload_fileobj :
    PyData -> string -> string -> Objects -> list Z * option PyExc * Objects
}.

Record S3DataStorage := mkS3 {
  credentials : S3Credentials;
  bucket : string;
  progress_callback : option (Z -> list LogRecord);
  s3_client : S3Client
}.

(** The non-empty-string test of [if self.credentials.region_name:]. *)
Definition truthy (o : option string) : bool :=
  match o with
  | Some s => negb (String.eqb s "")
  | None => false
  end.

Definition client_kwargs (c : S3Credentials) : list (string * string) :=
  [("aws_access_key_id", aws_access_key_id c);
   ("aws_secret_access_key", aws_secret_access_key c)]
  ++ (if truthy (region_name c) then [("region_name", default "" (region_name c))] else [])
  ++ (if truthy (endpoint_url c) then [("endpoint_url", default "" (endpoint_url c))] else []).

Definition log_st {T} (l : Level) (msg : string) : M (list LogRecord * T) unit :=
  Eff.modify (fun st => (st.1 ++ [mkLog l msg], st.2)).

Definition S3DataStorage_store (self : S3DataStorage) (data : PyData) (key : string)
  : M (list LogRecord * Objects) unit :=
  Eff.try_except
    ((fun st : list LogRecord * Objects =>
        let '(reports, err, objs) :=
          upload_fileobj (s3_client self) data (bucket self) key st.2 in
        let lg :=
          match progress_callback self with
          | Some cb => st.1 ++ concat (map cb reports)
          | None => st.1
          end in
        (match err with Some e => inl e | None => inr tt end, (lg, objs))) ;;;
     log_st INFO ("Successfully uploaded " +:+ key +:+ " to " +:+ bucket self))
    (fun e =>
       match e with
       | S3UploadFailedError _ =>
           log_st ERROR ("Failed to upload " +:+ key +:+ " to " +:+ bucket self
                         +:+ ": " +:+ str_exc e) ;;;
           Eff.raise e
       | _ =>
           log_st ERROR ("An unexpected error occurred uploading to S3: "
                         +:+ str_exc e) ;;;
           Eff.raise e
       end).

(** *** [DataLakeIngester] *)

Record ConfigProvider := mkProvider { get_config : PyExc + ConfigParser }.

Inductive Call :=
| CallGetConfig
| CallBoto3Client (kwargs : list (string * string))
| CallCollect (source_url : string)
| CallStore (key : string).

#[global] Instance Call_eq_dec : EqDecision Call.
Proof. solve_decision. Defined.

(** What a run can observe and change: the log, the object store, and the
    calls made on collaborators, oldest first. *)
Record World := mkWorld {
  w_log : list LogRecord;
  w_objects : Objects;
  w_calls : list Call
}.

Definition logger (l : Level) (msg : string) : M World unit :=
  Eff.modify (fun w => mkWorld (w_log w ++ [mkLog l msg]) (w_objects w) (w_calls w)).

Definition record_call (c : Call) : M World unit :=
  Eff.modify (fun w => mkWorld (w_log w) (w_objects w) (w_calls w ++ [c])).

Definition with_log {A} (m : M (list LogRecord) A) : M World A :=
  Eff.zoom w_log (fun lg w => mkWorld lg (w_objects w) (w_calls w)) m.

Definition with_store {A} (m : M (list LogRecord * Objects) A) : M World A :=
  Eff.zoom (fun w => (w_log w, w_objects w))
           (fun st w => mkWorld st.1 st.2 (w_calls w)) m.

Record DataLakeIngester := mkIngester {
  dataset_base_path : string;
  config : ConfigParser;
  data_collector : DataCollector;
  data_storage : DataStorage
}.

Definition _generate_sink_key
    (process_date : datetime) (filename sink_base_path : string) : string :=
  let date_partition := strftime process_date "%Y-%m-%d" in
  let hour_partition := strftime process_date "%H" in
  sink_base_path +:+ "/" +:+ date_partition +:+ "/" +:+ hour_partition
    +:+ "/" +:+ filename.

(** The three names [ingest_hourly_gharchive] derives from its argument. *)
Definition date_hour (process_date : datetime) : string :=
  strftime process_date "%Y-%m-%d-%-H".
Definition data_filename (process_date : datetime) : string :=
  date_hour process_date +:+ ".json.gz".
Definition data_url (process_date : datetime) : string :=
  "http://data.gharchive.org/" +:+ data_filename process_date.

Definition ingest_hourly_gharchive (self : DataLakeIngester) (process_date : datetime)
  : M World unit :=
  Eff.try_except
    (let s3_key :=
       _generate_sink_key process_date (data_filename process_date)
         (dataset_base_path self) in
     record_call (CallCollect (data_url process_date)) ;;;
     data <- with_log (collect (data_collector self) (data_url process_date)) ;;
     record_call (CallStore s3_key) ;;;
     with_store (store (data_storage self) data s3_key) ;;;
     logger INFO ("Successfully ingested data for " +:+ date_hour process_date))
    (fun e =>
       logger ERROR ("Failed to ingest data for " +:+ str_datetime process_date
                     +:+ ": " +:+ str_exc e) ;;;
       Eff.raise e).

Definition _get_s3_credentials (config : ConfigParser) : M World S3Credentials :=
  Eff.try_except
    (access <- Eff.lift_result (cp_get config "aws" "s3_access_key_id") ;;
     secret <- Eff.lift_result (cp_get config "aws" "s3_secret_access_key") ;;
     region <-
       (if has_option config "aws" "s3_region_name"
        then r <- Eff.lift_result (cp_get config "aws" "s3_region_name") ;; Eff.ret (Some r)
        else Eff.ret None) ;;
     endpoint <-
       (if has_option config "aws" "s3_endpoint_url"
        then r <- Eff.lift_result (cp_get config "aws" "s3_endpoint_url") ;; Eff.ret (Some r)
        else Eff.ret None) ;;
     Eff.ret (mkCreds access secret region endpoint))
    (fun e =>
       match e with
       | NoSectionError _ | NoOptionError _ _ =>
           logger ERROR ("Missing S3 credentials in config: " +:+ str_exc e) ;;;
           Eff.raise (KeyError ("Missing S3 credentials in config: " +:+ str_exc e))
       | _ => Eff.raise e
       end).

Definition _bronze_bucket_name (config : ConfigParser) : M World string :=
  Eff.try_except
    (Eff.lift_result (cp_get config "datalake" "bronze_bucket"))
    (fun e =>
       match e with
       | NoSectionError _ | NoOptionError _ _ =>
           logger ERROR ("Missing bronze bucket name in config: " +:+ str_exc e) ;;;
           Eff.raise (KeyError ("Missing bronze bucket name in config: " +:+ str_exc e))
       | _ => Eff.raise e
       end).

Definition _s3_progress_callback (bytes_transferred : Z) : list LogRecord :=
  [mkLog INFO ("Transferred: " +:+ Text.decimal bytes_transferred
               +:+ " bytes to S3 bucket")].

(** [os.path.join(a, b)] for a relative [b]. *)
Definition path_join (a b : string) : string :=
  if String.eqb a "" then b
  else if Ascii.eqb (default "/"%char (String.get (String.length a - 1) a)) "/"
  then a +:+ b else a +:+ "/" +:+ b.

(** An option [get] cannot find, and one it returns. *)
Definition missing (c : ConfigParser) (section opt : string) : Prop :=
  has_option c section opt = false.

Definition readable (c : ConfigParser) (section opt : string) : Prop :=
  exists v, cp_get c section opt = inr v.

Definition optional_ok (c : ConfigParser) (section opt : string) : Prop :=
  has_option c section opt = true -> readable c section opt.

(** A required option is missing, and every option the constructor reads
    before it (in the order of the code) is read without error. *)
Definition required_option_missing (c : ConfigParser) : Prop :=
  missing c "aws" "s3_access_key_id"
  \/ (readable c "aws" "s3_access_key_id" /\ missing c "aws" "s3_secret_access_key")
  \/ (readable c "aws" "s3_access_key_id" /\ readable c "aws" "s3_secret_access_key"
      /\ optional_ok c "aws" "s3_region_name" /\ optional_ok c "aws" "s3_endpoint_url"
      /\ missing c "datalake" "bronze_bucket").

Section Construction.
(** The outside of the constructor: the directory of the module, the
    configuration files that exist (parsed, or the parse error),
    [requests.get] and [boto3.client]. *)
Variable module_dir : string.
Variable config_files : string -> option (PyExc + ConfigParser).
Variable requests_get : string -> PyExc + Response.
Variable boto3_client : list (string * string) -> PyExc + S3Client.

Definition FileConfigProvider (config_path : option string) : ConfigProvider :=
  let path :=
    match config_path with
    | Some p => if String.eqb p "" then path_join module_dir "config.ini" else p
    | None => path_join module_dir "config.ini"
    end in
  mkProvider
    match config_files path with
    | None => inl (OtherError "FileNotFoundError" ("Config file not found at " +:+ path))
    | Some r => r
    end.

Definition S3DataStorage_init (creds : S3Credentials) (bucket_name : string)
    (cb : option (Z -> list LogRecord)) : M World DataStorage :=
  record_call (CallBoto3Client (client_kwargs creds)) ;;;
  client <- Eff.lift_result (boto3_client (client_kwargs creds)) ;;
  Eff.ret (mkStorage (S3DataStorage_store (mkS3 creds bucket_name cb client))).

Definition DataLakeIngester_init (base_path : string)
    (config_provider : option ConfigProvider)
    (collector : option DataCollector)
    (storage : option DataStorage) : M World DataLakeIngester :=
  let provider := default (FileConfigProvider None) config_provider in
  record_call CallGetConfig ;;;
  cfg <- Eff.lift_result (get_config provider) ;;
  let collector' := default (HttpDataCollector requests_get) collector in
  storage' <-
    match storage with
    | None =>
        s3_credentials <- _get_s3_credentials cfg ;;
        bronze_bucket <- _bronze_bucket_name cfg ;;
        S3DataStorage_init s3_credentials bronze_bucket (Some _s3_progress_callback)
    | Some st => Eff.ret st
    end ;;
  Eff.ret (mkIngester base_path cfg collector' storage').
End Construction.

End Ingester.

(** ** The relational engine behind [data_lake_transformer.py] *)

Module Sql.

Inductive Scalar :=
| SNull
| SBool (b : bool)
| SInt (n : Z)
| SStr (s : string)
| STimestamp (micros : Z).

#[global] Instance Scalar_eq_dec : EqDecision Scalar.
Proof. solve_decision. Defined.

(** A cell: a scalar (NULL included) or a struct, its fields in the order
    of the struct type. *)
#[warnings="-register-all"] Inductive Value :=
| VScalar (s : Scalar)
| VStruct (fields : list Value).

Definition Value_eq_dec : forall a b : Value, {a = b} + {a <> b}.
Proof.
  fix IH 1. intros [s1 | l1] [s2 | l2]; try (right; congruence).
  - destruct (decide (s1 = s2)); [left | right]; congruence.
  - destruct (List.list_eq_dec IH l1 l2); [left | right]; congruence.
Defined.

#[global] Instance Value_EqDecision : EqDecision Value := Value_eq_dec.

Definition null : Value := VScalar SNull.

#[warnings="-register-all"] Inductive Ty :=
| TAtom (name : string)
| TStruct (fields : list (string * Ty)).

(** A table: named, typed columns and rows of one cell per column. *)
Record Relation := mkRel {
  schema : list (string * Ty);
  rows : list (list Value)
}.

Definition columns (r : Relation) : list string := map fst (schema r).

(** Identifiers match without regard to case. *)
Definition lower_ascii (c : ascii) : ascii :=
  let n := nat_of_ascii c in
  if (65 <=? n)%nat && (n <=? 90)%nat then ascii_of_nat (n + 32) else c.

Fixpoint lower (s : string) : string :=
  match s with
  | EmptyString => ""
  | String c s' => String (lower_ascii c) (lower s')
  end.

Definition ident_eqb (a b : string) : bool := String.eqb (lower a) (lower b).

Fixpoint find_col (name : string) (cols : list (string * Ty)) (i : nat)
  : option (nat * Ty) :=
  match cols with
  | [] => None
  | (c, t) :: rest =>
      if ident_eqb name c then Some (i, t) else find_col name rest (S i)
  end.

(** The expressions of the two queries. *)
Inductive Expr :=
| Col (c : string)
| Field (c f : string)
| CastTimestamp (e : Expr)
| DateTruncDay (e : Expr).

Inductive BExpr :=
| BCol (i : nat)
| BField (i j : nat)
| BCast (b : BExpr)
| BTrunc (b : BExpr).

Definition binder_error (what : string) : PyExc :=
  OtherError "duckdb.BinderException" ("Binder Error: " +:+ what).

Definition conversion_error (what : string) : PyExc :=
  OtherError "duckdb.ConversionException" ("Conversion Error: " +:+ what).

Definition timestamp_ty : Ty := TAtom "TIMESTAMP".

(** Name resolution against the schema of the FROM relation. *)
Fixpoint bind_expr (sch : list (string * Ty)) (e : Expr) : PyExc + (BExpr * Ty) :=
  match e with
  | Col c =>
      match find_col c sch 0 with
      | Some (i, t) => inr (BCol i, t)
      | None => inl (binder_error ("column " +:+ c +:+ " not found"))
      end
  | Field c f =>
      match find_col c sch 0 with
      | Some (i, TStruct fs) =>
          match find_col f fs 0 with
          | Some (j, t) => inr (BField i j, t)
          | None => inl (binder_error ("no field " +:+ f +:+ " in " +:+ c))
          end
      | Some (_, TAtom _) => inl (binder_error (c +:+ " is not a struct"))
      | None => inl (binder_error ("column " +:+ c +:+ " not found"))
      end
  | CastTimestamp e' =>
      match bind_expr sch e' with
      | inr (b, _) => inr (BCast b, timestamp_ty)
      | inl err => inl err
      end
  | DateTruncDay e' =>
      match bind_expr sch e' with
      | inr (b, _) => inr (BTrunc b, timestamp_ty)
      | inl err => inl err
      end
  end.

Definition micros_per_day : Z := 86400000000.

Section Eval.
(** The engine's reading of a text as a timestamp (microseconds since
    the epoch), [None] when the text is not one. *)
Variable parse_timestamp : string -> option Z.

(** [CAST(v AS TIMESTAMP)] *)
Definition cast_timestamp (v : Value) : PyExc + Value :=
  match v with
  | VScalar SNull => inr null
  | VScalar (STimestamp t) => inr (VScalar (STimestamp t))
  | VScalar (SStr s) =>
      match parse_timestamp s with
      | Some t => inr (VScalar (STimestamp t))
      | None => inl (conversion_error ("invalid timestamp " +:+ s))
      end
  | _ => inl (conversion_error "unsupported cast to TIMESTAMP")
  end.

(** [DATE_TRUNC('day', v)]: midnight of the same day. *)
Definition date_trunc_day (v : Value) : PyExc + Value :=
  match v with
  | VScalar SNull => inr null
  | VScalar (STimestamp t) =>
      inr (VScalar (STimestamp (t - t mod micros_per_day)))
  | _ => inl (binder_error "date_trunc needs a timestamp")
  end.

Fixpoint eval (b : BExpr) (row : list Value) : PyExc + Value :=
  match b with
  | BCol i => inr (nth i row null)
  | BField i j =>
      match nth i row null with
      | VStruct vs => inr (nth j vs null)
      | VScalar _ => inr null
      end
  | BCast b' =>
      match eval b' row with
      | inr v => cast_timestamp v
      | inl e => inl e
      end
  | BTrunc b' =>
      match eval b' row with
      | inr v => date_trunc_day v
      | inl e => inl e
      end
  end.

Fixpoint mapM {A B} (f : A -> PyExc + B) (l : list A) : PyExc + list B :=
  match l with
  | [] => inr []
  | a :: l' =>
      match f a with
      | inl e => inl e
      | inr b =>
          match mapM f l' with
          | inl e => inl e
          | inr bs => inr (b :: bs)
          end
      end
  end.

Definition eval_row (bs : list BExpr) (row : list Value) : PyExc + list Value :=
  mapM (fun b => eval b row) bs.

(** [SELECT e1 AS a1, ..., en AS an FROM rel] *)
Definition select (items : list (Expr * string)) (rel : Relation)
  : PyExc + Relation :=
  match mapM (fun it => bind_expr (schema rel) it.1) items with
  | inl e => inl e
  | inr bound =>
      match mapM (eval_row (map fst bound)) (rows rel) with
      | inl e => inl e
      | inr out => inr (mkRel (zip (map snd items) (map snd bound)) out)
      end
  end.

(** One more row for the group [k]: its counter goes up, or a new group
    starts at 1. *)
Fixpoint bump (k : list Value) (acc : list (list Value * Z))
  : list (list Value * Z) :=
  match acc with
  | [] => [(k, 1)]
  | (k', n) :: rest =>
      if decide (k = k') then (k', n + 1) :: rest
      else (k', n) :: bump k rest
  end.

Definition group_count (keys : list (list Value)) : list (list Value * Z) :=
  fold_left (fun acc k => bump k acc) keys [].

(** [SELECT e1 AS a1, ..., en AS an, count( * ) AS c FROM rel GROUP BY ALL]:
    the groups are the distinct values of the non-aggregated items. *)
Definition select_count_group_by_all
    (items : list (Expr * string)) (count_alias : string) (rel : Relation)
  : PyExc + Relation :=
  match mapM (fun it => bind_expr (schema rel) it.1) items with
  | inl e => inl e
  | inr bound =>
      match mapM (eval_row (map fst bound)) (rows rel) with
      | inl e => inl e
      | inr keys =>
          inr (mkRel
                 (zip (map snd items) (map snd bound)
                    ++ [(count_alias, TAtom "BIGINT")])
                 (map (fun g => g.1 ++ [VScalar (SInt g.2)]) (group_count keys)))
      end
  end.
(** The cell an expression denotes in a row of a relation with schema
    [sch] (NULL where the expression does not bind or evaluate). *)
Definition cell_result (sch : list (string * Ty)) (e : Expr) (row : list Value)
  : PyExc + Value :=
  match bind_expr sch e with
  | inr (b, _) => eval b row
  | inl err => inl err
  end.

Definition cell (sch : list (string * Ty)) (e : Expr) (row : list Value) : Value :=
  match cell_result sch e row with
  | inr v => v
  | inl _ => null
  end.

(** How often [k] occurs in [keys]. *)
Fixpoint occurrences (k : list Value) (keys : list (list Value)) : Z :=
  match keys with
  | [] => 0
  | k' :: rest => (if decide (k = k') then 1 else 0) + occurrences k rest
  end.

(** The counter of group [k] in an accumulator, and the sum of all
    counters. *)
Fixpoint get_count (k : list Value) (acc : list (list Value * Z)) : Z :=
  match acc with
  | [] => 0
  | (k', n) :: rest => (if decide (k = k') then n else 0) + get_count k rest
  end.

Fixpoint total (acc : list (list Value * Z)) : Z :=
  match acc with
  | [] => 0
  | (_, n) :: rest => n + total rest
  end.
End Eval.

End Sql.

(** ** [data_lake_transformer.py] *)

Module Transformer.
Import Sql.

(** The session: the log, the tables of the DuckDB connection, the files
    written so far, and how many clock-and-uuid draws were made. *)
Record TState := mkT {
  t_log : list LogRecord;
  catalog : gmap string Relation;
  exports : list (string * Relation);
  draws : nat
}.

(** What [con.table(name)] returns: a lazy reference to the table. *)
Record TableHandle := mkHandle { alias : string }.

(** The attributes an instance has once [__init__] has run, and the names
    its class defines; [self.name] finds a name in one of the two. *)
Definition instance_attributes : list string := ["con"].

Definition class_attributes : list string :=
  ["__init__"; "duckdb_connection"; "serialise_raw_data";
   "aggregate_silver_data"; "register_raw_gharchive"; "clean_raw_gharchive";
   "aggregate_raw_gharchive"; "_create_sink_path";
   "_extract_filename_from_s3_path"; "_generate_export_filename"; "__del__"].

Definition getattr_self (name : string) : PyExc + unit :=
  if existsb (String.eqb name) (instance_attributes ++ class_attributes)
  then inr tt
  else inl (AttributeError
              ("'DataLakeTransformer' object has no attribute " +:+ Text.repr name)).

Definition logging (l : Level) (msg : string) : M TState unit :=
  Eff.modify (fun s => mkT (t_log s ++ [mkLog l msg]) (catalog s) (exports s) (draws s)).

(** [self.logger.error(msg)]: the attribute is looked up first. *)
Definition self_logger_error (msg : string) : M TState unit :=
  Eff.lift_result (getattr_self "logger") ;;;
  logging ERROR msg.

(** [str(uuid)]: 32 hexadecimal digits in groups of 8-4-4-4-12. *)
Definition str_uuid (u : Z) : string :=
  let h := Text.hex_fixed 32 u in
  String.substring 0 8 h +:+ "-" +:+ String.substring 8 4 h +:+ "-" +:+
  String.substring 12 4 h +:+ "-" +:+ String.substring 16 4 h +:+ "-" +:+
  String.substring 20 12 h.

(** The body of [_generate_export_filename] once [datetime.now()] and
    [uuid.uuid4()] have been drawn; an empty [partition_key] is falsy. *)
Definition export_filename (now : datetime) (uuid : Z)
    (data_type file_extension : string) (partition_key : option string) : string :=
  let timestamp := strftime now "%Y%m%d%H%M%S" in
  let unique_id := Text.take 8 (str_uuid uuid) in
  let filename_parts := [data_type; timestamp; unique_id] in
  let filename_parts :=
    match partition_key with
    | Some pk =>
        if String.eqb pk "" then filename_parts
        else Text.list_insert_at 2 pk filename_parts
    | None => filename_parts
    end in
  Text.join "_" filename_parts +:+ "." +:+ file_extension.

Definition clean_items : list (Expr * string) :=
  [(Col "id", "event_id");
   (Field "actor" "id", "user_id");
   (Field "actor" "login", "user_name");
   (Field "actor" "display_login", "user_display_name");
   (Col "type", "event_type");
   (Field "repo" "id", "repo_id");
   (Field "repo" "name", "repo_name");
   (Field "repo" "url", "repo_url");
   (Col "created_at", "event_date")].

Definition agg_items : list (Expr * string) :=
  [(Col "event_type", "event_type");
   (Col "repo_id", "repo_id");
   (Col "repo_name", "repo_name");
   (Col "repo_url", "repo_url");
   (DateTruncDay (CastTimestamp (Col "event_date")), "event_date")].

Section Engine.
(** The outside of the session: timestamp parsing, the JSON reader
    ([ignore_errors=true] is its business), the reader behind a quoted FROM
    target that is not a table, the parquet writer, the clock and the uuid
    source (indexed by the number of earlier draws). *)
Variable parse_timestamp : string -> option Z.
Variable read_json_auto : string -> PyExc + Relation.
Variable read_path : string -> PyExc + Relation.
Variable write_file : string -> Relation -> option PyExc.
Variable now : nat -> datetime.
Variable uuid4 : nat -> Z.

(** [FROM '<target>']: a table of the session, else a file to scan. *)
Definition resolve (tables : gmap string Relation) (target : string)
  : PyExc + Relation :=
  match tables !! target with
  | Some r => inr r
  | None => read_path target
  end.

Definition from_target (target : string) : M TState Relation :=
  fun s => (resolve (catalog s) target, s).

Definition create_or_replace_table (name : string) (r : Relation) : M TState unit :=
  Eff.modify (fun s => mkT (t_log s) (<[name := r]> (catalog s)) (exports s) (draws s)).

Definition register_raw_gharchive (source_path : string) : M TState TableHandle :=
  logging INFO ("DuckDB - collect source data files: " +:+ source_path) ;;;
  raw <- Eff.lift_result (read_json_auto source_path) ;;
  create_or_replace_table "gharchive_raw" raw ;;;
  Eff.ret (mkHandle "gharchive_raw").

Definition clean_raw_gharchive (raw_dataset : string) : M TState TableHandle :=
  logging INFO "DuckDB - clean data" ;;;
  raw <- from_target raw_dataset ;;
  cleaned <- Eff.lift_result (select parse_timestamp clean_items raw) ;;
  create_or_replace_table "gharchive_clean" cleaned ;;;
  Eff.ret (mkHandle "gharchive_clean").

Definition aggregate_raw_gharchive (raw_dataset : string) : M TState TableHandle :=
  raw <- from_target raw_dataset ;;
  agg <- Eff.lift_result
           (select_count_group_by_all parse_timestamp agg_items "event_count" raw) ;;
  create_or_replace_table "gharchive_agg" agg ;;;
  Eff.ret (mkHandle "gharchive_agg").

Definition _generate_export_filename
    (data_type file_extension : string) (partition_key : option string)
  : M TState string :=
  fun s =>
    (inr (export_filename (now (draws s)) (uuid4 (draws s))
            data_type file_extension partition_key),
     mkT (t_log s) (catalog s) (exports s) (S (draws s))).

Definition _create_sink_path (data_type sink_bucket sink_key_path : string)
  : M TState string :=
  sink_filename <- _generate_export_filename data_type "parquet" None ;;
  Eff.ret ("s3://" +:+ sink_bucket +:+ "/" +:+ sink_key_path +:+ "/" +:+ sink_filename).

Definition write_parquet (h : TableHandle) (path : string) : M TState unit :=
  fun s =>
    match catalog s !! alias h with
    | None =>
        (inl (OtherError "duckdb.CatalogException"
                ("Catalog Error: Table with name " +:+ alias h +:+ " does not exist!")), s)
    | Some r =>
        match write_file path r with
        | Some e => (inl e, s)
        | None => (inr tt, mkT (t_log s) (catalog s) (exports s ++ [(path, r)]) (draws s))
        end
    end.

(** The [try] block of [serialise_raw_data]. *)
Definition serialise_raw_data_try (source_path sink_bucket sink_key_path : string)
  : M TState unit :=
  gharchive_raw_result <- register_raw_gharchive source_path ;;
  gharchive_clean_result <- clean_raw_gharchive (alias gharchive_raw_result) ;;
  sink_path <- _create_sink_path "clean" sink_bucket sink_key_path ;;
  logging INFO ("DuckDB - serialise and export cleaned data to " +:+ sink_path) ;;;
  write_parquet gharchive_clean_result sink_path.

Definition serialise_raw_data (source_path sink_bucket sink_key_path : string)
  : M TState unit :=
  Eff.try_except
    (serialise_raw_data_try source_path sink_bucket sink_key_path)
    (fun e =>
       self_logger_error ("Error in serialise_raw_data: " +:+ str_exc e) ;;;
       Eff.raise e).

(** The [try] block of [aggregate_silver_data]. *)
Definition aggregate_silver_data_try (source_path sink_bucket sink_key_path : string)
  : M TState unit :=
  logging INFO ("DuckDB - aggregate raw data in " +:+ source_path) ;;;
  gharchive_agg_result <- aggregate_raw_gharchive source_path ;;
  sink_path <- _create_sink_path "agg" sink_bucket sink_key_path ;;
  logging INFO ("DuckDB - export aggregated data to " +:+ sink_path) ;;;
  write_parquet gharchive_agg_result sink_path.

Definition aggregate_silver_data (source_path sink_bucket sink_key_path : string)
  : M TState unit :=
  Eff.try_except
    (aggregate_silver_data_try source_path sink_bucket sink_key_path)
    (fun e =>
       self_logger_error ("Error in aggregate_silver_data: " +:+ str_exc e) ;;;
       Eff.raise e).
(** The two public operations, their [try] blocks and the whole calls. *)
Inductive Job := SerialiseRaw | AggregateSilver.

Definition job_try (j : Job) : string -> string -> string -> M TState unit :=
  match j with
  | SerialiseRaw => serialise_raw_data_try
  | AggregateSilver => aggregate_silver_data_try
  end.

Definition job_call (j : Job) : string -> string -> string -> M TState unit :=
  match j with
  | SerialiseRaw => serialise_raw_data
  | AggregateSilver => aggregate_silver_data
  end.
End Engine.

(** The group a source row falls in: the cells of the five grouping items. *)
Definition agg_key (parse_timestamp : string -> option Z)
    (sch : list (string * Ty)) (row : list Value) : list Value :=
  map (fun it => cell parse_timestamp sch it.1 row) agg_items.

(** The first five cells of an aggregate row (its group) and the sixth
    (its count). *)
Definition group_of (row : list Value) : list Value := take 5 row.

Definition event_count (row : list Value) : Z :=
  match nth 5 row null with
  | VScalar (SInt n) => n
  | _ => 0
  end.

Definition sum_event_count (out : list (list Value)) : Z :=
  fold_right (fun row acc => event_count row + acc) 0 out.

Definition no_logger_error : PyExc :=
  AttributeError "'DataLakeTransformer' object has no attribute 'logger'".

End Transformer.

(** ** [scripts/run_batch_agg_data.py] *)

Module AggDriver.

(** A method signature: its qualified name and its parameters after
    [self], all of them required (no defaults, no star parameters). *)
Record Signature := mkSig { qualname : string; params : list string }.

Definition DataLakeTransformer_init_sig : Signature :=
  mkSig "DataLakeTransformer.__init__" [].

Definition aggregate_silver_data_sig : Signature :=
  mkSig "DataLakeTransformer.aggregate_silver_data"
        ["source_path"; "sink_bucket"; "sink_key_path"].

Definition quoted (n : string) : string := "'" +:+ n +:+ "'".

Fixpoint index_of (n : string) (l : list string) (i : nat) : option nat :=
  match l with
  | [] => None
  | x :: l' => if String.eqb n x then Some i else index_of n l' (S i)
  end.

(** The first keyword that names no parameter, or one already given
    positionally. *)
Fixpoint keyword_error (sg : Signature) (nargs : nat) (kwargs : list string)
  : option PyExc :=
  match kwargs with
  | [] => None
  | k :: rest =>
      match index_of k (params sg) 0 with
      | None =>
          Some (TypeError (qualname sg +:+ "() got an unexpected keyword argument "
                           +:+ quoted k))
      | Some i =>
          if (i <? nargs)%nat
          then Some (TypeError (qualname sg +:+ "() got multiple values for argument "
                                +:+ quoted k))
          else keyword_error sg nargs rest
      end
  end.

Fixpoint format_names (names : list string) : string :=
  match names with
  | [] => ""
  | [a] => quoted a
  | [a; b] => quoted a +:+ " and " +:+ quoted b
  | a :: rest =>
      match rest with
      | [b; c] => quoted a +:+ ", " +:+ quoted b +:+ ", and " +:+ quoted c
      | _ => quoted a +:+ ", " +:+ format_names rest
      end
  end.

(** Binding the arguments of a call [obj.f(a1, ..., an, k1=..., ...)]:
    keywords are checked first, then the positional count, then the
    parameters left without a value. *)
Definition bind_arguments (sg : Signature) (nargs : nat) (kwargs : list string)
  : option PyExc :=
  match keyword_error sg nargs kwargs with
  | Some e => Some e
  | None =>
      let np := length (params sg) in
      if (np <? nargs)%nat then
        Some (TypeError
                (qualname sg +:+ "() takes " +:+ Text.decimal (Z.of_nat (S np))
                 +:+ " positional argument" +:+ (if (np =? 0)%nat then "" else "s")
                 +:+ " but " +:+ Text.decimal (Z.of_nat (S nargs)) +:+ " were given"))
      else
        let missing :=
          filter (fun p => negb (existsb (String.eqb p) kwargs))
                 (drop nargs (params sg)) in
        match missing with
        | [] => None
        | _ =>
            Some (TypeError
                    (qualname sg +:+ "() missing "
                     +:+ Text.decimal (Z.of_nat (length missing))
                     +:+ " required positional argument"
                     +:+ (if (length missing =? 1)%nat then "" else "s")
                     +:+ ": " +:+ format_names missing))
        end
  end.

(** The log of the run and the methods whose body was entered. *)
Record DState := mkD { d_log : list LogRecord; d_entered : list string }.

Definition root_logging (l : Level) (msg : string) : M DState unit :=
  Eff.modify (fun s => mkD (d_log s ++ [mkLog l msg]) (d_entered s)).

(** A call: the body runs only if the arguments bind. *)
Definition py_call {A} (sg : Signature) (nargs : nat) (kwargs : list string)
    (body : M DState A) : M DState A :=
  match bind_arguments sg nargs kwargs with
  | Some e => Eff.raise e
  | None =>
      Eff.modify (fun s => mkD (d_log s) (d_entered s ++ [qualname sg])) ;;;
      body
  end.

Definition dt_key (d : datetime) : list Z :=
  [year d; month d; day d; hour d; minute d; second d; microsecond d].

Fixpoint lex_ltb (a b : list Z) : bool :=
  match a, b with
  | x :: a', y :: b' => (x <? y) || ((x =? y) && lex_ltb a' b')
  | [], _ :: _ => true
  | _, [] => false
  end.

Definition dt_ltb (a b : datetime) : bool := lex_ltb (dt_key a) (dt_key b).
Definition dt_leb (a b : datetime) : bool := negb (dt_ltb b a).

(** [d + timedelta(days=1)] *)
Definition next_day (d : datetime) : PyExc + datetime :=
  if day d <? days_in_month (year d) (month d) then
    inr (mkDatetime (year d) (month d) (day d + 1)
           (hour d) (minute d) (second d) (microsecond d))
  else if month d <? 12 then
    inr (mkDatetime (year d) (month d + 1) 1
           (hour d) (minute d) (second d) (microsecond d))
  else if year d <? 9999 then
    inr (mkDatetime (year d + 1) 1 1
           (hour d) (minute d) (second d) (microsecond d))
  else inl (OtherError "OverflowError" "date value out of range").

Inductive Exit := ExitOk | ExitUsage (msg : string).

Section Main.
(** The bodies of the two methods the driver calls, whatever they do. *)
Variable TransformerObj : Type.
Variable init_body : M DState TransformerObj.
Variable aggregate_body : TransformerObj -> list datetime -> M DState unit.

Fixpoint day_loop (fuel : nat) (transformer : TransformerObj)
    (current_date end_date : datetime) : M DState unit :=
  match fuel with
  | O => Eff.ret tt
  | S fuel' =>
      if dt_leb current_date end_date then
        root_logging INFO ("processing for day " +:+ str_date current_date) ;;;
        py_call aggregate_silver_data_sig 1 []
          (aggregate_body transformer [current_date]) ;;;
        root_logging INFO ("Successfully aggregated bronze data for "
                      +:+ str_datetime current_date) ;;;
        next <- Eff.lift_result (next_day current_date) ;;
        day_loop fuel' transformer next end_date
      else Eff.ret tt
  end.

(** One iteration per day of the range, and one to leave the loop. *)
Definition days_bound (start_date end_date : datetime) : nat :=
  Z.to_nat ((year end_date - year start_date + 1) * 366 + 1).

Definition main (start_date end_date : datetime) : DState -> Exit * DState :=
  fun s =>
    if dt_ltb end_date start_date then
      (ExitUsage "End date must be greater than or equal to start date", s)
    else
      let run :=
        Eff.try_except
          (transformer <-
             py_call DataLakeTransformer_init_sig 0 ["dataset_base_path"] init_body ;;
           day_loop (days_bound start_date end_date) transformer start_date end_date)
          (fun e => root_logging ERROR ("Error in aggregate_silver_data: " +:+ str_exc e)) in
      (ExitOk, (run s).2).
End Main.

End AggDriver.

(** ** Concrete inputs used below *)

Module Examples.
Import Sql.

Definition jan1_0300 : datetime := mkDatetime 2023 1 1 3 0 0 0.
Definition jan1_0900 : datetime := mkDatetime 2023 1 1 9 0 0 0.
Definition jan1_1200 : datetime := mkDatetime 2023 1 1 12 0 0 0.
Definition jan1 : datetime := mkDatetime 2023 1 1 0 0 0 0.
Definition jan3 : datetime := mkDatetime 2023 1 3 0 0 0 0.

(** *** Ingester *)

Definition created_response : Ingester.Response :=
  Ingester.mkResponse 201 "Created"
    "http://data.gharchive.org/2023-01-01-9.json.gz" [x7b; x7d].

Definition not_found (u : string) : PyExc + Ingester.Response :=
  inr (Ingester.mkResponse 404 "Not Found" u []).

Definition plain_values (section opt value : string) : PyExc + string :=
  inr value.

Definition empty_config : Ingester.ConfigParser :=
  Ingester.mkConfig ∅ ∅ plain_values.

(** An [aws] section with the access key only. *)
Definition config_without_secret : Ingester.ConfigParser :=
  Ingester.mkConfig ∅
    {[ "aws" := {[ "s3_access_key_id" := "AKIA" ]} ]} plain_values.

(** A storage that accepts everything and keeps nothing, like the mock of
    the unit tests. *)
Definition mock_storage : Ingester.DataStorage :=
  Ingester.mkStorage (fun _ _ => Eff.ret tt).

Definition mock_collector : Ingester.DataCollector :=
  Ingester.mkCollector (fun _ => Eff.ret (Some (Ingester.mkBytesIO [x7b; x7d] 0))).

Definition no_files (path : string) : option (PyExc + Ingester.ConfigParser) := None.

Definition no_client (kwargs : list (string * string)) : PyExc + Ingester.S3Client :=
  inl (OtherError "RuntimeError" "no client in this example").

Definition empty_world : Ingester.World := Ingester.mkWorld [] ∅ [].

Definition failing_ingester : Ingester.DataLakeIngester :=
  Ingester.mkIngester "gharchive/events" empty_config
    (Ingester.HttpDataCollector not_found) mock_storage.

(** *** Transformer *)

Definition varchar : Ty := TAtom "VARCHAR".
Definition bigint : Ty := TAtom "BIGINT".

Definition str (s : string) : Value := VScalar (SStr s).
Definition int (n : Z) : Value := VScalar (SInt n).
Definition ts (micros : Z) : Value := VScalar (STimestamp micros).

(** Two events as [read_json_auto] lands them, with fields the cleaning
    query does not name ([payload], [public], [actor.gravatar_id]). *)
Definition raw_events : Relation :=
  mkRel
    [("id", varchar); ("type", varchar);
     ("actor", TStruct [("id", bigint); ("login", varchar);
                        ("display_login", varchar); ("gravatar_id", varchar)]);
     ("repo", TStruct [("id", bigint); ("name", varchar); ("url", varchar)]);
     ("payload", TStruct [("size", bigint)]);
     ("public", TAtom "BOOLEAN");
     ("created_at", timestamp_ty)]
    [[str "26163418658"; str "PushEvent";
      VStruct [int 7; str "octocat"; str "octocat"; str ""];
      VStruct [int 42; str "octo/repo"; str "https://api.github.com/repos/octo/repo"];
      VStruct [int 1]; VScalar (SBool true); ts 1672564500000000];
     [str "26163418659"; str "WatchEvent";
      null;
      VStruct [int 42; str "octo/repo"; str "https://api.github.com/repos/octo/repo"];
      null; VScalar (SBool true); ts 1672592400000000]].

(** Three cleaned events of one repository: two on 2023-01-01 and one on
    2023-01-02. *)
Definition clean_events : Relation :=
  mkRel
    [("event_id", varchar); ("user_id", bigint); ("user_name", varchar);
     ("user_display_name", varchar); ("event_type", varchar);
     ("repo_id", bigint); ("repo_name", varchar); ("repo_url", varchar);
     ("event_date", timestamp_ty)]
    [[str "1"; int 7; str "octocat"; str "octocat"; str "PushEvent";
      int 42; str "octo/repo"; str "https://api.github.com/repos/octo/repo";
      ts 1672564500000000];
     [str "2"; int 8; str "hubot"; str "hubot"; str "PushEvent";
      int 42; str "octo/repo"; str "https://api.github.com/repos/octo/repo";
      ts 1672592400000000];
     [str "3"; int 7; str "octocat"; str "octocat"; str "PushEvent";
      int 42; str "octo/repo"; str "https://api.github.com/repos/octo/repo";
      ts 1672621200000000]].

Definition no_parse (s : string) : option Z := None.

Definition no_such_file (path : string) : PyExc + Relation :=
  inl (OtherError "duckdb.IOException"
         ("IO Error: No files found that match the pattern " +:+ path)).

Definition write_ok (path : string) (r : Relation) : option PyExc := None.

Definition fixed_clock (n : nat) : datetime := jan1_0900.
Definition fixed_uuid (n : nat) : Z := 2 ^ 127 + 12345.

Definition empty_session : Transformer.TState := Transformer.mkT [] ∅ [] 0.

Definition session_with_raw : Transformer.TState :=
  Transformer.mkT [] {[ "gharchive_raw" := raw_events ]} [] 0.

Definition session_with_clean : Transformer.TState :=
  Transformer.mkT [] {[ "clean_events" := clean_events ]} [] 0.

(** *** Driver *)

Definition init_done : M AggDriver.DState unit := Eff.ret tt.
Definition aggregate_done (t : unit) (args : list datetime)
  : M AggDriver.DState unit := Eff.ret tt.
Definition fresh_run : AggDriver.DState := AggDriver.mkD [] [].

End Examples.

(** ** [_extract_filename_from_s3_path] and the [os.path] functions under it *)

Module Paths.

Fixpoint starts_with (p s : string) : bool :=
  match p, s with
  | EmptyString, _ => true
  | String a p', String b s' => Ascii.eqb a b && starts_with p' s'
  | String _ _, EmptyString => false
  end.

(** [s.replace(old, '')] for a non-empty [old]: occurrences are found from
    the left and do not overlap; [skip] counts the characters of the
    occurrence just found that are still to be dropped. *)
Fixpoint remove_go (old : string) (skip : nat) (s : string) : string :=
  match s with
  | EmptyString => ""
  | String c s' =>
      match skip with
      | S k => remove_go old k s'
      | O =>
          if starts_with old s then remove_go old (String.length old - 1) s'
          else String c (remove_go old 0 s')
      end
  end.

Definition str_remove (old s : string) : string := remove_go old 0 s.

(** [s.rfind(c)]: the index of the last [c], or -1. *)
Fixpoint rfind_from (c : ascii) (s : string) (i last : Z) : Z :=
  match s with
  | EmptyString => last
  | String d s' => rfind_from c s' (i + 1) (if Ascii.eqb c d then i else last)
  end.

Definition rfind (c : ascii) (s : string) : Z := rfind_from c s 0 (-1).

Fixpoint drop_chars (k : nat) (s : string) : string :=
  match k, s with
  | S k', String _ s' => drop_chars k' s'
  | _, _ => s
  end.

(** The slices [p[i:]] and [p[:i]] for an index [0 <= i]. *)
Definition slice_from (i : Z) (p : string) : string := drop_chars (Z.to_nat i) p.
Definition slice_to (i : Z) (p : string) : string := Text.take (Z.to_nat i) p.

(** [posixpath.basename] *)
Definition basename (p : string) : string :=
  let i := rfind "/" p + 1 in
  slice_from i p.

(** The loop of [genericpath._splitext] that skips leading dots: is there a
    character other than a dot at [filenameIndex] or in the [fuel - 1]
    positions after it? *)
Fixpoint has_name_char (fuel : nat) (p : string) (filenameIndex : nat) : bool :=
  match fuel with
  | O => false
  | S fuel' =>
      match String.get filenameIndex p with
      | Some ch =>
          if Ascii.eqb ch "." then has_name_char fuel' p (S filenameIndex)
          else true
      | None => true
      end
  end.

(** [posixpath.splitext] *)
Definition splitext (p : string) : string * string :=
  let sepIndex := rfind "/" p in
  let dotIndex := rfind "." p in
  if sepIndex <? dotIndex then
    if has_name_char (Z.to_nat (dotIndex - (sepIndex + 1))) p (Z.to_nat (sepIndex + 1))
    then (slice_to dotIndex p, slice_from dotIndex p)
    else (p, "")
  else (p, "").

Definition compression_extensions : list string :=
  [".gz"; ".bz2"; ".zip"; ".xz"; ".zst"].

Definition _extract_filename_from_s3_path
    (s3_path : string) (remove_extension : bool) : string :=
  let path_without_prefix := str_remove "s3://" s3_path in
  let full_filename := basename path_without_prefix in
  if remove_extension then
    let '(filename, extension) := splitext full_filename in
    if existsb (String.eqb (Sql.lower extension)) compression_extensions
    then (splitext filename).1
    else filename
  else full_filename.

End Paths.

(** ** The connection of a [DataLakeTransformer]: [__init__],
    [duckdb_connection] and [__del__] *)

Module Lifecycle.

(** What happened to connections, oldest first; an operation that raises
    leaves no event. *)
Inductive DbEvent :=
| Connect
| InstallExtension (name : string)
| LoadExtension (name : string)
| Close.

#[global] Instance DbEvent_eq_dec : EqDecision DbEvent.
Proof. solve_decision. Defined.

(** The instance dictionary, as far as the class uses it: is [con] set? *)
Record Instance := mkInstance { has_con : bool }.

Section Db.
(** The outcomes of [duckdb.connect()], [install_extension] and
    [load_extension] ([None]: no error). *)
Variable connect_result : option PyExc.
Variable install_result : string -> option PyExc.
Variable load_result : string -> option PyExc.

Definition db_step (ev : DbEvent) (r : option PyExc) : M (list DbEvent) unit :=
  fun t =>
    match r with
    | Some e => (inl e, t)
    | None => (inr tt, t ++ [ev])
    end.

Definition duckdb_connection : M (list DbEvent) unit :=
  db_step Connect connect_result ;;;
  db_step (InstallExtension "httpfs") (install_result "httpfs") ;;;
  db_step (LoadExtension "httpfs") (load_result "httpfs").

(** [DataLakeTransformer()]: the error raised, if any, and the instance as
    [__init__] left it; [self.con] is assigned only when
    [duckdb_connection] returns. *)
Definition DataLakeTransformer_new (t : list DbEvent)
  : option PyExc * Instance * list DbEvent :=
  match duckdb_connection t with
  | (inr _, t') => (None, mkInstance true, t')
  | (inl e, t') => (Some e, mkInstance false, t')
  end.

(** [__del__]: [if hasattr(self, 'con'): self.con.close()] *)
Definition __del__ (self : Instance) (t : list DbEvent) : list DbEvent :=
  if has_con self then t ++ [Close] else t.

(** An instance is built, used or not, and discarded. *)
Definition build_and_discard (t : list DbEvent) : option PyExc * list DbEvent :=
  let '(r, self, t') := DataLakeTransformer_new t in
  (r, __del__ self t').
End Db.

Definition count_event (ev : DbEvent) (t : list DbEvent) : nat :=
  count_occ DbEvent_eq_dec t ev.

End Lifecycle.

(** ** [scripts/run_batch_ingest_data.py] *)

Module IngestDriver.
Import Ingester.

(** [d.replace(hour=h)] *)
Definition replace_hour (d : datetime) (h : Z) : datetime :=
  mkDatetime (year d) (month d) (day d) h (minute d) (second d) (microsecond d).

(** [range(24)] *)
Definition range24 : list Z := map Z.of_nat (seq 0 24).

(** [for x in l: body(x)] *)
Fixpoint for_each {S A} (body : A -> M S unit) (l : list A) : M S unit :=
  match l with
  | [] => Eff.ret tt
  | x :: l' => body x ;;; for_each body l'
  end.

(** The body of the inner loop, for one hour of [current_date]. *)
Definition ingest_hour (ingester : DataLakeIngester) (current_date : datetime)
    (h : Z) : M World unit :=
  let process_date := replace_hour current_date h in
  logger INFO ("Processing hour " +:+ Text.zpad 2 (Text.decimal h) +:+ ":00 for "
               +:+ str_date process_date) ;;;
  ingest_hourly_gharchive ingester process_date ;;;
  logger INFO ("Successfully ingested gharchive data for "
               +:+ str_datetime process_date).

Fixpoint day_loop (fuel : nat) (ingester : DataLakeIngester)
    (current_date end_date : datetime) : M World unit :=
  match fuel with
  | O => Eff.ret tt
  | S fuel' =>
      if AggDriver.dt_leb current_date end_date then
        logger INFO ("processing for day " +:+ str_date current_date) ;;;
        for_each (ingest_hour ingester current_date) range24 ;;;
        next <- Eff.lift_result (AggDriver.next_day current_date) ;;
        day_loop fuel' ingester next end_date
      else Eff.ret tt
  end.

Section Main.
Variable module_dir : string.
Variable config_files : string -> option (PyExc + ConfigParser).
Variable requests_get : string -> PyExc + Response.
Variable boto3_client : list (string * string) -> PyExc + S3Client.

Definition main (start_date end_date : datetime) : World -> AggDriver.Exit * World :=
  fun w =>
    if AggDriver.dt_ltb end_date start_date then
      (AggDriver.ExitUsage "End date must be greater than or equal to start date", w)
    else
      let run :=
        Eff.try_except
          (ingester <-
             DataLakeIngester_init module_dir config_files requests_get
               boto3_client "gharchive/events" None None None ;;
           day_loop (AggDriver.days_bound start_date end_date) ingester
             start_date end_date)
          (fun e => logger ERROR ("Error in ingest_hourly_gharchive: " +:+ str_exc e)) in
      (AggDriver.ExitOk, (run w).2).
End Main.

(** A collector that returns at [u] from every log state, one that raises
    there, and a storage that accepts every object. *)
Definition collects (c : DataCollector) (u : string) : Prop :=
  forall lg, exists data lg', collect c u lg = (inr data, lg').


Definition always_stores (st : DataStorage) : Prop :=
  forall data key s, exists s', store st data key s = (inr tt, s').

(** The two calls one hour makes when nothing fails. *)
Definition hour_calls (base : string) (current_date : datetime) (h : Z) : list Call :=
  let process_date := replace_hour current_date h in
  [CallCollect (data_url process_date);
   CallStore (_generate_sink_key process_date (data_filename process_date) base)].

End IngestDriver.

(** ** More concrete inputs *)

Module MoreExamples.
Import Sql Examples.

Definition dec31 : datetime := mkDatetime 2023 12 31 0 0 0 0.

Definition ok_response (u : string) : PyExc + Ingester.Response :=
  inr (Ingester.mkResponse 200 "OK" u [x7b; x7d]).

Definition connection_refused (u : string) : PyExc + Ingester.Response :=
  inl (OtherError "requests.ConnectionError" "Connection refused").

(** A client whose uploads overwrite the object at the key, reporting the
    size once. *)
Definition overwriting_client : Ingester.S3Client :=
  Ingester.mkClient
    (fun data bucket key objs =>
       let body := match data with
                   | Some b => Ingester.getvalue b
                   | None => []
                   end in
       ([Z.of_nat (length body)], None, <[(bucket, key) := body]> objs)).

Definition failing_client : Ingester.S3Client :=
  Ingester.mkClient
    (fun data bucket key objs =>
       ([], Some (S3UploadFailedError "Failed to upload: AccessDenied"), objs)).

Definition test_credentials : Ingester.S3Credentials :=
  Ingester.mkCreds "test_key" "test_secret" (Some "test_region") (Some "").

Definition test_storage : Ingester.S3DataStorage :=
  Ingester.mkS3 test_credentials "test_bucket"
    (Some Ingester._s3_progress_callback) overwriting_client.

Definition failing_storage : Ingester.S3DataStorage :=
  Ingester.mkS3 test_credentials "test_bucket" None failing_client.

(** The configuration of the unit tests. *)
Definition test_config : Ingester.ConfigParser :=
  Ingester.mkConfig ∅
    {[ "aws" := {[ "s3_access_key_id" := "test_key";
                   "s3_secret_access_key" := "test_secret";
                   "s3_region_name" := "test_region";
                   "s3_endpoint_url" := "test_endpoint" ]};
       "datalake" := {[ "bronze_bucket" := "test_bucket" ]} ]}
    plain_values.

Definition test_config_file (path : string) : option (PyExc + Ingester.ConfigParser) :=
  if String.eqb path "/app/config.ini" then Some (inr test_config) else None.

Definition good_client (kwargs : list (string * string)) : PyExc + Ingester.S3Client :=
  inr overwriting_client.

Definition working_ingester : Ingester.DataLakeIngester :=
  Ingester.mkIngester "gharchive/events" test_config
    (Ingester.HttpDataCollector ok_response)
    (Ingester.mkStorage (Ingester.S3DataStorage_store test_storage)).

Definition refusing_ingester : Ingester.DataLakeIngester :=
  Ingester.mkIngester "gharchive/events" test_config
    (Ingester.HttpDataCollector ok_response)
    (Ingester.mkStorage (Ingester.S3DataStorage_store failing_storage)).

(** Raw events without the [actor] column. *)
Definition raw_without_actor : Relation :=
  mkRel [("id", varchar); ("type", varchar);
         ("repo", TStruct [("id", bigint); ("name", varchar); ("url", varchar)]);
         ("created_at", timestamp_ty)]
        [[str "1"; str "PushEvent";
          VStruct [int 42; str "octo/repo"; str "u"]; ts 1672564500000000]].

(** Cleaned events whose second [event_date] is not a timestamp. *)
Definition clean_with_bad_date : Relation :=
  mkRel
    [("event_type", varchar); ("repo_id", bigint); ("repo_name", varchar);
     ("repo_url", varchar); ("event_date", varchar)]
    [[str "PushEvent"; int 42; str "octo/repo"; str "u"; str "2023-01-01T09:15:00Z"];
     [str "PushEvent"; int 42; str "octo/repo"; str "u"; str "yesterday"]].

Definition parse_known (s : string) : option Z :=
  if String.eqb s "2023-01-01T09:15:00Z" then Some 1672564500000000 else None.

Definition read_raw_events (path : string) : PyExc + Relation := inr raw_events.
Definition read_clean_events (path : string) : PyExc + Relation := inr clean_events.


(** The ingester the driver builds from the configuration of the tests,
    and the world right after its construction. *)
Definition configured_storage : Ingester.DataStorage :=
  Ingester.mkStorage
    (Ingester.S3DataStorage_store
       (Ingester.mkS3
          (Ingester.mkCreds "test_key" "test_secret" (Some "test_region")
             (Some "test_endpoint"))
          "test_bucket" (Some Ingester._s3_progress_callback) overwriting_client)).

Definition configured_ingester (get : string -> PyExc + Ingester.Response)
  : Ingester.DataLakeIngester :=
  Ingester.mkIngester "gharchive/events" test_config
    (Ingester.HttpDataCollector get) configured_storage.

Definition configured_world : Ingester.World :=
  Ingester.mkWorld [] ∅
    [Ingester.CallGetConfig;
     Ingester.CallBoto3Client
       [("aws_access_key_id", "test_key"); ("aws_secret_access_key", "test_secret");
        ("region_name", "test_region"); ("endpoint_url", "test_endpoint")]].

Definition disk_full (path : string) (r : Relation) : option PyExc :=
  Some (OtherError "duckdb.IOException" "IO Error: could not write file").


End MoreExamples.

(** ** Reading a decimal numeral back *)

Module Numerals.

(** The number a run of decimal digits writes, most significant first,
    continuing from [acc]. *)
Fixpoint number_of (s : string) (acc : Z) : Z :=
  match s with
  | EmptyString => acc
  | String c s' => number_of s' (10 * acc + (Z.of_nat (nat_of_ascii c) - 48))
  end.

End Numerals.

(** ** The two relations as their description reads them

    The cleaning query is described as the projection of nine fields of a
    raw event, the aggregate as a count per event type, repository
    identity and calendar day.  The definitions below say that with
    nothing of the engine in them: a cell is found by the position of its
    name in the schema, a day by integer division. *)

Module Described.
Import Sql.

(** The cell of the column called [name] (NULL when there is none). *)
Definition column (sch : list (string * Ty)) (name : string) (row : list Value)
  : Value :=
  match find_col name sch 0 with
  | Some (i, _) => nth i row null
  | None => null
  end.

(** The field [f] of the struct column [c] (NULL when the struct is, or
    when there is no such field). *)
Definition struct_field (sch : list (string * Ty)) (c f : string)
    (row : list Value) : Value :=
  match find_col c sch 0 with
  | Some (i, TStruct fs) =>
      match find_col f fs 0, nth i row null with
      | Some (j, _), VStruct vs => nth j vs null
      | _, _ => null
      end
  | _ => null
  end.

Definition has_column (sch : list (string * Ty)) (name : string) : Prop :=
  exists i t, find_col name sch 0 = Some (i, t).

Definition has_field (sch : list (string * Ty)) (c f : string) : Prop :=
  exists i fs j t,
    find_col c sch 0 = Some (i, TStruct fs) /\ find_col f fs 0 = Some (j, t).

(** A raw relation the cleaning query can read. *)
Definition has_event_fields (sch : list (string * Ty)) : Prop :=
  has_column sch "id" /\ has_field sch "actor" "id"
  /\ has_field sch "actor" "login" /\ has_field sch "actor" "display_login"
  /\ has_column sch "type" /\ has_field sch "repo" "id"
  /\ has_field sch "repo" "name" /\ has_field sch "repo" "url"
  /\ has_column sch "created_at".

(** The nine fields of a cleaned event: event id, actor id, login and
    display name, event type, repository id, name and url, and the event
    timestamp. *)
Definition clean_row (sch : list (string * Ty)) (row : list Value) : list Value :=
  [column sch "id" row;
   struct_field sch "actor" "id" row;
   struct_field sch "actor" "login" row;
   struct_field sch "actor" "display_login" row;
   column sch "type" row;
   struct_field sch "repo" "id" row;
   struct_field sch "repo" "name" row;
   struct_field sch "repo" "url" row;
   column sch "created_at" row].

(** Midnight of the calendar day a timestamp falls on, both in
    microseconds since the epoch; the days are whole (floor) days, so a
    timestamp before 1970 goes back to its own midnight. *)
Definition day_start (micros : Z) : Z := micros_per_day * (micros / micros_per_day).

(** An event date as a timestamp: it is one, or a text the engine reads
    as one. *)
Definition as_timestamp (parse_timestamp : string -> option Z) (v : Value)
  : option Z :=
  match v with
  | VScalar (STimestamp t) => Some t
  | VScalar (SStr s) => parse_timestamp s
  | _ => None
  end.

Definition is_event_date (parse_timestamp : string -> option Z) (v : Value) : Prop :=
  v = null \/ exists t, as_timestamp parse_timestamp v = Some t.

(** The calendar day of an event date; the day of NULL is NULL. *)
Definition event_day (parse_timestamp : string -> option Z) (v : Value) : Value :=
  match as_timestamp parse_timestamp v with
  | Some t => VScalar (STimestamp (day_start t))
  | None => null
  end.

(** A cleaned relation the aggregate can read. *)
Definition has_group_columns (sch : list (string * Ty)) : Prop :=
  has_column sch "event_type" /\ has_column sch "repo_id"
  /\ has_column sch "repo_name" /\ has_column sch "repo_url"
  /\ has_column sch "event_date".

(** The group of an event: its type, the identity of its repository (id,
    name, url) and its calendar day. *)
Definition group_key (parse_timestamp : string -> option Z)
    (sch : list (string * Ty)) (row : list Value) : list Value :=
  [column sch "event_type" row;
   column sch "repo_id" row;
   column sch "repo_name" row;
   column sch "repo_url" row;
   event_day parse_timestamp (column sch "event_date" row)].

End Described.

(** * Properties *)

(** ** Text *)

Module TextFacts.
Import Text.

Lemma append_cons (c : ascii) (a b : string) :
  String c a +:+ b = String c (a +:+ b).
Proof. reflexivity. Qed.

Lemma append_nil_l (s : string) : "" +:+ s = s.
Proof. reflexivity. Qed.

Lemma append_nil_r (s : string) : s +:+ "" = s.
Proof.
  induction s as [|c s IH]; [reflexivity |].
  now rewrite append_cons, IH.
Qed.

Lemma append_assoc (a b c : string) : (a +:+ b) +:+ c = a +:+ (b +:+ c).
Proof.
  induction a as [|x a IH]; [reflexivity |].
  now rewrite !append_cons, IH.
Qed.

Lemma length_append (a b : string) :
  String.length (a +:+ b) = (String.length a + String.length b)%nat.
Proof.
  induction a as [|x a IH]; [reflexivity |].
  rewrite append_cons. simpl. now rewrite IH.
Qed.

Lemma all_chars_append (p : ascii -> bool) (a b : string) :
  all_chars p (a +:+ b) = all_chars p a && all_chars p b.
Proof.
  induction a as [|x a IH]; [reflexivity |].
  rewrite append_cons. simpl. rewrite IH. now rewrite andb_assoc.
Qed.

Lemma all_below_spec (n : nat) (p : Z -> bool) :
  all_below n p = true -> forall z, 0 <= z < Z.of_nat n -> p z = true.
Proof.
  unfold all_below. intros H z Hz.
  rewrite forallb_forall in H. apply H.
  apply in_map_iff. exists (Z.to_nat z). split; [lia |].
  apply in_seq. lia.
Qed.

(** Below 100, [zpad 2] of the decimal text is the two digits. *)
Lemma zpad2_decimal (n : Z) :
  0 <= n < 100 -> zpad 2 (decimal n) = two_digits n.
Proof.
  intros H. apply String.eqb_eq.
  apply (all_below_spec 100 (fun z => String.eqb (zpad 2 (decimal z)) (two_digits z)));
    [vm_compute; reflexivity | exact H].
Qed.

(** Below 100, the decimal text has one digit below 10 and two from 10 on. *)
Lemma decimal_below_100 (n : Z) :
  0 <= n < 100 ->
  decimal n = if n <? 10 then String (digit n) "" else two_digits n.
Proof.
  intros H. apply String.eqb_eq.
  apply (all_below_spec 100
           (fun z => String.eqb (decimal z)
                       (if z <? 10 then String (digit z) "" else two_digits z)));
    [vm_compute; reflexivity | exact H].
Qed.

Lemma zpad4_decimal (n : Z) :
  0 <= n < 10000 -> zpad 4 (decimal n) = four_digits n.
Proof.
  intros H. apply String.eqb_eq.
  apply (all_below_spec (Z.to_nat 10000)
           (fun z => String.eqb (zpad 4 (decimal z)) (four_digits z)));
    [vm_compute; reflexivity | lia].
Qed.

(** A year as [%Y] prints it: digits only, reading back as the year, and
    four of them from 1000 on. *)
Lemma decimal_all_digits (n : Z) :
  0 <= n < 10000 -> all_chars is_digit (decimal n) = true.
Proof.
  intros H.
  apply (all_below_spec (Z.to_nat 10000)
           (fun z => all_chars is_digit (decimal z)));
    [vm_compute; reflexivity | lia].
Qed.

Lemma number_of_decimal (n : Z) :
  0 <= n < 10000 -> Numerals.number_of (decimal n) 0 = n.
Proof.
  intros H. apply Z.eqb_eq.
  apply (all_below_spec (Z.to_nat 10000)
           (fun z => Numerals.number_of (decimal z) 0 =? z));
    [vm_compute; reflexivity | lia].
Qed.

Lemma decimal_inj (a b : Z) :
  0 <= a < 10000 -> 0 <= b < 10000 -> decimal a = decimal b -> a = b.
Proof.
  intros Ha Hb H.
  rewrite <- (number_of_decimal a Ha), <- (number_of_decimal b Hb).
  now rewrite H.
Qed.

Lemma decimal_four_digits (n : Z) :
  1000 <= n < 10000 -> decimal n = four_digits n.
Proof.
  intros H.
  assert (E : (n <? 1000) || String.eqb (decimal n) (four_digits n) = true).
  { apply (all_below_spec (Z.to_nat 10000)
             (fun z => (z <? 1000) || String.eqb (decimal z) (four_digits z)));
      [vm_compute; reflexivity | lia]. }
  apply orb_true_iff in E as [E | E].
  - apply Z.ltb_lt in E. lia.
  - now apply String.eqb_eq.
Qed.

(** Two runs of characters satisfying [p], each followed by the same
    character that does not: the runs are equal, and so is what follows. *)
Lemma run_inj (p : ascii -> bool) (c : ascii) (a b r1 r2 : string) :
  p c = false ->
  all_chars p a = true -> all_chars p b = true ->
  a +:+ String c r1 = b +:+ String c r2 -> a = b /\ r1 = r2.
Proof.
  intros Hc. revert b.
  induction a as [|x a IH]; intros [|y b] Ha Hb H;
    rewrite ?append_cons, ?append_nil_l in H.
  - inversion H. auto.
  - inversion H; subst. simpl in Hb. rewrite Hc in Hb. discriminate.
  - inversion H; subst. simpl in Ha. rewrite Hc in Ha. discriminate.
  - inversion H; subst. simpl in Ha, Hb.
    apply andb_true_iff in Ha as [_ Ha]. apply andb_true_iff in Hb as [_ Hb].
    destruct (IH b Ha Hb) as [-> ->]; auto.
Qed.

(** A negative number keeps its sign. *)
Example decimal_of_negative : decimal (-5) = "-5" /\ decimal 0 = "0".
Proof. split; reflexivity. Qed.

Lemma digit_is_digit (d : Z) : is_digit (digit d) = true.
Proof.
  assert (H : 0 <= d mod 10 < 10) by (apply Z.mod_pos_bound; lia).
  unfold digit. 
  apply (all_below_spec 10
           (fun z => is_digit (ascii_of_nat (48 + Z.to_nat z))));
    [vm_compute; reflexivity | exact H].
Qed.

Lemma all_digits_two (n : Z) : all_chars is_digit (two_digits n) = true.
Proof.
  unfold two_digits. cbn [all_chars]. now rewrite !digit_is_digit.
Qed.

Lemma all_digits_four (n : Z) : all_chars is_digit (four_digits n) = true.
Proof.
  unfold four_digits. cbn [all_chars].
  now rewrite !digit_is_digit, all_digits_two.
Qed.

Lemma length_hex_fixed (w : nat) (n : Z) : String.length (hex_fixed w n) = w.
Proof.
  revert n. induction w as [|w IH]; intros n; simpl; [reflexivity |].
  rewrite length_append, IH. simpl. lia.
Qed.

Lemma length_take (k : nat) (s : string) :
  (k <= String.length s)%nat -> String.length (take k s) = k.
Proof.
  revert s. induction k as [|k IH]; intros s H; [reflexivity |].
  destruct s as [|c s]; simpl in *; [lia |].
  rewrite IH; [reflexivity | lia].
Qed.

End TextFacts.

(** ** The ingester *)

Module IngesterFacts.
Import Text TextFacts Ingester Examples.

Lemma strftime_ymd (d : datetime) :
  strftime d "%Y-%m-%d" =
  decimal (year d) +:+ "-" +:+ zpad 2 (decimal (month d)) +:+ "-"
    +:+ zpad 2 (decimal (day d)).
Proof.
  change (strftime d "%Y-%m-%d")
    with (decimal (year d) +:+ String "-"
            (zpad 2 (decimal (month d)) +:+ String "-"
               (zpad 2 (decimal (day d)) +:+ ""))).
  now rewrite append_nil_r.
Qed.

Lemma strftime_hour_padded (d : datetime) :
  strftime d "%H" = zpad 2 (decimal (hour d)).
Proof.
  change (strftime d "%H") with (zpad 2 (decimal (hour d)) +:+ "").
  apply append_nil_r.
Qed.

Lemma date_hour_split (d : datetime) :
  date_hour d = strftime d "%Y-%m-%d" +:+ "-" +:+ decimal (hour d).
Proof.
  rewrite strftime_ymd. unfold date_hour.
  change (strftime d "%Y-%m-%d-%-H")
    with (decimal (year d) +:+ String "-"
            (zpad 2 (decimal (month d)) +:+ String "-"
               (zpad 2 (decimal (day d)) +:+ String "-"
                  (decimal (hour d) +:+ "")))).
  rewrite append_nil_r, !append_assoc. reflexivity.
Qed.

(** C1: for an hour in 0..23 the source file name ends in the hour without
    padding (one digit below 10, two from 10 on) followed by [.json.gz],
    while the sink key of the same timestamp has the hour as a two-digit,
    zero-padded path segment. *)
Theorem source_hour_unpadded_sink_hour_padded
    (d : datetime) (base : string) :
  0 <= hour d < 24 ->
  data_filename d =
    strftime d "%Y-%m-%d" +:+ "-"
      +:+ (if hour d <? 10 then String (digit (hour d)) "" else two_digits (hour d))
      +:+ ".json.gz"
  /\ _generate_sink_key d (data_filename d) base =
       base +:+ "/" +:+ strftime d "%Y-%m-%d" +:+ "/"
         +:+ two_digits (hour d) +:+ "/" +:+ data_filename d.
Proof.
  intros Hh. split.
  - unfold data_filename. rewrite date_hour_split.
    rewrite decimal_below_100 by lia.
    rewrite !append_assoc. reflexivity.
  - unfold _generate_sink_key.
    rewrite strftime_hour_padded, zpad2_decimal by lia. reflexivity.
Qed.

Lemma source_hour_unpadded_sink_hour_padded_at_3 :
  0 <= hour jan1_0300 < 24
  /\ data_filename jan1_0300 = "2023-01-01-3.json.gz"
  /\ _generate_sink_key jan1_0300
       (data_filename jan1_0300) "gharchive/events"
     = "gharchive/events/2023-01-01/03/2023-01-01-3.json.gz".
Proof.
  assert (H : 0 <= hour jan1_0300 < 24) by (simpl; lia).
  split; [exact H |].
  destruct (source_hour_unpadded_sink_hour_padded
              jan1_0300 "gharchive/events" H) as [H1 H2].
  split; [rewrite H1 | rewrite H2]; vm_compute; reflexivity.
Defined.





(** [collect] on the two outcomes the code handles: 200 gives the whole
    body as a stream at position 0, and a 4xx or 5xx status raises the
    [HTTPError] of that status. *)
Lemma collect_200 (get : string -> PyExc + Response) (u : string)
    (r : Response) (lg : list LogRecord) :
  get u = inr r -> status_code r = 200 ->
  HttpDataCollector_collect get u lg =
    (inr (Some (mkBytesIO (content r) 0)),
     lg ++ [mkLog INFO ("Downloading data from: " +:+ u)]).
Proof.
  intros Hg Hs. unfold HttpDataCollector_collect, Eff.bind, log_to_list, Eff.modify.
  rewrite Hg. simpl. rewrite Hs. reflexivity.
Qed.


(** C4: a response whose status is neither 200 nor in 400..599 (201, 204,
    206, 304, ...) makes [collect] log the failure and return [None]: no
    stream and no error. *)
Theorem collect_other_status_returns_none
    (get : string -> PyExc + Response) (u : string)
    (r : Response) (lg : list LogRecord) :
  get u = inr r ->
  status_code r <> 200 ->
  ~ (400 <= status_code r < 600) ->
  HttpDataCollector_collect get u lg =
    (inr None,
     lg ++ [mkLog INFO ("Downloading data from: " +:+ u)]
        ++ [mkLog ERROR ("Failed to download file from " +:+ u
                         +:+ ". Status code: " +:+ decimal (status_code r))]).
Proof.
  intros Hg H200 Herr.
  unfold HttpDataCollector_collect, Eff.bind, log_to_list, Eff.modify.
  rewrite Hg. simpl.
  destruct (status_code r =? 200) eqn:E200; [lia |].
  unfold Eff.bind, raise_for_status.
  destruct ((400 <=? status_code r) && (status_code r <? 500)) eqn:E4;
    [apply andb_true_iff in E4; lia |].
  destruct ((500 <=? status_code r) && (status_code r <? 600)) eqn:E5;
    [apply andb_true_iff in E5; lia |].
  unfold Eff.ret. now rewrite <- app_assoc.
Qed.

Lemma collect_201_returns_none :
  status_code created_response <> 200
  /\ HttpDataCollector_collect (fun _ => inr created_response)
       "http://data.gharchive.org/2023-01-01-9.json.gz" []
     = (inr None,
        [mkLog INFO "Downloading data from: http://data.gharchive.org/2023-01-01-9.json.gz";
         mkLog ERROR "Failed to download file from http://data.gharchive.org/2023-01-01-9.json.gz. Status code: 201"]).
Proof.
  assert (H1 : status_code created_response <> 200) by (simpl; lia).
  assert (H2 : ~ (400 <= status_code created_response < 600)) by (simpl; lia).
  split; [exact H1 |].
  rewrite (collect_other_status_returns_none (fun _ => inr created_response)
             "http://data.gharchive.org/2023-01-01-9.json.gz"
             created_response [] eq_refl H1 H2).
  vm_compute; reflexivity.
Defined.

(** C8: when [collect] raises [e], [ingest_hourly_gharchive] raises the same
    [e] after logging the timestamp at ERROR level; the only call it made is
    the collect call (no store call), and the object store is unchanged. *)
Theorem ingest_collect_failure_propagates
    (self : DataLakeIngester) (d : datetime) (w : World)
    (e : PyExc) (lg' : list LogRecord) :
  collect (data_collector self) (data_url d) (w_log w) = (inl e, lg') ->
  ingest_hourly_gharchive self d w =
    (inl e,
     mkWorld
       (lg' ++ [mkLog ERROR ("Failed to ingest data for " +:+ str_datetime d
                             +:+ ": " +:+ str_exc e)])
       (w_objects w)
       (w_calls w ++ [CallCollect (data_url d)])).
Proof.
  intros Hc.
  unfold ingest_hourly_gharchive, Eff.try_except, Eff.bind, record_call,
    with_log, Eff.zoom, Eff.modify, logger, Eff.raise.
  simpl. rewrite Hc. reflexivity.
Qed.

Lemma ingest_404_propagates :
  ingest_hourly_gharchive failing_ingester jan1_1200 empty_world =
    (inl (HTTPError 404
            "404 Client Error: Not Found for url: http://data.gharchive.org/2023-01-01-12.json.gz"),
     mkWorld
       [mkLog INFO "Downloading data from: http://data.gharchive.org/2023-01-01-12.json.gz";
        mkLog ERROR "Failed to download file from http://data.gharchive.org/2023-01-01-12.json.gz. Status code: 404";
        mkLog ERROR "Failed to ingest data for 2023-01-01 12:00:00: 404 Client Error: Not Found for url: http://data.gharchive.org/2023-01-01-12.json.gz"]
       ∅
       [CallCollect "http://data.gharchive.org/2023-01-01-12.json.gz"]).
Proof.
  etransitivity;
    [apply (ingest_collect_failure_propagates failing_ingester jan1_1200 empty_world);
     reflexivity | reflexivity].
Defined.

(** *** Construction *)

Ltac run_eff :=
  unfold Eff.try_except, Eff.bind, Eff.lift_result, Eff.raise, Eff.ret,
    Eff.modify, Eff.zoom.

(** [get] on an option [has_option] denies raises one of the two errors the
    constructor turns into [KeyError]. *)
Lemma cp_get_missing (c : ConfigParser) (section opt : string) :
  String.eqb section "" = false ->
  String.eqb section default_section = false ->
  missing c section opt ->
  cp_get c section opt = inl (NoSectionError section)
  \/ cp_get c section opt = inl (NoOptionError opt section).
Proof.
  unfold missing, has_option, cp_get. intros E1 E2. rewrite E1, E2. simpl.
  destruct (sections c !! section) as [d|]; [| now left].
  intros H. apply orb_false_iff in H as [Hd Hdef].
  apply bool_decide_eq_false in Hd, Hdef.
  destruct (d !! opt) as [v|]; [exfalso; apply Hd; eauto |].
  destruct (defaults c !! opt) as [v|]; [exfalso; apply Hdef; eauto |].
  now right.
Qed.

Lemma get_s3_credentials_missing (c : ConfigParser) (w : World) :
  missing c "aws" "s3_access_key_id"
  \/ (readable c "aws" "s3_access_key_id" /\ missing c "aws" "s3_secret_access_key") ->
  exists msg,
    _get_s3_credentials c w =
      (inl (KeyError msg),
       mkWorld (w_log w ++ [mkLog ERROR msg]) (w_objects w) (w_calls w)).
Proof.
  intros [Ha | [[a Ha] Hs]].
  - destruct (cp_get_missing c "aws" "s3_access_key_id" eq_refl eq_refl Ha) as [E | E];
      unfold _get_s3_credentials, logger; run_eff; rewrite E;
      eexists; reflexivity.
  - destruct (cp_get_missing c "aws" "s3_secret_access_key" eq_refl eq_refl Hs) as [E | E];
      unfold _get_s3_credentials, logger; run_eff; rewrite Ha, E;
      eexists; reflexivity.
Qed.

Lemma get_s3_credentials_ok (c : ConfigParser) (w : World) :
  readable c "aws" "s3_access_key_id" ->
  readable c "aws" "s3_secret_access_key" ->
  optional_ok c "aws" "s3_region_name" ->
  optional_ok c "aws" "s3_endpoint_url" ->
  exists creds, _get_s3_credentials c w = (inr creds, w).
Proof.
  intros [a Ha] [b Hb] Hr He.
  unfold _get_s3_credentials; run_eff. rewrite Ha, Hb.
  unfold optional_ok in Hr, He.
  destruct (has_option c "aws" "s3_region_name");
    [destruct (Hr eq_refl) as [r Er]; rewrite Er |];
    (destruct (has_option c "aws" "s3_endpoint_url");
     [destruct (He eq_refl) as [x Ex]; rewrite Ex |]);
    eexists; reflexivity.
Qed.

Lemma bronze_bucket_name_missing (c : ConfigParser) (w : World) :
  missing c "datalake" "bronze_bucket" ->
  exists msg,
    _bronze_bucket_name c w =
      (inl (KeyError msg),
       mkWorld (w_log w ++ [mkLog ERROR msg]) (w_objects w) (w_calls w)).
Proof.
  intros Hb.
  destruct (cp_get_missing c "datalake" "bronze_bucket" eq_refl eq_refl Hb) as [E | E];
    unfold _bronze_bucket_name, logger; run_eff; rewrite E;
    eexists; reflexivity.
Qed.

(** C7, as the code has it: when no [data_storage] is passed in and a
    required option (access key, secret key, bronze bucket) is missing, the
    options read before it being readable, the constructor raises [KeyError]
    after logging the same text; it has only asked for the configuration, no
    storage client was created, no collect or store call made, and the object
    store is untouched. *)
Theorem init_missing_config_raises_KeyError
    (module_dir : string)
    (config_files : string -> option (PyExc + ConfigParser))
    (requests_get : string -> PyExc + Response)
    (boto3_client : list (string * string) -> PyExc + S3Client)
    (base : string) (config_provider : option ConfigProvider)
    (collector : option DataCollector) (cfg : ConfigParser) (w : World) :
  get_config (default (FileConfigProvider module_dir config_files None) config_provider)
    = inr cfg ->
  required_option_missing cfg ->
  exists msg,
    DataLakeIngester_init module_dir config_files requests_get boto3_client
      base config_provider collector None w =
    (inl (KeyError msg),
     mkWorld (w_log w ++ [mkLog ERROR msg]) (w_objects w)
             (w_calls w ++ [CallGetConfig])).
Proof.
  intros Hcfg Hmiss.
  unfold DataLakeIngester_init, record_call.
  unfold Eff.bind at 1. unfold Eff.modify at 1.
  unfold Eff.bind at 1. rewrite Hcfg. unfold Eff.lift_result at 1, Eff.ret at 1.
  set (w1 := mkWorld (w_log w) (w_objects w) (w_calls w ++ [CallGetConfig])).
  unfold Eff.bind at 1. unfold Eff.bind at 1.
  destruct Hmiss as [Ha | [Hs | (Ha & Hs & Hr & He & Hb)]].
  - destruct (get_s3_credentials_missing cfg w1 (or_introl Ha)) as [msg E].
    rewrite E. exists msg. reflexivity.
  - destruct (get_s3_credentials_missing cfg w1 (or_intror Hs)) as [msg E].
    rewrite E. exists msg. reflexivity.
  - destruct (get_s3_credentials_ok cfg w1 Ha Hs Hr He) as [creds E].
    rewrite E. unfold Eff.bind at 1.
    destruct (bronze_bucket_name_missing cfg w1 Hb) as [msg E'].
    rewrite E'. exists msg. reflexivity.
Qed.

Lemma init_without_secret_raises :
  required_option_missing config_without_secret
  /\ exists msg,
       DataLakeIngester_init "" no_files not_found no_client "gharchive/events"
         (Some (mkProvider (inr config_without_secret))) None None empty_world =
       (inl (KeyError msg),
        mkWorld (w_log empty_world ++ [mkLog ERROR msg]) (w_objects empty_world)
                (w_calls empty_world ++ [CallGetConfig])).
Proof.
  assert (Hm : required_option_missing config_without_secret).
  { right; left. split; [eexists; reflexivity | reflexivity]. }
  split; [exact Hm |].
  exact (init_missing_config_raises_KeyError "" no_files not_found no_client
           "gharchive/events" (Some (mkProvider (inr config_without_secret)))
           None config_without_secret empty_world eq_refl Hm).
Defined.

(** The text of that [KeyError]. *)
Example init_without_secret_message :
  (DataLakeIngester_init "" no_files not_found no_client "gharchive/events"
     (Some (mkProvider (inr config_without_secret))) None None empty_world).1 =
  inl (KeyError
         "Missing S3 credentials in config: No option 's3_secret_access_key' in section: 'aws'").
Proof. reflexivity. Qed.

(** With a [data_storage] passed in, the constructor reads no option: it
    succeeds on every configuration its provider returns. *)
Lemma init_with_storage_succeeds
    (module_dir : string)
    (config_files : string -> option (PyExc + ConfigParser))
    (requests_get : string -> PyExc + Response)
    (boto3_client : list (string * string) -> PyExc + S3Client)
    (base : string) (config_provider : option ConfigProvider)
    (collector : option DataCollector) (storage : DataStorage)
    (cfg : ConfigParser) (w : World) :
  get_config (default (FileConfigProvider module_dir config_files None) config_provider)
    = inr cfg ->
  DataLakeIngester_init module_dir config_files requests_get boto3_client
    base config_provider collector (Some storage) w =
  (inr (mkIngester base cfg
          (default (HttpDataCollector requests_get) collector) storage),
   mkWorld (w_log w) (w_objects w) (w_calls w ++ [CallGetConfig])).
Proof.
  intros Hcfg. unfold DataLakeIngester_init, record_call; run_eff.
  now rewrite Hcfg.
Qed.

(** C7 as stated fails: with a [data_storage] passed in, a configuration
    with no credentials and no bucket name constructs without error. *)
Lemma init_with_storage_skips_config_check :
  missing empty_config "aws" "s3_access_key_id"
  /\ missing empty_config "aws" "s3_secret_access_key"
  /\ missing empty_config "datalake" "bronze_bucket"
  /\ DataLakeIngester_init "" no_files not_found no_client "gharchive/events"
       (Some (mkProvider (inr empty_config))) (Some mock_collector)
       (Some mock_storage) empty_world =
     (inr (mkIngester "gharchive/events" empty_config mock_collector mock_storage),
      mkWorld [] ∅ [CallGetConfig]).
Proof. repeat split; reflexivity. Qed.

End IngesterFacts.

(** ** The relational engine *)

Module SqlFacts.
Import Sql.

Section Facts.
Variable parse_timestamp : string -> option Z.

Lemma mapM_length {A B} (f : A -> PyExc + B) (l : list A) (l' : list B) :
  mapM f l = inr l' -> length l' = length l.
Proof.
  revert l'. induction l as [|a l IH]; intros l' H; simpl in H.
  - now inversion H.
  - destruct (f a) as [e | b]; [discriminate |].
    destruct (mapM f l) as [e | bs]; [discriminate |].
    inversion H; subst. simpl. now rewrite (IH bs eq_refl).
Qed.

(** A successful [mapM] is a [map]: nothing dropped, nothing reordered. *)
Lemma mapM_inr_map {A B} (f : A -> PyExc + B) (g : A -> B)
    (l : list A) (l' : list B) :
  (forall a b, In a l -> f a = inr b -> b = g a) ->
  mapM f l = inr l' -> l' = map g l.
Proof.
  revert l'. induction l as [|a l IH]; intros l' Hg H; simpl in H.
  - now inversion H.
  - destruct (f a) as [e | b] eqn:Ea; [discriminate |].
    destruct (mapM f l) as [e | bs] eqn:El; [discriminate |].
    inversion H; subst. simpl. f_equal.
    + apply Hg; [now left | exact Ea].
    + apply IH; [| reflexivity]. intros a' b' Hin. apply Hg. now right.
Qed.

Lemma mapM_total {A B} (f : A -> PyExc + B) (l : list A) :
  (forall a, In a l -> exists b, f a = inr b) -> exists l', mapM f l = inr l'.
Proof.
  induction l as [|a l IH]; intros H; simpl; [eauto |].
  destruct (H a (or_introl eq_refl)) as [b Eb]. rewrite Eb.
  destruct IH as [bs Ebs]; [intros a' Hin; apply H; now right |].
  rewrite Ebs. eauto.
Qed.

(** The row a bound select list evaluates to holds, item by item, the cell
    the item denotes. *)
Lemma eval_row_cells (sch : list (string * Ty)) (items : list (Expr * string))
    (bound : list (BExpr * Ty)) (r o : list Value) :
  mapM (fun it => bind_expr sch it.1) items = inr bound ->
  eval_row parse_timestamp (map fst bound) r = inr o ->
  o = map (fun it => cell parse_timestamp sch it.1 r) items.
Proof.
  revert bound o. induction items as [|[e a] items IH]; intros bound o Hb He.
  - simpl in Hb. inversion Hb; subst. simpl in He. now inversion He.
  - simpl in Hb.
    destruct (bind_expr sch e) as [err | [b t]] eqn:Eb; [discriminate |].
    destruct (mapM (fun it => bind_expr sch it.1) items) as [err | bs] eqn:Ebs;
      [discriminate |].
    inversion Hb; subst. unfold eval_row in He. simpl in He.
    destruct (eval parse_timestamp b r) as [err | v] eqn:Ev; [discriminate |].
    destruct (mapM (fun b0 => eval parse_timestamp b0 r) (map fst bs))
      as [err | vs] eqn:Evs; [discriminate |].
    inversion He; subst. simpl. f_equal.
    + unfold cell, cell_result. simpl. now rewrite Eb, Ev.
    + now apply (IH bs vs).
Qed.

Lemma rows_cells (sch : list (string * Ty)) (items : list (Expr * string))
    (bound : list (BExpr * Ty)) (rs out : list (list Value)) :
  mapM (fun it => bind_expr sch it.1) items = inr bound ->
  mapM (eval_row parse_timestamp (map fst bound)) rs = inr out ->
  out = map (fun r => map (fun it => cell parse_timestamp sch it.1 r) items) rs.
Proof.
  intros Hb. apply mapM_inr_map. intros r o _ He.
  now apply (eval_row_cells sch items bound).
Qed.

Lemma fst_zip_same_length {A B} (l : list A) (k : list B) :
  length l = length k -> map fst (zip l k) = l.
Proof.
  revert k. induction l as [|a l IH]; intros [|b k] H; simpl in *;
    try discriminate; [reflexivity |].
  f_equal. apply IH. lia.
Qed.

(** A select that succeeds: the columns are the aliases, and the rows are
    the rows of the source, each mapped to the cells of the items. *)
Lemma select_spec (items : list (Expr * string)) (rel out : Relation) :
  select parse_timestamp items rel = inr out ->
  columns out = map snd items
  /\ rows out =
       map (fun r => map (fun it => cell parse_timestamp (schema rel) it.1 r) items)
           (rows rel).
Proof.
  unfold select. intros H.
  destruct (mapM (fun it => bind_expr (schema rel) it.1) items) as [e | bound] eqn:Eb;
    [discriminate |].
  destruct (mapM (eval_row parse_timestamp (map fst bound)) (rows rel))
    as [e | rs] eqn:Er; [discriminate |].
  inversion H; subst; clear H. unfold columns. simpl. split.
  - apply fst_zip_same_length.
    rewrite !length_map. symmetry. now apply (mapM_length _ _ _ Eb).
  - now apply (rows_cells _ _ bound).
Qed.

(** *** Grouping *)

Lemma get_count_bump (k k' : list Value) (acc : list (list Value * Z)) :
  get_count k' (bump k acc) =
  get_count k' acc + (if decide (k' = k) then 1 else 0).
Proof.
  induction acc as [|[k0 n] acc IH]; simpl.
  - destruct (decide (k' = k)); lia.
  - destruct (decide (k = k0)) as [-> | Hne]; simpl.
    + destruct (decide (k' = k0)); lia.
    + rewrite IH. destruct (decide (k' = k0)); lia.
Qed.

Lemma total_bump (k : list Value) (acc : list (list Value * Z)) :
  total (bump k acc) = total acc + 1.
Proof.
  induction acc as [|[k0 n] acc IH]; simpl; [lia |].
  destruct (decide (k = k0)); simpl; lia.
Qed.

Lemma in_fst_bump (k k' : list Value) (acc : list (list Value * Z)) :
  In k' (map fst (bump k acc)) <-> k' = k \/ In k' (map fst acc).
Proof.
  induction acc as [|[k0 n] acc IH]; simpl.
  - intuition congruence.
  - destruct (decide (k = k0)) as [-> | Hne]; simpl.
    + intuition congruence.
    + rewrite IH. intuition congruence.
Qed.

Lemma NoDup_bump (k : list Value) (acc : list (list Value * Z)) :
  List.NoDup (map fst acc) -> List.NoDup (map fst (bump k acc)).
Proof.
  induction acc as [|[k0 n] acc IH]; simpl; intros H.
  - constructor; [intros [] | constructor].
  - apply NoDup_cons_iff in H as [Hnin Hnd].
    destruct (decide (k = k0)) as [-> | Hne]; simpl.
    + apply NoDup_cons_iff. now split.
    + apply NoDup_cons_iff. split; [| now apply IH].
      rewrite in_fst_bump. intros [-> | Hin]; [now apply Hne | now apply Hnin].
Qed.

Lemma positive_bump (k : list Value) (acc : list (list Value * Z)) :
  Forall (fun g => 0 < g.2) acc -> Forall (fun g => 0 < g.2) (bump k acc).
Proof.
  induction acc as [|[k0 n] acc IH]; simpl; intros H.
  - repeat constructor.
  - inversion H as [|? ? Hn Hacc]; subst. simpl in Hn.
    destruct (decide (k = k0)); constructor; simpl; auto; lia.
Qed.

Lemma get_count_absent (k : list Value) (acc : list (list Value * Z)) :
  ~ In k (map fst acc) -> get_count k acc = 0.
Proof.
  induction acc as [|[k0 n] acc IH]; simpl; intros H; [reflexivity |].
  destruct (decide (k = k0)) as [-> | Hne]; [exfalso; apply H; now left |].
  rewrite IH; [lia | intros Hin; apply H; now right].
Qed.

Lemma get_count_member (k : list Value) (n : Z) (acc : list (list Value * Z)) :
  List.NoDup (map fst acc) -> In (k, n) acc -> get_count k acc = n.
Proof.
  induction acc as [|[k0 m] acc IH]; simpl; intros Hnd Hin; [contradiction |].
  apply NoDup_cons_iff in Hnd as [Hnin Hnd].
  destruct Hin as [E | Hin].
  - inversion E; subst. destruct (decide (k = k)); [| congruence].
    rewrite get_count_absent by assumption. lia.
  - destruct (decide (k = k0)) as [-> | Hne].
    + exfalso. apply Hnin. apply in_map_iff. now exists (k0, n).
    + rewrite IH by assumption. lia.
Qed.

(** The invariant of the grouping fold. *)
Lemma fold_bump_spec (keys : list (list Value)) (acc : list (list Value * Z)) :
  let acc' := fold_left (fun a k => bump k a) keys acc in
  (forall k, get_count k acc' = get_count k acc + occurrences k keys)
  /\ total acc' = total acc + Z.of_nat (length keys)
  /\ (List.NoDup (map fst acc) -> List.NoDup (map fst acc'))
  /\ (Forall (fun g => 0 < g.2) acc -> Forall (fun g => 0 < g.2) acc')
  /\ (forall k, In k (map fst acc') <-> In k keys \/ In k (map fst acc)).
Proof.
  revert acc. induction keys as [|k0 keys IH]; intros acc; simpl.
  - repeat split; auto; try lia; intuition.
  - destruct (IH (bump k0 acc)) as (Hc & Ht & Hn & Hp & Hi).
    repeat split.
    + intros k. rewrite Hc, get_count_bump. lia.
    + rewrite Ht, total_bump. lia.
    + intros H. now apply Hn, NoDup_bump.
    + intros H. now apply Hp, positive_bump.
    + rewrite Hi, in_fst_bump. intuition.
    + rewrite Hi, in_fst_bump. intuition.
Qed.

Lemma group_count_spec (keys : list (list Value)) :
  List.NoDup (map fst (group_count keys))
  /\ (forall k n, In (k, n) (group_count keys) ->
        n = occurrences k keys /\ 0 < n)
  /\ (forall k, In k keys -> exists n, In (k, n) (group_count keys))
  /\ (forall k n, In (k, n) (group_count keys) -> In k keys)
  /\ total (group_count keys) = Z.of_nat (length keys).
Proof.
  destruct (fold_bump_spec keys []) as (Hc & Ht & Hn & Hp & Hi).
  fold (group_count keys) in Hc, Ht, Hn, Hp, Hi. simpl in *.
  assert (Hnd : List.NoDup (map fst (group_count keys)))
    by (apply Hn; constructor).
  split; [exact Hnd |]. split; [| split; [| split]].
  - intros k n Hin. split.
    + rewrite <- (get_count_member k n (group_count keys) Hnd Hin).
      rewrite Hc. lia.
    + assert (Hf := Hp (List.Forall_nil _)).
      rewrite List.Forall_forall in Hf. exact (Hf (k, n) Hin).
  - intros k Hin.
    assert (Hk : In k (map fst (group_count keys))) by (apply Hi; now left).
    apply in_map_iff in Hk as ([k' n] & E & Hg). simpl in E. subst. eauto.
  - intros k n Hin.
    assert (Hk : In k (map fst (group_count keys)))
      by (apply in_map_iff; now exists (k, n)).
    apply Hi in Hk as [Hk | []]. exact Hk.
  - rewrite Ht. lia.
Qed.

End Facts.
End SqlFacts.

(** ** The transformer *)

Module TransformerFacts.
Import Text TextFacts Sql SqlFacts Transformer Examples.

Lemma lookup_map {A B} (f : A -> B) (l : list A) (i : nat) :
  map f l !! i = f <$> (l !! i).
Proof.
  revert i. induction l as [|a l IH]; intros [|i]; simpl; auto.
Qed.

Lemma bind_of_cell_result (parse : string -> option Z)
    (sch : list (string * Ty)) (e : Expr) (r : list Value) (v : Value) :
  cell_result parse sch e r = inr v -> exists bt, bind_expr sch e = inr bt.
Proof.
  unfold cell_result. destruct (bind_expr sch e) as [err | bt]; [discriminate | eauto].
Qed.

(** A select list whose items all bind, and all evaluate on every row,
    yields a relation. *)
Lemma select_rows_total (parse : string -> option Z)
    (items : list (Expr * string)) (rel : Relation) :
  Forall (fun it => exists bt, bind_expr (schema rel) it.1 = inr bt) items ->
  Forall (fun r =>
            Forall (fun it => exists v, cell_result parse (schema rel) it.1 r = inr v)
                   items) (rows rel) ->
  exists bound keys,
    mapM (fun it => bind_expr (schema rel) it.1) items = inr bound
    /\ mapM (eval_row parse (map fst bound)) (rows rel) = inr keys.
Proof.
  intros Hb Hr.
  destruct (mapM_total (fun it => bind_expr (schema rel) it.1) items) as [bound Eb].
  { intros it Hin. rewrite List.Forall_forall in Hb. exact (Hb it Hin). }
  exists bound.
  destruct (mapM_total (eval_row parse (map fst bound)) (rows rel)) as [keys Ek];
    [| eauto].
  intros r Hin. rewrite List.Forall_forall in Hr. specialize (Hr r Hin).
  clear Hin Hb. revert bound Eb.
  induction items as [|[e a] items IH]; intros bound Eb; simpl in Eb.
  - inversion Eb; subst. exists []. reflexivity.
  - destruct (bind_expr (schema rel) e) as [err | [b t]] eqn:Ebind; [discriminate |].
    destruct (mapM (fun it => bind_expr (schema rel) it.1) items) as [err | bs] eqn:Ebs;
      [discriminate |].
    inversion Eb; subst. inversion Hr as [|? ? [v Hv] Hrest]; subst.
    destruct (IH Hrest bs eq_refl) as [vs Evs].
    unfold cell_result in Hv. simpl in Hv. rewrite Ebind in Hv.
    unfold eval_row in *. simpl. rewrite Hv, Evs. eauto.
Qed.

(** A column or field reference evaluates on every row once it binds. *)
Lemma reference_evaluates (parse : string -> option Z)
    (sch : list (string * Ty)) (e : Expr) (r : list Value) :
  match e with Col _ | Field _ _ => True | _ => False end ->
  (exists bt, bind_expr sch e = inr bt) ->
  exists v, cell_result parse sch e r = inr v.
Proof.
  intros Hshape [[b t] Hb]. unfold cell_result. rewrite Hb.
  destruct e as [c | c f | e' | e']; try contradiction; simpl in Hb.
  - destruct (find_col c sch 0) as [[i t']|]; [| discriminate].
    inversion Hb; subst. simpl. eauto.
  - destruct (find_col c sch 0) as [[i [nm | fs]]|]; try discriminate.
    destruct (find_col f fs 0) as [[j t']|]; [| discriminate].
    inversion Hb; subst. simpl.
    destruct (nth i r null); eauto.
Qed.

(** C3: when the raw relation has the fields the query names, whatever else
    it has, [clean_raw_gharchive] creates the table [gharchive_clean] with
    exactly the nine columns, one output row per raw row in the same order,
    each cell being the raw field the column renames. *)
Theorem clean_is_nine_column_projection
    (parse : string -> option Z) (read_path : string -> PyExc + Relation)
    (raw_dataset : string) (raw : Relation) (s : TState) :
  resolve read_path (catalog s) raw_dataset = inr raw ->
  Forall (fun it => exists bt, bind_expr (schema raw) it.1 = inr bt) clean_items ->
  exists out s',
    clean_raw_gharchive parse read_path raw_dataset s
      = (inr (mkHandle "gharchive_clean"), s')
    /\ catalog s' !! "gharchive_clean" = Some out
    /\ columns out =
         ["event_id"; "user_id"; "user_name"; "user_display_name"; "event_type";
          "repo_id"; "repo_name"; "repo_url"; "event_date"]
    /\ length (rows out) = length (rows raw)
    /\ forall i r, rows raw !! i = Some r ->
         rows out !! i =
           Some [cell parse (schema raw) (Col "id") r;
                 cell parse (schema raw) (Field "actor" "id") r;
                 cell parse (schema raw) (Field "actor" "login") r;
                 cell parse (schema raw) (Field "actor" "display_login") r;
                 cell parse (schema raw) (Col "type") r;
                 cell parse (schema raw) (Field "repo" "id") r;
                 cell parse (schema raw) (Field "repo" "name") r;
                 cell parse (schema raw) (Field "repo" "url") r;
                 cell parse (schema raw) (Col "created_at") r].
Proof.
  intros Hres Hbind.
  destruct (select_rows_total parse clean_items raw Hbind) as (bound & keys & Eb & Ek).
  { apply List.Forall_forall. intros r _.
    rewrite List.Forall_forall in Hbind |- *. intros it Hin.
    apply reference_evaluates; [| now apply Hbind].
    simpl in Hin.
    repeat (destruct Hin as [<- | Hin]; [exact I |]). contradiction. }
  assert (Hsel : select parse clean_items raw
                 = inr (mkRel (zip (map snd clean_items) (map snd bound)) keys)).
  { unfold select. now rewrite Eb, Ek. }
  destruct (select_spec parse _ _ _ Hsel) as [Hcols Hrows].
  set (out := mkRel (zip (map snd clean_items) (map snd bound)) keys) in *.
  exists out,
    (mkT (t_log s ++ [mkLog INFO "DuckDB - clean data"])
         (<["gharchive_clean" := out]> (catalog s)) (exports s) (draws s)).
  split; [| split; [| split; [| split]]].
  - unfold clean_raw_gharchive, logging, from_target, create_or_replace_table,
      Eff.bind, Eff.modify, Eff.lift_result, Eff.ret. simpl.
    rewrite Hres. simpl. rewrite Hsel. reflexivity.
  - simpl. apply lookup_insert_eq.
  - exact Hcols.
  - rewrite Hrows. now rewrite length_map.
  - intros i r Hi. rewrite Hrows, lookup_map, Hi. reflexivity.
Qed.

Lemma clean_is_nine_column_projection_example :
  exists out s',
    clean_raw_gharchive no_parse no_such_file "gharchive_raw" session_with_raw
      = (inr (mkHandle "gharchive_clean"), s')
    /\ catalog s' !! "gharchive_clean" = Some out
    /\ columns out =
         ["event_id"; "user_id"; "user_name"; "user_display_name"; "event_type";
          "repo_id"; "repo_name"; "repo_url"; "event_date"]
    /\ length (rows out) = 2%nat
    /\ rows out !! 0%nat =
         Some [str "26163418658"; int 7; str "octocat"; str "octocat";
               str "PushEvent"; int 42; str "octo/repo";
               str "https://api.github.com/repos/octo/repo";
               ts 1672564500000000]
    /\ rows out !! 1%nat =
         Some [str "26163418659"; null; null; null;
               str "WatchEvent"; int 42; str "octo/repo";
               str "https://api.github.com/repos/octo/repo";
               ts 1672592400000000].
Proof.
  destruct (clean_is_nine_column_projection no_parse no_such_file
              "gharchive_raw" raw_events session_with_raw)
    as (out & s' & H1 & H2 & H3 & H4 & H5).
  - reflexivity.
  - repeat first [apply List.Forall_nil | apply List.Forall_cons];
      eexists; reflexivity.
  - exists out, s'. repeat split; try assumption.
    + exact (H5 0%nat _ eq_refl).
    + exact (H5 1%nat _ eq_refl).
Defined.

(** An aggregate row built from a five-cell group and its counter. *)
Lemma agg_row_shape (k : list Value) (n : Z) :
  length k = 5%nat ->
  group_of (k ++ [VScalar (SInt n)]) = k
  /\ event_count (k ++ [VScalar (SInt n)]) = n.
Proof.
  intros Hk. split.
  - unfold group_of. now apply take_app_length'.
  - unfold event_count. rewrite app_nth2 by lia. now rewrite Hk.
Qed.

Lemma sum_event_count_total (groups : list (list Value * Z)) :
  Forall (fun g => length g.1 = 5%nat) groups ->
  sum_event_count (map (fun g => g.1 ++ [VScalar (SInt g.2)]) groups)
  = total groups.
Proof.
  induction groups as [|[k n] groups IH]; intros H; [reflexivity |].
  inversion H as [|? ? Hk Hrest]; subst. simpl in *.
  destruct (agg_row_shape k n Hk) as [_ ->]. now rewrite IH.
Qed.

(** *** What the select items denote, column by column *)

Lemma cell_column (parse : string -> option Z) (sch : list (string * Ty))
    (c : string) (r : list Value) :
  cell parse sch (Col c) r = Described.column sch c r.
Proof.
  unfold cell, cell_result, Described.column. cbn [bind_expr].
  destruct (find_col c sch 0) as [[i t]|]; reflexivity.
Qed.

Lemma cell_struct_field (parse : string -> option Z) (sch : list (string * Ty))
    (c f : string) (r : list Value) :
  cell parse sch (Field c f) r = Described.struct_field sch c f r.
Proof.
  unfold cell, cell_result, Described.struct_field. cbn [bind_expr].
  destruct (find_col c sch 0) as [[i [nm | fs]]|]; try reflexivity.
  destruct (find_col f fs 0) as [[j t]|]; [| reflexivity].
  cbn [eval]. destruct (nth i r null); reflexivity.
Qed.

(** [DATE_TRUNC('day', t)] is midnight of the day of [t]. *)
Lemma day_start_trunc (t : Z) : t - t mod micros_per_day = Described.day_start t.
Proof.
  unfold Described.day_start.
  rewrite (Z.mod_eq t micros_per_day) by discriminate. ring.
Qed.

(** [DATE_TRUNC('day', CAST(v AS TIMESTAMP))] on an event date is its
    calendar day. *)
Lemma day_of_event_date (parse : string -> option Z) (v : Value) :
  Described.is_event_date parse v ->
  match cast_timestamp parse v with
  | inr v' => date_trunc_day v'
  | inl e => inl e
  end = inr (Described.event_day parse v).
Proof.
  intros [-> | [t Ht]]; [reflexivity |].
  unfold Described.event_day. rewrite Ht.
  destruct v as [[| b | n | x | t'] | fs];
    cbn [Described.as_timestamp] in Ht; try discriminate.
  - cbn [cast_timestamp]. rewrite Ht. cbn [date_trunc_day].
    now rewrite day_start_trunc.
  - inversion Ht; subst. cbn [cast_timestamp date_trunc_day].
    now rewrite day_start_trunc.
Qed.

Lemma agg_items_bind (sch : list (string * Ty)) :
  Described.has_group_columns sch ->
  Forall (fun it => exists bt, bind_expr sch it.1 = inr bt) agg_items.
Proof.
  intros ((i1 & t1 & E1) & (i2 & t2 & E2) & (i3 & t3 & E3) & (i4 & t4 & E4)
          & (i5 & t5 & E5)).
  unfold agg_items.
  repeat first [apply List.Forall_nil | apply List.Forall_cons];
    cbn [fst bind_expr];
    rewrite ?E1, ?E2, ?E3, ?E4, ?E5; eexists; reflexivity.
Qed.

(** On a row with an event date the five grouping items evaluate, and
    their cells are the event type, the repository id, name and url, and
    the calendar day of the event. *)
Lemma agg_key_group_key (parse : string -> option Z) (sch : list (string * Ty))
    (r : list Value) :
  Described.has_group_columns sch ->
  Described.is_event_date parse (Described.column sch "event_date" r) ->
  Forall (fun it => exists v, cell_result parse sch it.1 r = inr v) agg_items
  /\ agg_key parse sch r = Described.group_key parse sch r.
Proof.
  intros ((i1 & t1 & E1) & (i2 & t2 & E2) & (i3 & t3 & E3) & (i4 & t4 & E4)
          & (i5 & t5 & E5)) Hd.
  pose proof (day_of_event_date parse _ Hd) as Hday.
  unfold Described.column in Hday. rewrite E5 in Hday.
  split.
  - unfold agg_items.
    repeat first [apply List.Forall_nil | apply List.Forall_cons];
      unfold cell_result; cbn [fst bind_expr];
      rewrite ?E1, ?E2, ?E3, ?E4, ?E5; cbn [eval];
      rewrite ?Hday; eexists; reflexivity.
  - unfold agg_key, Described.group_key, agg_items, cell, cell_result,
      Described.column.
    cbn [map fst bind_expr]. rewrite E1, E2, E3, E4, E5. cbn [eval].
    rewrite Hday. reflexivity.
Qed.

(** C2: when the source has the five columns and every event date is NULL,
    a timestamp or a text the engine reads as one, [aggregate_raw_gharchive]
    creates [gharchive_agg] with the six columns, where the group of a source
    row is its event type, its repository id, name and url, and the midnight
    of the calendar day of its event date: every output row carries the
    number of source rows of its group, every group appears once, every
    source row's group appears, and the counts add up to the number of
    source rows. *)
Theorem aggregate_counts_each_group
    (parse : string -> option Z) (read_path : string -> PyExc + Relation)
    (raw_dataset : string) (raw : Relation) (s : TState) :
  resolve read_path (catalog s) raw_dataset = inr raw ->
  Described.has_group_columns (schema raw) ->
  Forall (fun r => Described.is_event_date parse
                     (Described.column (schema raw) "event_date" r)) (rows raw) ->
  exists out s',
    aggregate_raw_gharchive parse read_path raw_dataset s
      = (inr (mkHandle "gharchive_agg"), s')
    /\ catalog s' !! "gharchive_agg" = Some out
    /\ columns out =
         ["event_type"; "repo_id"; "repo_name"; "repo_url"; "event_date";
          "event_count"]
    /\ (forall row, In row (rows out) ->
          event_count row =
            occurrences (group_of row)
              (map (Described.group_key parse (schema raw)) (rows raw))
          /\ 0 < event_count row)
    /\ List.NoDup (map group_of (rows out))
    /\ (forall r, In r (rows raw) ->
          exists row, In row (rows out)
                      /\ group_of row = Described.group_key parse (schema raw) r)
    /\ sum_event_count (rows out) = Z.of_nat (length (rows raw)).
Proof.
  intros Hres Hcols Hdates.
  pose proof (agg_items_bind (schema raw) Hcols) as Hbind.
  assert (Hrows : Forall (fun r =>
                    Forall (fun it => exists v,
                              cell_result parse (schema raw) it.1 r = inr v)
                           agg_items) (rows raw)).
  { rewrite List.Forall_forall in Hdates |- *. intros r Hr.
    exact (proj1 (agg_key_group_key parse (schema raw) r Hcols (Hdates r Hr))). }
  destruct (select_rows_total parse agg_items raw Hbind Hrows)
    as (bound & keys & Eb & Ek).
  assert (Hkeys : keys = map (Described.group_key parse (schema raw)) (rows raw)).
  { rewrite (rows_cells parse _ _ bound _ _ Eb Ek).
    apply map_ext_in. intros r Hr.
    rewrite List.Forall_forall in Hdates.
    exact (proj2 (agg_key_group_key parse (schema raw) r Hcols (Hdates r Hr))). }
  set (groups := group_count keys).
  set (out := mkRel (zip (map snd agg_items) (map snd bound)
                       ++ [("event_count", TAtom "BIGINT")])
                    (map (fun g => g.1 ++ [VScalar (SInt g.2)]) groups)).
  assert (Hagg : select_count_group_by_all parse agg_items "event_count" raw
                 = inr out).
  { unfold select_count_group_by_all. now rewrite Eb, Ek. }
  destruct (group_count_spec keys) as (Hnd & Hocc & Hall & Hfrom & Htot).
  fold groups in Hnd, Hocc, Hall, Hfrom, Htot.
  assert (Hlen : Forall (fun g => length g.1 = 5%nat) groups).
  { apply List.Forall_forall. intros [k n] Hin. simpl.
    apply Hfrom in Hin. rewrite Hkeys in Hin.
    apply in_map_iff in Hin as (r & <- & _). reflexivity. }
  exists out,
    (mkT (t_log s) (<["gharchive_agg" := out]> (catalog s)) (exports s) (draws s)).
  split; [| split; [| split; [| split; [| split; [| split]]]]].
  - unfold aggregate_raw_gharchive, from_target, create_or_replace_table,
      Eff.bind, Eff.modify, Eff.lift_result, Eff.ret. simpl.
    rewrite Hres. simpl. rewrite Hagg. reflexivity.
  - simpl. apply lookup_insert_eq.
  - unfold columns.
    change (schema out)
      with (zip (map snd agg_items) (map snd bound)
              ++ [("event_count", TAtom "BIGINT")]).
    rewrite map_app.
    rewrite fst_zip_same_length; [reflexivity |].
    rewrite !length_map. symmetry. now apply (mapM_length _ _ _ Eb).
  - intros row Hin. simpl in Hin.
    apply in_map_iff in Hin as ([k n] & <- & Hg). simpl.
    rewrite List.Forall_forall in Hlen.
    destruct (agg_row_shape k n (Hlen (k, n) Hg)) as [-> ->].
    rewrite <- Hkeys. exact (Hocc k n Hg).
  - simpl. rewrite map_map.
    rewrite (map_ext_in _ fst); [exact Hnd |].
    intros [k n] Hg. simpl.
    rewrite List.Forall_forall in Hlen.
    now destruct (agg_row_shape k n (Hlen (k, n) Hg)) as [-> _].
  - intros r Hr.
    assert (Hk : In (Described.group_key parse (schema raw) r) keys)
      by (rewrite Hkeys; now apply in_map).
    destruct (Hall _ Hk) as [n Hg].
    exists (Described.group_key parse (schema raw) r ++ [VScalar (SInt n)]). split.
    + simpl. apply in_map_iff.
      now exists (Described.group_key parse (schema raw) r, n).
    + rewrite List.Forall_forall in Hlen.
      exact (proj1 (agg_row_shape _ n (Hlen _ Hg))).
  - simpl. rewrite sum_event_count_total by exact Hlen.
    rewrite Htot, Hkeys. now rewrite length_map.
Qed.

(** The table that run creates: two groups, of two events and of one. *)
Example aggregate_three_events_rows :
  (catalog (aggregate_raw_gharchive no_parse no_such_file "clean_events"
              session_with_clean).2 !! "gharchive_agg")
  = Some (mkRel
            [("event_type", varchar); ("repo_id", bigint); ("repo_name", varchar);
             ("repo_url", varchar); ("event_date", timestamp_ty);
             ("event_count", bigint)]
            [[str "PushEvent"; int 42; str "octo/repo";
              str "https://api.github.com/repos/octo/repo";
              ts 1672531200000000; int 2];
             [str "PushEvent"; int 42; str "octo/repo";
              str "https://api.github.com/repos/octo/repo";
              ts 1672617600000000; int 1]]).
Proof. reflexivity. Qed.

(** Three events of one repository, at 09:15 and 17:00 on 2023-01-01 and at
    01:00 on 2023-01-02: the group of the first two is midnight of
    2023-01-01 and counts 2, the group of the third is midnight of
    2023-01-02 and counts 1. *)
Lemma aggregate_counts_each_group_example :
  Described.has_group_columns (schema clean_events)
  /\ Forall (fun r => Described.is_event_date no_parse
                        (Described.column (schema clean_events) "event_date" r))
            (rows clean_events)
  /\ exists out s',
       aggregate_raw_gharchive no_parse no_such_file "clean_events" session_with_clean
         = (inr (mkHandle "gharchive_agg"), s')
       /\ catalog s' !! "gharchive_agg" = Some out
       /\ map (Described.group_key no_parse (schema clean_events)) (rows clean_events)
          = [[str "PushEvent"; int 42; str "octo/repo";
              str "https://api.github.com/repos/octo/repo"; ts 1672531200000000];
             [str "PushEvent"; int 42; str "octo/repo";
              str "https://api.github.com/repos/octo/repo"; ts 1672531200000000];
             [str "PushEvent"; int 42; str "octo/repo";
              str "https://api.github.com/repos/octo/repo"; ts 1672617600000000]]
       /\ (exists row, In row (rows out)
             /\ group_of row =
                  [str "PushEvent"; int 42; str "octo/repo";
                   str "https://api.github.com/repos/octo/repo";
                   ts 1672531200000000]
             /\ event_count row = 2)
       /\ (exists row, In row (rows out)
             /\ group_of row =
                  [str "PushEvent"; int 42; str "octo/repo";
                   str "https://api.github.com/repos/octo/repo";
                   ts 1672617600000000]
             /\ event_count row = 1)
       /\ length (rows out) = 2%nat
       /\ sum_event_count (rows out) = 3.
Proof.
  assert (Hc : Described.has_group_columns (schema clean_events))
    by (repeat split; do 2 eexists; reflexivity).
  assert (Hd : Forall (fun r => Described.is_event_date no_parse
                          (Described.column (schema clean_events) "event_date" r))
                 (rows clean_events))
    by (repeat first [apply List.Forall_nil | apply List.Forall_cons];
        right; eexists; reflexivity).
  split; [exact Hc | split; [exact Hd |]].
  destruct (aggregate_counts_each_group no_parse no_such_file
              "clean_events" clean_events session_with_clean eq_refl Hc Hd)
    as (out & s' & H1 & H2 & H3 & H4 & H5 & H6 & H7).
  assert (Hkeys : map (Described.group_key no_parse (schema clean_events))
                    (rows clean_events)
                  = [[str "PushEvent"; int 42; str "octo/repo";
                      str "https://api.github.com/repos/octo/repo";
                      ts 1672531200000000];
                     [str "PushEvent"; int 42; str "octo/repo";
                      str "https://api.github.com/repos/octo/repo";
                      ts 1672531200000000];
                     [str "PushEvent"; int 42; str "octo/repo";
                      str "https://api.github.com/repos/octo/repo";
                      ts 1672617600000000]]) by reflexivity.
  assert (Hout : Some out = Some
            (mkRel
               [("event_type", varchar); ("repo_id", bigint); ("repo_name", varchar);
                ("repo_url", varchar); ("event_date", timestamp_ty);
                ("event_count", bigint)]
               [[str "PushEvent"; int 42; str "octo/repo";
                 str "https://api.github.com/repos/octo/repo";
                 ts 1672531200000000; int 2];
                [str "PushEvent"; int 42; str "octo/repo";
                 str "https://api.github.com/repos/octo/repo";
                 ts 1672617600000000; int 1]])).
  { rewrite <- H2, <- aggregate_three_events_rows. now rewrite H1. }
  exists out, s'.
  split; [exact H1 | split; [exact H2 | split; [exact Hkeys |]]].
  split; [| split; [| split; [| exact H7]]].
  - destruct (H6 _ (or_introl eq_refl)) as (row & Hin & Hg).
    exists row. split; [exact Hin | split; [exact Hg |]].
    rewrite (proj1 (H4 row Hin)), Hg, Hkeys. reflexivity.
  - destruct (H6 _ (or_intror (or_intror (or_introl eq_refl))))
      as (row & Hin & Hg).
    exists row. split; [exact Hin | split; [exact Hg |]].
    rewrite (proj1 (H4 row Hin)), Hg, Hkeys. reflexivity.
  - inversion Hout. reflexivity.
Defined.

(** *** Failures *)

(** C5: when the [try] block of [serialise_raw_data] or of
    [aggregate_silver_data] raises [e], the handler looks up [self.logger],
    which no instance has: the call raises that [AttributeError] in place of
    [e], and the state is the one the failure left (nothing is logged). *)
Theorem transformer_failure_raises_AttributeError
    (parse : string -> option Z)
    (read_json_auto read_path : string -> PyExc + Relation)
    (write_file : string -> Relation -> option PyExc)
    (now : nat -> datetime) (uuid4 : nat -> Z)
    (j : Job) (source_path sink_bucket sink_key_path : string)
    (s s1 : TState) (e : PyExc) :
  job_try parse read_json_auto read_path write_file now uuid4 j
    source_path sink_bucket sink_key_path s = (inl e, s1) ->
  job_call parse read_json_auto read_path write_file now uuid4 j
    source_path sink_bucket sink_key_path s = (inl no_logger_error, s1).
Proof.
  intros H. destruct j; simpl in *;
    unfold serialise_raw_data, aggregate_silver_data, Eff.try_except;
    rewrite H; reflexivity.
Qed.

Lemma serialise_failure_raises_AttributeError :
  serialise_raw_data no_parse no_such_file no_such_file write_ok
    fixed_clock fixed_uuid
    "s3://bronze/gharchive/events/2023-01-01/*" "silver" "gharchive/clean"
    empty_session
  = (inl no_logger_error,
     mkT [mkLog INFO
            "DuckDB - collect source data files: s3://bronze/gharchive/events/2023-01-01/*"]
         ∅ [] 0).
Proof.
  exact (transformer_failure_raises_AttributeError no_parse no_such_file
           no_such_file write_ok fixed_clock fixed_uuid SerialiseRaw
           "s3://bronze/gharchive/events/2023-01-01/*" "silver" "gharchive/clean"
           empty_session _
           (OtherError "duckdb.IOException"
              "IO Error: No files found that match the pattern s3://bronze/gharchive/events/2023-01-01/*")
           eq_refl).
Defined.

(** The exception the [try] block raised there is not the one the caller
    receives. *)
Example serialise_failure_original_error :
  (serialise_raw_data_try no_parse no_such_file no_such_file write_ok
     fixed_clock fixed_uuid
     "s3://bronze/gharchive/events/2023-01-01/*" "silver" "gharchive/clean"
     empty_session).1
  = inl (OtherError "duckdb.IOException"
           "IO Error: No files found that match the pattern s3://bronze/gharchive/events/2023-01-01/*")
  /\ OtherError "duckdb.IOException"
       "IO Error: No files found that match the pattern s3://bronze/gharchive/events/2023-01-01/*"
     <> no_logger_error.
Proof. split; [reflexivity | discriminate]. Qed.

(** *** Export file names *)

Lemma strftime_compact (d : datetime) :
  strftime d "%Y%m%d%H%M%S" =
  decimal (year d) +:+ zpad 2 (decimal (month d))
    +:+ zpad 2 (decimal (day d)) +:+ zpad 2 (decimal (hour d))
    +:+ zpad 2 (decimal (minute d)) +:+ zpad 2 (decimal (second d)).
Proof.
  change (strftime d "%Y%m%d%H%M%S")
    with (decimal (year d) +:+ zpad 2 (decimal (month d))
            +:+ zpad 2 (decimal (day d)) +:+ zpad 2 (decimal (hour d))
            +:+ zpad 2 (decimal (minute d)) +:+ zpad 2 (decimal (second d)) +:+ "").
  now rewrite append_nil_r.
Qed.

(** The timestamp of a valid clock reading is digits only, and fourteen of
    them once the year has four. *)
Lemma timestamp_fourteen_digits (d : datetime) :
  valid_datetime d ->
  (1000 <= year d -> String.length (strftime d "%Y%m%d%H%M%S") = 14%nat)
  /\ all_chars is_digit (strftime d "%Y%m%d%H%M%S") = true.
Proof.
  intros (Hy & Hm & Hd & Hh & Hmi & Hs & _).
  assert (Hd' : 1 <= day d <= 31).
  { unfold days_in_month in Hd.
    repeat match type of Hd with context [if ?b then _ else _] => destruct b end; lia. }
  rewrite strftime_compact.
  rewrite !zpad2_decimal by lia.
  split.
  - intros Hy4. rewrite decimal_four_digits by lia. reflexivity.
  - rewrite !all_chars_append, decimal_all_digits by lia.
    rewrite !all_digits_two. reflexivity.
Qed.

Lemma length_substring (s : string) (n m : nat) :
  (n + m <= String.length s)%nat -> String.length (String.substring n m s) = m.
Proof.
  revert n m. induction s as [|c s IH]; intros [|n] [|m] H; simpl in *;
    try reflexivity; try lia.
  - rewrite IH; [reflexivity | lia].
  - apply (IH n 0%nat). lia.
  - apply (IH n (S m)). lia.
Qed.

Lemma all_chars_substring (p : ascii -> bool) (s : string) (n m : nat) :
  all_chars p s = true -> all_chars p (String.substring n m s) = true.
Proof.
  revert n m. induction s as [|c s IH]; intros [|n] [|m] H; simpl in *;
    try reflexivity; try assumption;
    apply andb_true_iff in H as [Hc Hs].
  - rewrite Hc. simpl. now apply IH.
  - now apply IH.
  - now apply IH.
Qed.

Lemma lower_hex_digit_is_hex (d : Z) : is_hex_digit (lower_hex_digit d) = true.
Proof.
  assert (H : 0 <= d mod 16 < 16) by (apply Z.mod_pos_bound; lia).
  unfold lower_hex_digit.
  apply (all_below_spec 16
           (fun z => is_hex_digit
                       (if z <? 10 then ascii_of_nat (48 + Z.to_nat z)
                        else ascii_of_nat (87 + Z.to_nat z))));
    [vm_compute; reflexivity | exact H].
Qed.

Lemma all_hex_fixed (w : nat) (n : Z) : all_chars is_hex_digit (hex_fixed w n) = true.
Proof.
  revert n. induction w as [|w IH]; intros n; [reflexivity |].
  simpl. rewrite all_chars_append, IH. simpl.
  now rewrite lower_hex_digit_is_hex.
Qed.

Lemma take_append_exact (k : nat) (a b : string) :
  String.length a = k -> take k (a +:+ b) = a.
Proof.
  revert a. induction k as [|k IH]; intros [|c a] H; simpl in H; try discriminate.
  - reflexivity.
  - rewrite append_cons. simpl. f_equal. apply IH. lia.
Qed.

(** The short id is the first group of the uuid text: 8 hexadecimal digits. *)
Lemma short_id_eight_hex (u : Z) :
  String.length (take 8 (str_uuid u)) = 8%nat
  /\ all_chars is_hex_digit (take 8 (str_uuid u)) = true.
Proof.
  unfold str_uuid.
  assert (Hl : String.length (String.substring 0 8 (hex_fixed 32 u)) = 8%nat)
    by (apply length_substring; rewrite length_hex_fixed; lia).
  rewrite (take_append_exact 8 _ _ Hl). split; [exact Hl |].
  apply all_chars_substring, all_hex_fixed.
Qed.

(** C6, as the code has it: with a non-empty partition key the file name is
    the stage, the timestamp, the partition key, and the 8-character short
    id, joined by underscores and followed by [.parquet]: the key comes
    after the timestamp.  The timestamp is digits only, and has its 14
    digits when the clock reads a year of four digits ([%Y] does not pad
    the year). *)
Theorem export_filename_partition_key_after_timestamp
    (now : nat -> datetime) (uuid4 : nat -> Z)
    (data_type partition_key : string) (s : TState) :
  partition_key <> "" ->
  valid_datetime (now (draws s)) ->
  (_generate_export_filename now uuid4 data_type "parquet" (Some partition_key) s).1
    = inr (data_type +:+ "_" +:+ strftime (now (draws s)) "%Y%m%d%H%M%S"
             +:+ "_" +:+ partition_key
             +:+ "_" +:+ take 8 (str_uuid (uuid4 (draws s))) +:+ ".parquet")
  /\ (1000 <= year (now (draws s)) ->
      String.length (strftime (now (draws s)) "%Y%m%d%H%M%S") = 14%nat)
  /\ all_chars is_digit (strftime (now (draws s)) "%Y%m%d%H%M%S") = true
  /\ String.length (take 8 (str_uuid (uuid4 (draws s)))) = 8%nat
  /\ all_chars is_hex_digit (take 8 (str_uuid (uuid4 (draws s)))) = true.
Proof.
  intros Hpk Hvalid.
  destruct (timestamp_fourteen_digits _ Hvalid) as [Hl Hd].
  destruct (short_id_eight_hex (uuid4 (draws s))) as [Hl' Hh].
  repeat split; try assumption.
  unfold _generate_export_filename, export_filename. simpl.
  apply String.eqb_neq in Hpk. rewrite Hpk. simpl.
  rewrite !append_assoc. reflexivity.
Qed.

Lemma export_filename_with_partition_key_example :
  "p" <> ""
  /\ valid_datetime (fixed_clock (draws empty_session))
  /\ (_generate_export_filename fixed_clock fixed_uuid "clean" "parquet"
        (Some "p") empty_session).1
     = inr "clean_20230101090000_p_80000000.parquet"
  /\ String.length (strftime (fixed_clock (draws empty_session)) "%Y%m%d%H%M%S")
     = 14%nat.
Proof.
  assert (H1 : "p" <> "") by discriminate.
  assert (H2 : valid_datetime (fixed_clock (draws empty_session))).
  { unfold valid_datetime; simpl. unfold days_in_month; simpl. lia. }
  destruct (export_filename_partition_key_after_timestamp fixed_clock fixed_uuid
              "clean" "p" empty_session H1 H2) as (E & L & _).
  split; [exact H1 | split; [exact H2 | split]].
  - rewrite E. vm_compute; reflexivity.
  - apply L. simpl. lia.
Defined.

(** Without a partition key, and with an empty one, the name is the stage,
    the timestamp and the short id. *)
Lemma export_filename_without_partition_key
    (d : datetime) (u : Z) (data_type : string) :
  export_filename d u data_type "parquet" None
    = data_type +:+ "_" +:+ strftime d "%Y%m%d%H%M%S" +:+ "_"
        +:+ take 8 (str_uuid u) +:+ ".parquet"
  /\ export_filename d u data_type "parquet" (Some "")
     = export_filename d u data_type "parquet" None.
Proof.
  split; [| reflexivity].
  unfold export_filename. simpl. rewrite !append_assoc. reflexivity.
Qed.

(** C6 as stated fails: the name is not stage, partition key, timestamp,
    short id. *)
Lemma partition_key_not_before_timestamp :
  (_generate_export_filename fixed_clock fixed_uuid "clean" "parquet"
     (Some "p") empty_session).1
  <> inr ("clean" +:+ "_" +:+ "p" +:+ "_"
            +:+ strftime (fixed_clock (draws empty_session)) "%Y%m%d%H%M%S"
            +:+ "_" +:+ take 8 (str_uuid (fixed_uuid (draws empty_session)))
            +:+ ".parquet").
Proof. vm_compute. discriminate. Qed.

End TransformerFacts.

(** ** The aggregation driver *)

Module DriverFacts.
Import AggDriver Examples.

(** C10: for a range whose end is not before its start, [main] logs the
    [TypeError] of the constructor call and returns: the body of
    [__init__] is never entered, and neither is [aggregate_silver_data]. *)
Theorem agg_driver_never_aggregates
    (TransformerObj : Type) (init_body : M DState TransformerObj)
    (aggregate_body : TransformerObj -> list datetime -> M DState unit)
    (start_date end_date : datetime) (s : DState) :
  dt_leb start_date end_date = true ->
  main TransformerObj init_body aggregate_body start_date end_date s =
    (ExitOk,
     mkD (d_log s ++
            [mkLog ERROR
               "Error in aggregate_silver_data: DataLakeTransformer.__init__() got an unexpected keyword argument 'dataset_base_path'"])
         (d_entered s)).
Proof.
  unfold dt_leb. intros H. apply negb_true_iff in H.
  unfold main. rewrite H. reflexivity.
Qed.

Lemma agg_driver_never_aggregates_example :
  dt_leb jan1 jan3 = true
  /\ main unit init_done aggregate_done jan1 jan3 fresh_run =
     (ExitOk,
      mkD [mkLog ERROR
             "Error in aggregate_silver_data: DataLakeTransformer.__init__() got an unexpected keyword argument 'dataset_base_path'"]
          []).
Proof.
  split; [reflexivity |].
  exact (agg_driver_never_aggregates unit init_done aggregate_done
           jan1 jan3 fresh_run eq_refl).
Defined.

End DriverFacts.

(** * Further properties of the code *)

(** ** Collector and storage *)

Module CollectorFacts.
Import Text TextFacts Ingester Examples MoreExamples.

Lemma raise_for_status_spec (r : Response) (e : PyExc) :
  raise_for_status r = Some e <->
  400 <= status_code r < 600
  /\ e = HTTPError (status_code r)
           (decimal (status_code r) +:+ " "
              +:+ (if status_code r <? 500 then "Client" else "Server")
              +:+ " Error: " +:+ reason r +:+ " for url: " +:+ url r).
Proof.
  unfold raise_for_status.
  destruct ((400 <=? status_code r) && (status_code r <? 500)) eqn:E4.
  - apply andb_true_iff in E4 as [H1 H2].
    assert (Hlt : (status_code r <? 500) = true) by exact H2. rewrite Hlt.
    split; [intros H; inversion H; split; [lia | reflexivity]
           | intros [_ ->]; reflexivity].
  - destruct ((500 <=? status_code r) && (status_code r <? 600)) eqn:E5.
    + apply andb_true_iff in E5 as [H1 H2].
      assert (Hge : (status_code r <? 500) = false) by lia. rewrite Hge.
      split; [intros H; inversion H; split; [lia | reflexivity]
             | intros [_ ->]; reflexivity].
    + split; [discriminate |].
      intros [Hr _]. apply andb_false_iff in E4, E5. lia.
Qed.

(** X1: [collect] returns a stream exactly when the response status is 200,
    and the stream then holds the whole body and is positioned at its
    start. *)
Theorem collect_returns_stream_only_for_200
    (get : string -> PyExc + Response) (u : string)
    (lg : list LogRecord) (b : BytesIO) :
  (HttpDataCollector_collect get u lg).1 = inr (Some b) <->
  exists r, get u = inr r /\ status_code r = 200
            /\ b = mkBytesIO (content r) 0.
Proof.
  unfold HttpDataCollector_collect, Eff.bind, log_to_list, Eff.modify,
    Eff.lift_result, Eff.raise, Eff.ret.
  destruct (get u) as [e | r]; simpl.
  - split; [discriminate | intros (r & H & _); discriminate].
  - destruct (status_code r =? 200) eqn:E; simpl.
    + split.
      * intros H. inversion H. exists r. repeat split; lia.
      * intros (r' & H & _ & ->). now inversion H.
    + split.
      * destruct (raise_for_status r); simpl; discriminate.
      * intros (r' & H & H200 & _). inversion H; subst. lia.
Qed.

(** X2: [collect] raises exactly when [requests.get] raises (the same
    error) or the status is in 400..599 (an [HTTPError] carrying that status,
    a client error below 500 and a server error from 500 on). *)
Theorem collect_raises_only_on_transport_or_error_status
    (get : string -> PyExc + Response) (u : string)
    (lg : list LogRecord) (e : PyExc) :
  (HttpDataCollector_collect get u lg).1 = inl e <->
  get u = inl e
  \/ exists r, get u = inr r /\ 400 <= status_code r < 600
       /\ e = HTTPError (status_code r)
                (decimal (status_code r) +:+ " "
                   +:+ (if status_code r <? 500 then "Client" else "Server")
                   +:+ " Error: " +:+ reason r +:+ " for url: " +:+ url r).
Proof.
  unfold HttpDataCollector_collect, Eff.bind, log_to_list, Eff.modify,
    Eff.lift_result, Eff.raise, Eff.ret.
  destruct (get u) as [e0 | r]; simpl.
  - split.
    + intros H. inversion H. now left.
    + intros [H | (r & H & _)]; [now inversion H | discriminate].
  - destruct (status_code r =? 200) eqn:E; simpl.
    + split; [discriminate |].
      intros [H | (r' & H & Hr & _)]; [discriminate |].
      inversion H; subst. lia.
    + destruct (raise_for_status r) as [e1 |] eqn:Er; simpl.
      * apply raise_for_status_spec in Er as [Hr ->]. split.
        -- intros H. inversion H. right. exists r. auto.
        -- intros [H | (r' & H & _ & ->)]; [discriminate |].
           now inversion H.
      * split; [discriminate |].
        intros [H | (r' & H & Hr & He)]; [discriminate |].
        inversion H; subst.
        assert (Hs : raise_for_status r' = Some
                  (HTTPError (status_code r')
                     (decimal (status_code r') +:+ " "
                        +:+ (if status_code r' <? 500 then "Client" else "Server")
                        +:+ " Error: " +:+ reason r' +:+ " for url: " +:+ url r')))
          by (apply raise_for_status_spec; auto).
        congruence.
Qed.

(** X3: [S3DataStorage.store] hands the outcome of the upload through: it
    returns when the upload returns and raises the upload's own error
    otherwise; the object store is left as the upload left it, each progress
    report has gone to the callback, and one line is logged last, at INFO on
    success and at ERROR on failure. *)
Theorem store_propagates_upload_outcome
    (self : S3DataStorage) (data : PyData) (key : string)
    (lg : list LogRecord) (objs : Objects) :
  let upload := upload_fileobj (s3_client self) data (bucket self) key objs in
  let run := S3DataStorage_store self data key (lg, objs) in
  run.1 = match upload.1.2 with Some e => inl e | None => inr tt end
  /\ run.2.2 = upload.2
  /\ exists line,
       run.2.1 = lg
                 ++ match progress_callback self with
                    | Some cb => concat (map cb upload.1.1)
                    | None => []
                    end
                 ++ [line]
       /\ levelname line = match upload.1.2 with Some _ => ERROR | None => INFO end.
Proof.
  unfold S3DataStorage_store, Eff.try_except, Eff.bind, log_st, Eff.modify,
    Eff.raise. simpl.
  destruct (upload_fileobj (s3_client self) data (bucket self) key objs)
    as [[reports err] objs']. simpl.
  destruct (progress_callback self) as [cb |];
    destruct err as [[] |]; simpl;
    (split; [reflexivity |]); (split; [reflexivity |]);
    eexists; (split; [rewrite ?app_assoc; reflexivity | reflexivity]).
Qed.

Lemma in_optional_kwarg (key key' : string) (o : option string) (v : string) :
  In (key, v) (if truthy o then [(key', default "" o)] else [])
  <-> key = key' /\ o = Some v /\ v <> "".
Proof.
  unfold truthy. destruct o as [x |]; simpl.
  - destruct (String.eqb x "") eqn:E; simpl.
    + apply String.eqb_eq in E. subst. split; [intros [] |].
      intros (_ & H & Hv). inversion H. congruence.
    + apply String.eqb_neq in E. split.
      * intros [H | []]. inversion H; subst. auto.
      * intros (-> & H & _). inversion H. now left.
  - split; [intros [] | intros (_ & H & _); discriminate].
Qed.

(** X4: the keyword arguments of [boto3.client]: the two keys come first and
    always; [region_name] and [endpoint_url] are passed exactly when the
    credentials hold a non-empty value for them. *)
Theorem client_kwargs_drop_empty_options (c : S3Credentials) :
  firstn 2 (client_kwargs c) =
    [("aws_access_key_id", aws_access_key_id c);
     ("aws_secret_access_key", aws_secret_access_key c)]
  /\ (forall v, In ("region_name", v) (client_kwargs c)
                <-> region_name c = Some v /\ v <> "")
  /\ (forall v, In ("endpoint_url", v) (client_kwargs c)
                <-> endpoint_url c = Some v /\ v <> "").
Proof.
  split; [reflexivity |].
  split; intros v; unfold client_kwargs;
    rewrite !in_app_iff, !in_optional_kwarg; simpl;
    split.
  - intros [[H | [H | []]] | [(_ & H) | (H & _)]];
      try discriminate; exact H.
  - intros H. right. left. auto.
  - intros [[H | [H | []]] | [(H & _) | (_ & H)]];
      try discriminate; exact H.
  - intros H. right. right. auto.
Qed.

End CollectorFacts.

(** ** Construction and ingestion *)

Module IngestionFacts.
Import Text TextFacts Ingester Examples MoreExamples IngesterFacts.

Lemma get_s3_credentials_run (c : ConfigParser) (w : World) (a b : string) :
  cp_get c "aws" "s3_access_key_id" = inr a ->
  cp_get c "aws" "s3_secret_access_key" = inr b ->
  optional_ok c "aws" "s3_region_name" ->
  optional_ok c "aws" "s3_endpoint_url" ->
  exists creds,
    _get_s3_credentials c w = (inr creds, w)
    /\ aws_access_key_id creds = a
    /\ aws_secret_access_key creds = b
    /\ (has_option c "aws" "s3_region_name" = false -> region_name creds = None)
    /\ (forall r, has_option c "aws" "s3_region_name" = true ->
                  cp_get c "aws" "s3_region_name" = inr r ->
                  region_name creds = Some r)
    /\ (has_option c "aws" "s3_endpoint_url" = false -> endpoint_url creds = None)
    /\ (forall x, has_option c "aws" "s3_endpoint_url" = true ->
                  cp_get c "aws" "s3_endpoint_url" = inr x ->
                  endpoint_url creds = Some x).
Proof.
  intros Ha Hb Hr He.
  unfold _get_s3_credentials; run_eff. rewrite Ha, Hb.
  unfold optional_ok, readable in Hr, He.
  destruct (has_option c "aws" "s3_region_name") eqn:Eor;
    [destruct (Hr eq_refl) as [r Er]; rewrite Er |];
    (destruct (has_option c "aws" "s3_endpoint_url") eqn:Eoe;
     [destruct (He eq_refl) as [x Ex]; rewrite Ex |]);
    eexists; (split; [reflexivity |]); simpl;
    repeat split; try reflexivity; try discriminate;
    intros; congruence.
Qed.

(** X5: when the two required options are readable, [_get_s3_credentials]
    returns them without logging; the region and the endpoint are taken from
    the configuration when it has them and are [None] when it has not. *)
Theorem get_s3_credentials_reads_the_options
    (c : ConfigParser) (w : World) (a b : string) :
  cp_get c "aws" "s3_access_key_id" = inr a ->
  cp_get c "aws" "s3_secret_access_key" = inr b ->
  optional_ok c "aws" "s3_region_name" ->
  optional_ok c "aws" "s3_endpoint_url" ->
  exists creds,
    _get_s3_credentials c w = (inr creds, w)
    /\ aws_access_key_id creds = a
    /\ aws_secret_access_key creds = b
    /\ (has_option c "aws" "s3_region_name" = false -> region_name creds = None)
    /\ (forall r, has_option c "aws" "s3_region_name" = true ->
                  cp_get c "aws" "s3_region_name" = inr r ->
                  region_name creds = Some r)
    /\ (has_option c "aws" "s3_endpoint_url" = false -> endpoint_url creds = None)
    /\ (forall x, has_option c "aws" "s3_endpoint_url" = true ->
                  cp_get c "aws" "s3_endpoint_url" = inr x ->
                  endpoint_url creds = Some x).
Proof.
  intros Ha Hb Hr He.
  unfold _get_s3_credentials; run_eff. rewrite Ha, Hb.
  unfold optional_ok, readable in Hr, He.
  destruct (has_option c "aws" "s3_region_name") eqn:Eor;
    [destruct (Hr eq_refl) as [r Er]; rewrite Er |];
    (destruct (has_option c "aws" "s3_endpoint_url") eqn:Eoe;
     [destruct (He eq_refl) as [x Ex]; rewrite Ex |]);
    eexists; (split; [reflexivity |]); simpl;
    repeat split; try reflexivity; try discriminate;
    intros; congruence.
Qed.

Lemma test_config_region_ok : optional_ok test_config "aws" "s3_region_name".
Proof. intros _. exists "test_region". reflexivity. Qed.

Lemma test_config_endpoint_ok : optional_ok test_config "aws" "s3_endpoint_url".
Proof. intros _. exists "test_endpoint". reflexivity. Qed.

Lemma get_s3_credentials_of_test_config :
  exists creds,
    _get_s3_credentials test_config empty_world = (inr creds, empty_world)
    /\ creds = mkCreds "test_key" "test_secret" (Some "test_region")
                 (Some "test_endpoint").
Proof.
  destruct (get_s3_credentials_reads_the_options test_config empty_world
              "test_key" "test_secret" eq_refl eq_refl
              test_config_region_ok
              test_config_endpoint_ok)
    as (creds & Hrun & Ha & Hb & _ & Hr & _ & He).
  exists creds. split; [exact Hrun |].
  destruct creds as [a b r x]. simpl in *. subst.
  rewrite (Hr "test_region" eq_refl eq_refl).
  rewrite (He "test_endpoint" eq_refl eq_refl). reflexivity.
Defined.

(** X6: with no [data_storage] passed in and a configuration that has the
    credentials and the bucket name, the constructor asks for the
    configuration, creates one client with the keyword arguments of those
    credentials, logs nothing, and builds its storage on that client, the
    bucket of the configuration and its own progress callback. *)
Theorem init_builds_storage_from_config
    (module_dir : string)
    (config_files : string -> option (PyExc + ConfigParser))
    (requests_get : string -> PyExc + Response)
    (boto3_client : list (string * string) -> PyExc + S3Client)
    (base : string) (config_provider : option ConfigProvider)
    (collector : option DataCollector) (cfg : ConfigParser)
    (a b bk : string) (client : S3Client) (w : World) :
  get_config (default (FileConfigProvider module_dir config_files None) config_provider)
    = inr cfg ->
  cp_get cfg "aws" "s3_access_key_id" = inr a ->
  cp_get cfg "aws" "s3_secret_access_key" = inr b ->
  optional_ok cfg "aws" "s3_region_name" ->
  optional_ok cfg "aws" "s3_endpoint_url" ->
  cp_get cfg "datalake" "bronze_bucket" = inr bk ->
  (forall kwargs, boto3_client kwargs = inr client) ->
  exists creds,
    DataLakeIngester_init module_dir config_files requests_get boto3_client
      base config_provider collector None w =
    (inr (mkIngester base cfg
            (default (HttpDataCollector requests_get) collector)
            (mkStorage (S3DataStorage_store
                          (mkS3 creds bk (Some _s3_progress_callback) client)))),
     mkWorld (w_log w) (w_objects w)
             (w_calls w ++ [CallGetConfig; CallBoto3Client (client_kwargs creds)]))
    /\ aws_access_key_id creds = a
    /\ aws_secret_access_key creds = b.
Proof.
  intros Hcfg Ha Hb Hr He Hbk Hclient.
  set (w1 := mkWorld (w_log w) (w_objects w) (w_calls w ++ [CallGetConfig])).
  destruct (get_s3_credentials_run cfg w1 a b Ha Hb Hr He)
    as (creds & Hrun & Hca & Hcb & _).
  exists creds. split; [| split; assumption].
  unfold DataLakeIngester_init, record_call.
  unfold Eff.bind at 1. unfold Eff.modify at 1.
  unfold Eff.bind at 1. rewrite Hcfg. unfold Eff.lift_result at 1, Eff.ret at 1.
  fold w1. unfold Eff.bind at 1. unfold Eff.bind at 1. rewrite Hrun.
  unfold Eff.bind at 1.
  unfold _bronze_bucket_name, Eff.try_except, Eff.lift_result. rewrite Hbk.
  unfold Eff.ret at 1.
  unfold S3DataStorage_init, record_call, Eff.bind, Eff.modify, Eff.lift_result.
  rewrite Hclient. unfold Eff.ret. simpl.
  rewrite <- app_assoc. reflexivity.
Qed.

Lemma init_from_test_config :
  exists creds,
    DataLakeIngester_init "/app" test_config_file ok_response good_client
      "gharchive/events" None None None empty_world =
    (inr (mkIngester "gharchive/events" test_config
            (HttpDataCollector ok_response)
            (mkStorage (S3DataStorage_store
                          (mkS3 creds "test_bucket" (Some _s3_progress_callback)
                             overwriting_client)))),
     mkWorld [] ∅ [CallGetConfig; CallBoto3Client (client_kwargs creds)])
    /\ aws_access_key_id creds = "test_key"
    /\ aws_secret_access_key creds = "test_secret".
Proof.
  exact (init_builds_storage_from_config "/app" test_config_file ok_response
           good_client "gharchive/events" None None test_config
           "test_key" "test_secret" "test_bucket" overwriting_client empty_world
           eq_refl eq_refl eq_refl
           test_config_region_ok
           test_config_endpoint_ok
           eq_refl (fun _ => eq_refl)).
Defined.

(** X7: when no configuration file exists at the default path
    ([config.ini] beside the module) and no provider is passed in, the
    constructor raises [FileNotFoundError] naming that path; nothing else was
    called and nothing was logged, whatever collector or storage was passed. *)
Theorem init_without_config_file_raises
    (module_dir : string)
    (config_files : string -> option (PyExc + ConfigParser))
    (requests_get : string -> PyExc + Response)
    (boto3_client : list (string * string) -> PyExc + S3Client)
    (base : string) (collector : option DataCollector)
    (storage : option DataStorage) (w : World) :
  config_files (path_join module_dir "config.ini") = None ->
  DataLakeIngester_init module_dir config_files requests_get boto3_client
    base None collector storage w =
  (inl (OtherError "FileNotFoundError"
          ("Config file not found at " +:+ path_join module_dir "config.ini")),
   mkWorld (w_log w) (w_objects w) (w_calls w ++ [CallGetConfig])).
Proof.
  intros Hnone.
  unfold DataLakeIngester_init, record_call, FileConfigProvider; run_eff.
  simpl. rewrite Hnone. reflexivity.
Qed.

Lemma init_without_config_file_example :
  DataLakeIngester_init "/app" no_files ok_response good_client
    "gharchive/events" None None None empty_world =
  (inl (OtherError "FileNotFoundError" "Config file not found at /app/config.ini"),
   mkWorld [] ∅ [CallGetConfig]).
Proof.
  exact (init_without_config_file_raises "/app" no_files ok_response good_client
           "gharchive/events" None None empty_world eq_refl).
Defined.

(** *** One hour *)

Ltac run_ingest :=
  unfold ingest_hourly_gharchive, Eff.try_except, Eff.bind, record_call,
    with_log, with_store, Eff.zoom, Eff.modify, logger, Eff.raise; simpl.

Lemma ingest_run_ok (self : DataLakeIngester) (d : datetime) (w : World)
    (data : PyData) (lg1 lg2 : list LogRecord) (objs2 : Objects) :
  collect (data_collector self) (data_url d) (w_log w) = (inr data, lg1) ->
  store (data_storage self) data
    (_generate_sink_key d (data_filename d) (dataset_base_path self))
    (lg1, w_objects w) = (inr tt, (lg2, objs2)) ->
  ingest_hourly_gharchive self d w =
    (inr tt,
     mkWorld (lg2 ++ [mkLog INFO ("Successfully ingested data for " +:+ date_hour d)])
       objs2
       (w_calls w ++
          [CallCollect (data_url d);
           CallStore (_generate_sink_key d (data_filename d) (dataset_base_path self))])).
Proof.
  intros Hc Hs. run_ingest. rewrite Hc. simpl. rewrite Hs. simpl.
  now rewrite <- app_assoc.
Qed.


(** X8: when [collect] returns [data] and [store] accepts it,
    [ingest_hourly_gharchive] returns; it called the collector on the source
    URL and then the storage on the sink key, with exactly the data
    collected, and its last log line reports the success. *)
Theorem ingest_success_collects_then_stores
    (self : DataLakeIngester) (d : datetime) (w : World)
    (data : PyData) (lg1 lg2 : list LogRecord) (objs2 : Objects) :
  collect (data_collector self) (data_url d) (w_log w) = (inr data, lg1) ->
  store (data_storage self) data
    (_generate_sink_key d (data_filename d) (dataset_base_path self))
    (lg1, w_objects w) = (inr tt, (lg2, objs2)) ->
  ingest_hourly_gharchive self d w =
    (inr tt,
     mkWorld (lg2 ++ [mkLog INFO ("Successfully ingested data for " +:+ date_hour d)])
       objs2
       (w_calls w ++
          [CallCollect (data_url d);
           CallStore (_generate_sink_key d (data_filename d) (dataset_base_path self))])).
Proof.
  intros Hc Hs. run_ingest. rewrite Hc. simpl. rewrite Hs. simpl.
  now rewrite <- app_assoc.
Qed.

Lemma ingest_noon_stores_the_body :
  ingest_hourly_gharchive working_ingester jan1_1200 empty_world =
    (inr tt,
     mkWorld
       [mkLog INFO "Downloading data from: http://data.gharchive.org/2023-01-01-12.json.gz";
        mkLog INFO "Transferred: 2 bytes to S3 bucket";
        mkLog INFO "Successfully uploaded gharchive/events/2023-01-01/12/2023-01-01-12.json.gz to test_bucket";
        mkLog INFO "Successfully ingested data for 2023-01-01-12"]
       {[ ("test_bucket", "gharchive/events/2023-01-01/12/2023-01-01-12.json.gz")
          := [x7b; x7d] ]}
       [CallCollect "http://data.gharchive.org/2023-01-01-12.json.gz";
        CallStore "gharchive/events/2023-01-01/12/2023-01-01-12.json.gz"]).
Proof.
  etransitivity;
    [eapply (ingest_success_collects_then_stores working_ingester jan1_1200
               empty_world); reflexivity
    | reflexivity].
Defined.

(** X9: when [collect] returns and [store] raises [e],
    [ingest_hourly_gharchive] logs the timestamp at ERROR level and raises
    the same [e]; the object store stays as the failed [store] left it
    (nothing is deleted or retried). *)
Theorem ingest_store_failure_propagates
    (self : DataLakeIngester) (d : datetime) (w : World)
    (data : PyData) (e : PyExc) (lg1 lg2 : list LogRecord) (objs2 : Objects) :
  collect (data_collector self) (data_url d) (w_log w) = (inr data, lg1) ->
  store (data_storage self) data
    (_generate_sink_key d (data_filename d) (dataset_base_path self))
    (lg1, w_objects w) = (inl e, (lg2, objs2)) ->
  ingest_hourly_gharchive self d w =
    (inl e,
     mkWorld
       (lg2 ++ [mkLog ERROR ("Failed to ingest data for " +:+ str_datetime d
                             +:+ ": " +:+ str_exc e)])
       objs2
       (w_calls w ++
          [CallCollect (data_url d);
           CallStore (_generate_sink_key d (data_filename d) (dataset_base_path self))])).
Proof.
  intros Hc Hs. run_ingest. rewrite Hc. simpl. rewrite Hs. simpl.
  now rewrite <- app_assoc.
Qed.

Lemma ingest_noon_upload_refused :
  ingest_hourly_gharchive refusing_ingester jan1_1200 empty_world =
    (inl (S3UploadFailedError "Failed to upload: AccessDenied"),
     mkWorld
       [mkLog INFO "Downloading data from: http://data.gharchive.org/2023-01-01-12.json.gz";
        mkLog ERROR "Failed to upload gharchive/events/2023-01-01/12/2023-01-01-12.json.gz to test_bucket: Failed to upload: AccessDenied";
        mkLog ERROR "Failed to ingest data for 2023-01-01 12:00:00: Failed to upload: AccessDenied"]
       ∅
       [CallCollect "http://data.gharchive.org/2023-01-01-12.json.gz";
        CallStore "gharchive/events/2023-01-01/12/2023-01-01-12.json.gz"]).
Proof.
  etransitivity;
    [eapply (ingest_store_failure_propagates refusing_ingester jan1_1200
               empty_world); reflexivity
    | reflexivity].
Defined.

(** *** Sink keys *)

Lemma append_inj_l (a b c : string) : a +:+ b = a +:+ c -> b = c.
Proof.
  induction a as [|x a IH]; [auto |].
  rewrite !append_cons. intros H. inversion H. auto.
Qed.

Lemma digit_inj (a b : Z) : digit a = digit b -> a mod 10 = b mod 10.
Proof.
  unfold digit. intros H.
  assert (Ha : 0 <= a mod 10 < 10) by (apply Z.mod_pos_bound; lia).
  assert (Hb : 0 <= b mod 10 < 10) by (apply Z.mod_pos_bound; lia).
  apply (f_equal nat_of_ascii) in H.
  rewrite !nat_ascii_embedding in H by lia. lia.
Qed.

Lemma two_digits_inj (a b : Z) :
  0 <= a < 100 -> 0 <= b < 100 -> two_digits a = two_digits b -> a = b.
Proof.
  unfold two_digits. intros Ha Hb H. inversion H as [[H1 H2]].
  apply digit_inj in H1, H2.
  rewrite (Z.div_mod a 10), (Z.div_mod b 10) by lia.
  rewrite (Z.mod_small (a / 10) 10) in H1
    by (split; [apply Z.div_pos | apply Z.div_lt_upper_bound]; lia).
  rewrite (Z.mod_small (b / 10) 10) in H1
    by (split; [apply Z.div_pos | apply Z.div_lt_upper_bound]; lia).
  lia.
Qed.

Lemma four_digits_inj (a b : Z) :
  0 <= a < 10000 -> 0 <= b < 10000 -> four_digits a = four_digits b -> a = b.
Proof.
  unfold four_digits, two_digits. intros Ha Hb H.
  inversion H as [[H1 H2 H3 H4]].
  apply digit_inj in H1, H2, H3, H4.
  Z.div_mod_to_equations. lia.
Qed.

Lemma append_two_digits_inj (a b : Z) (s t : string) :
  two_digits a +:+ s = two_digits b +:+ t ->
  two_digits a = two_digits b /\ s = t.
Proof.
  unfold two_digits. rewrite !append_cons, !append_nil_l.
  intros H. inversion H as [[H1 H2 H3]]. now rewrite H1, H2.
Qed.

Lemma append_four_digits_inj (a b : Z) (s t : string) :
  four_digits a +:+ s = four_digits b +:+ t ->
  four_digits a = four_digits b /\ s = t.
Proof.
  unfold four_digits, two_digits. rewrite !append_cons, !append_nil_l.
  intros H. inversion H as [[H1 H2 H3 H4 H5]]. now rewrite H1, H2, H3, H4.
Qed.

Lemma sink_key_digits (d : datetime) (filename base : string) :
  valid_datetime d ->
  _generate_sink_key d filename base =
    base +:+ "/"
      +:+ (decimal (year d) +:+ "-" +:+ two_digits (month d) +:+ "-"
             +:+ two_digits (day d))
      +:+ "/" +:+ two_digits (hour d) +:+ "/" +:+ filename
  /\ 1 <= day d <= 31.
Proof.
  intros (Hy & Hm & Hd & Hh & _).
  assert (Hd' : 1 <= day d <= 31).
  { unfold days_in_month in Hd.
    repeat match type of Hd with context [if ?b then _ else _] => destruct b end; lia. }
  split; [| exact Hd'].
  unfold _generate_sink_key.
  rewrite strftime_ymd, strftime_hour_padded.
  rewrite !zpad2_decimal by lia.
  reflexivity.
Qed.

(** X10: under one base path and file name, two valid timestamps get the
    same sink key only if they agree on year, month, day and hour: distinct
    hours never share a key, and minutes and seconds play no part. *)
Theorem sink_key_determines_the_hour
    (d1 d2 : datetime) (filename base : string) :
  valid_datetime d1 -> valid_datetime d2 ->
  _generate_sink_key d1 filename base = _generate_sink_key d2 filename base <->
  year d1 = year d2 /\ month d1 = month d2 /\ day d1 = day d2
  /\ hour d1 = hour d2.
Proof.
  intros V1 V2.
  destruct (sink_key_digits d1 filename base V1) as [E1 D1].
  destruct (sink_key_digits d2 filename base V2) as [E2 D2].
  rewrite E1, E2.
  destruct V1 as (Hy1 & Hm1 & _ & Hh1 & _), V2 as (Hy2 & Hm2 & _ & Hh2 & _).
  split.
  - intros H. rewrite !append_assoc in H.
    apply append_inj_l, append_inj_l in H.
    destruct (run_inj is_digit "-"%char
                (decimal (year d1)) (decimal (year d2)) _ _ eq_refl
                (decimal_all_digits (year d1) ltac:(lia))
                (decimal_all_digits (year d2) ltac:(lia)) H) as [Hyear H'].
    apply append_two_digits_inj in H' as [Hmonth H'].
    apply append_inj_l, append_two_digits_inj in H' as [Hday H'].
    apply append_inj_l, append_two_digits_inj in H' as [Hhour _].
    repeat split.
    + apply decimal_inj; [lia | lia | exact Hyear].
    + apply two_digits_inj; [lia | lia | exact Hmonth].
    + apply two_digits_inj; [lia | lia | exact Hday].
    + apply two_digits_inj; [lia | lia | exact Hhour].
  - intros (-> & -> & -> & ->). reflexivity.
Qed.

Lemma sink_keys_of_two_hours_differ :
  valid_datetime jan1_0900 /\ valid_datetime jan1_1200
  /\ _generate_sink_key jan1_0900 "f.json.gz" "base"
     <> _generate_sink_key jan1_1200 "f.json.gz" "base".
Proof.
  assert (V1 : valid_datetime jan1_0900)
    by (unfold valid_datetime; simpl; unfold days_in_month; simpl; lia).
  assert (V2 : valid_datetime jan1_1200)
    by (unfold valid_datetime; simpl; unfold days_in_month; simpl; lia).
  split; [exact V1 |]. split; [exact V2 |].
  intros H.
  apply (sink_key_determines_the_hour jan1_0900 jan1_1200 "f.json.gz" "base" V1 V2)
    in H as (_ & _ & _ & Hh).
  discriminate Hh.
Defined.

End IngestionFacts.

(** ** Cleaning, aggregation and export *)

Module PipelineFacts.
Import Text TextFacts Sql SqlFacts Transformer Examples MoreExamples
  TransformerFacts.

Lemma mapM_fails {A B} (f : A -> PyExc + B) (l : list A) (a : A) :
  In a l -> (exists e, f a = inl e) -> exists e, mapM f l = inl e.
Proof.
  induction l as [|x l IH]; intros Hin Hf; [contradiction |].
  simpl. destruct (f x) as [e | b] eqn:Ex; [eauto |].
  destruct Hin as [-> | Hin].
  - destruct Hf as [e He]. congruence.
  - destruct (IH Hin Hf) as [e He]. rewrite He. eauto.
Qed.

Lemma eval_row_fails (parse : string -> option Z) (sch : list (string * Ty))
    (items : list (Expr * string)) (bound : list (BExpr * Ty))
    (r : list Value) (it : Expr * string) :
  mapM (fun it => bind_expr sch it.1) items = inr bound ->
  In it items ->
  (exists e, cell_result parse sch it.1 r = inl e) ->
  exists e, eval_row parse (map fst bound) r = inl e.
Proof.
  revert bound. induction items as [|[x a] items IH]; intros bound Hb Hin Hf;
    [contradiction |].
  simpl in Hb.
  destruct (bind_expr sch x) as [err | [b t]] eqn:Ex; [discriminate |].
  destruct (mapM (fun it => bind_expr sch it.1) items) as [err | bs] eqn:Ebs;
    [discriminate |].
  inversion Hb; subst. unfold eval_row. simpl.
  destruct (eval parse b r) as [e | v] eqn:Ev; [eauto |].
  destruct Hin as [<- | Hin].
  - destruct Hf as [e He]. unfold cell_result in He. simpl in He.
    rewrite Ex in He. congruence.
  - destruct (IH bs eq_refl Hin Hf) as [e He].
    unfold eval_row in He. rewrite He. eauto.
Qed.

(** X11: when one of the nine fields the cleaning query names is absent
    from the raw relation, [clean_raw_gharchive] raises and the session keeps
    its tables as they were: [gharchive_clean] is neither created nor
    replaced. *)
Theorem clean_unbound_field_creates_nothing
    (parse : string -> option Z) (read_path : string -> PyExc + Relation)
    (raw_dataset : string) (raw : Relation) (s : TState) (it : Expr * string) :
  resolve read_path (catalog s) raw_dataset = inr raw ->
  In it clean_items ->
  (exists e, bind_expr (schema raw) it.1 = inl e) ->
  exists e,
    clean_raw_gharchive parse read_path raw_dataset s =
      (inl e,
       mkT (t_log s ++ [mkLog INFO "DuckDB - clean data"])
           (catalog s) (exports s) (draws s)).
Proof.
  intros Hres Hin Hf.
  destruct (mapM_fails (fun it => bind_expr (schema raw) it.1) clean_items it Hin Hf)
    as [e He].
  exists e.
  unfold clean_raw_gharchive, logging, from_target, create_or_replace_table,
    Eff.bind, Eff.modify, Eff.lift_result, Eff.raise. simpl.
  rewrite Hres. simpl. unfold select. rewrite He. reflexivity.
Qed.

Lemma clean_without_actor_creates_nothing :
  exists e,
    clean_raw_gharchive no_parse no_such_file "gharchive_raw"
      (mkT [] {[ "gharchive_raw" := raw_without_actor ]} [] 0) =
      (inl e,
       mkT [mkLog INFO "DuckDB - clean data"]
           {[ "gharchive_raw" := raw_without_actor ]} [] 0).
Proof.
  destruct (clean_unbound_field_creates_nothing no_parse no_such_file
              "gharchive_raw" raw_without_actor
              (mkT [] {[ "gharchive_raw" := raw_without_actor ]} [] 0)
              (Field "actor" "id", "user_id")) as [e He].
  - reflexivity.
  - right; left; reflexivity.
  - eexists; reflexivity.
  - exists e. exact He.
Defined.

(** X12: one source row on which a grouping item does not evaluate (an
    [event_date] that is no timestamp) makes [aggregate_raw_gharchive] raise,
    and the session is left exactly as it was: no partial table, no log
    line. *)
Theorem aggregate_bad_row_creates_nothing
    (parse : string -> option Z) (read_path : string -> PyExc + Relation)
    (raw_dataset : string) (raw : Relation) (s : TState)
    (r : list Value) (it : Expr * string) :
  resolve read_path (catalog s) raw_dataset = inr raw ->
  In r (rows raw) ->
  In it agg_items ->
  (exists e, cell_result parse (schema raw) it.1 r = inl e) ->
  exists e, aggregate_raw_gharchive parse read_path raw_dataset s = (inl e, s).
Proof.
  intros Hres Hr Hit Hf.
  unfold aggregate_raw_gharchive, from_target, create_or_replace_table,
    Eff.bind, Eff.modify, Eff.lift_result, Eff.raise. simpl.
  rewrite Hres. simpl. unfold select_count_group_by_all.
  destruct (mapM (fun it => bind_expr (schema raw) it.1) agg_items)
    as [e | bound] eqn:Eb; [eauto |].
  destruct (mapM_fails (eval_row parse (map fst bound)) (rows raw) r Hr)
    as [e He].
  { now apply (eval_row_fails parse (schema raw) agg_items bound r it). }
  rewrite He. eauto.
Qed.

Lemma aggregate_with_bad_date_creates_nothing :
  exists e,
    aggregate_raw_gharchive parse_known no_such_file "clean_events"
      (mkT [] {[ "clean_events" := clean_with_bad_date ]} [] 0) =
      (inl e, mkT [] {[ "clean_events" := clean_with_bad_date ]} [] 0).
Proof.
  destruct (aggregate_bad_row_creates_nothing parse_known no_such_file
              "clean_events" clean_with_bad_date
              (mkT [] {[ "clean_events" := clean_with_bad_date ]} [] 0)
              [str "PushEvent"; int 42; str "octo/repo"; str "u"; str "yesterday"]
              (DateTruncDay (CastTimestamp (Col "event_date")), "event_date"))
    as [e He].
  - reflexivity.
  - right; left; reflexivity.
  - do 4 right; left; reflexivity.
  - eexists; reflexivity.
  - exists e. exact He.
Defined.

(** X13: aggregating a relation without rows, whose columns bind, creates
    [gharchive_agg] with the six columns and no row: no error, and no row
    with a zero count. *)
Theorem aggregate_of_no_rows_is_empty
    (parse : string -> option Z) (read_path : string -> PyExc + Relation)
    (raw_dataset : string) (raw : Relation) (s : TState) :
  resolve read_path (catalog s) raw_dataset = inr raw ->
  rows raw = [] ->
  Forall (fun it => exists bt, bind_expr (schema raw) it.1 = inr bt) agg_items ->
  exists out,
    aggregate_raw_gharchive parse read_path raw_dataset s =
      (inr (mkHandle "gharchive_agg"),
       mkT (t_log s) (<["gharchive_agg" := out]> (catalog s)) (exports s) (draws s))
    /\ rows out = []
    /\ columns out =
         ["event_type"; "repo_id"; "repo_name"; "repo_url"; "event_date";
          "event_count"].
Proof.
  intros Hres Hrows Hbind.
  destruct (mapM_total (fun it => bind_expr (schema raw) it.1) agg_items)
    as [bound Eb].
  { intros it Hin. rewrite List.Forall_forall in Hbind. exact (Hbind it Hin). }
  exists (mkRel (zip (map snd agg_items) (map snd bound)
                   ++ [("event_count", TAtom "BIGINT")]) []).
  split; [| split; [reflexivity |]].
  - unfold aggregate_raw_gharchive, from_target, create_or_replace_table,
      Eff.bind, Eff.modify, Eff.lift_result, Eff.ret. simpl.
    rewrite Hres. simpl. unfold select_count_group_by_all.
    rewrite Eb, Hrows. reflexivity.
  - unfold columns. cbn [schema]. rewrite map_app.
    rewrite fst_zip_same_length; [reflexivity |].
    rewrite !length_map. symmetry. now apply (mapM_length _ _ _ Eb).
Qed.

Lemma aggregate_of_empty_clean_table :
  exists out,
    aggregate_raw_gharchive no_parse no_such_file "clean_events"
      (mkT [] {[ "clean_events" := mkRel (schema clean_events) [] ]} [] 0) =
      (inr (mkHandle "gharchive_agg"),
       mkT [] (<["gharchive_agg" := out]>
                 {[ "clean_events" := mkRel (schema clean_events) [] ]}) [] 0)
    /\ rows out = []
    /\ columns out =
         ["event_type"; "repo_id"; "repo_name"; "repo_url"; "event_date";
          "event_count"].
Proof.
  destruct (aggregate_of_no_rows_is_empty no_parse no_such_file "clean_events"
              (mkRel (schema clean_events) [])
              (mkT [] {[ "clean_events" := mkRel (schema clean_events) [] ]} [] 0))
    as (out & H1 & H2 & H3).
  - reflexivity.
  - reflexivity.
  - repeat first [apply List.Forall_nil | apply List.Forall_cons];
      eexists; reflexivity.
  - exists out. split; [exact H1 | split; assumption].
Defined.

(** *** The two exports *)

Lemma clean_items_select (parse : string -> option Z) (raw : Relation) :
  Forall (fun it => exists bt, bind_expr (schema raw) it.1 = inr bt) clean_items ->
  exists out, select parse clean_items raw = inr out.
Proof.
  intros Hbind.
  destruct (select_rows_total parse clean_items raw Hbind) as (bound & keys & Eb & Ek).
  { apply List.Forall_forall. intros r _.
    rewrite List.Forall_forall in Hbind |- *. intros it Hin.
    apply reference_evaluates; [| now apply Hbind].
    simpl in Hin.
    repeat (destruct Hin as [<- | Hin]; [exact I |]). contradiction. }
  unfold select. rewrite Eb, Ek. eauto.
Qed.

Lemma clean_items_bind (sch : list (string * Ty)) :
  Described.has_event_fields sch ->
  Forall (fun it => exists bt, bind_expr sch it.1 = inr bt) clean_items.
Proof.
  intros ((i1 & t1 & E1) & (i2 & f2 & j2 & t2 & E2 & F2)
          & (i3 & f3 & j3 & t3 & E3 & F3) & (i4 & f4 & j4 & t4 & E4 & F4)
          & (i5 & t5 & E5) & (i6 & f6 & j6 & t6 & E6 & F6)
          & (i7 & f7 & j7 & t7 & E7 & F7) & (i8 & f8 & j8 & t8 & E8 & F8)
          & (i9 & t9 & E9)).
  unfold clean_items.
  repeat apply List.Forall_cons; [| | | | | | | | | apply List.Forall_nil];
    cbn [fst bind_expr].
  - rewrite E1. eauto.
  - rewrite E2, F2. eauto.
  - rewrite E3, F3. eauto.
  - rewrite E4, F4. eauto.
  - rewrite E5. eauto.
  - rewrite E6, F6. eauto.
  - rewrite E7, F7. eauto.
  - rewrite E8, F8. eauto.
  - rewrite E9. eauto.
Qed.

(** The cells of the nine select items are the nine fields of the event. *)
Lemma clean_items_cells (parse : string -> option Z) (sch : list (string * Ty))
    (r : list Value) :
  map (fun it => cell parse sch it.1 r) clean_items = Described.clean_row sch r.
Proof.
  unfold clean_items, Described.clean_row. cbn [map fst].
  now rewrite !cell_column, !cell_struct_field.
Qed.

(** X14: when the source reads as [raw], [raw] has the nine fields and the
    writer accepts the file, [serialise_raw_data] returns; the session then
    holds [raw] as [gharchive_raw] and its projection as [gharchive_clean],
    and exactly one file was written, at
    [s3://bucket/key/clean_<timestamp>_<id>.parquet]: that projection, which
    has the nine columns and, for every raw row and in the same order, the
    row of its nine fields (event id, actor id, login and display name,
    event type, repository id, name and url, event timestamp). *)
Theorem serialise_exports_the_clean_projection
    (parse : string -> option Z)
    (read_json_auto read_path : string -> PyExc + Relation)
    (write_file : string -> Relation -> option PyExc)
    (now : nat -> datetime) (uuid4 : nat -> Z)
    (source_path sink_bucket sink_key_path : string)
    (raw : Relation) (s : TState) :
  read_json_auto source_path = inr raw ->
  Described.has_event_fields (schema raw) ->
  (forall path r, write_file path r = None) ->
  exists out,
    let sink_path :=
      "s3://" +:+ sink_bucket +:+ "/" +:+ sink_key_path +:+ "/"
        +:+ export_filename (now (draws s)) (uuid4 (draws s)) "clean" "parquet" None in
    serialise_raw_data parse read_json_auto read_path write_file now uuid4
      source_path sink_bucket sink_key_path s =
    (inr tt,
     mkT (t_log s ++
            [mkLog INFO ("DuckDB - collect source data files: " +:+ source_path);
             mkLog INFO "DuckDB - clean data";
             mkLog INFO ("DuckDB - serialise and export cleaned data to "
                         +:+ sink_path)])
         (<["gharchive_clean" := out]> (<["gharchive_raw" := raw]> (catalog s)))
         (exports s ++ [(sink_path, out)])
         (S (draws s)))
    /\ columns out =
         ["event_id"; "user_id"; "user_name"; "user_display_name"; "event_type";
          "repo_id"; "repo_name"; "repo_url"; "event_date"]
    /\ length (rows out) = length (rows raw)
    /\ rows out = map (Described.clean_row (schema raw)) (rows raw).
Proof.
  intros Hread Hfields Hwrite.
  pose proof (clean_items_bind (schema raw) Hfields) as Hbind.
  destruct (clean_items_select parse raw Hbind) as [out Hsel].
  destruct (select_spec parse _ _ _ Hsel) as [Hcols Hrows].
  assert (Hproj : rows out = map (Described.clean_row (schema raw)) (rows raw)).
  { rewrite Hrows. apply map_ext. intros r. apply clean_items_cells. }
  exists out.
  split; [| split; [exact Hcols | split; [| exact Hproj]]].
  2: { rewrite Hproj. now rewrite length_map. }
  unfold serialise_raw_data, Eff.try_except, serialise_raw_data_try,
    register_raw_gharchive, clean_raw_gharchive, _create_sink_path,
    _generate_export_filename, write_parquet, from_target, resolve,
    create_or_replace_table, logging, Eff.bind, Eff.modify, Eff.lift_result,
    Eff.ret.
  rewrite Hread. cbn [alias catalog t_log exports draws fst snd].
  rewrite lookup_insert_eq. rewrite Hsel.
  cbn [alias catalog t_log exports draws fst snd].
  rewrite lookup_insert_eq, Hwrite.
  rewrite <- !app_assoc. reflexivity.
Qed.

(** Two raw events, the second without an actor: the file holds their nine
    fields, the actor fields of the second being NULL, and nothing of
    [payload], [public] or [actor.gravatar_id]. *)
Lemma serialise_two_raw_events :
  Described.has_event_fields (schema raw_events)
  /\ exists out,
    serialise_raw_data no_parse read_raw_events no_such_file write_ok
      fixed_clock fixed_uuid "s3://bronze/2023-01-01/*" "silver" "clean"
      empty_session =
    (inr tt,
     mkT [mkLog INFO "DuckDB - collect source data files: s3://bronze/2023-01-01/*";
          mkLog INFO "DuckDB - clean data";
          mkLog INFO "DuckDB - serialise and export cleaned data to s3://silver/clean/clean_20230101090000_80000000.parquet"]
         (<["gharchive_clean" := out]> (<["gharchive_raw" := raw_events]> ∅))
         [("s3://silver/clean/clean_20230101090000_80000000.parquet", out)]
         1)
    /\ columns out =
         ["event_id"; "user_id"; "user_name"; "user_display_name"; "event_type";
          "repo_id"; "repo_name"; "repo_url"; "event_date"]
    /\ rows out =
         [[str "26163418658"; int 7; str "octocat"; str "octocat";
           str "PushEvent"; int 42; str "octo/repo";
           str "https://api.github.com/repos/octo/repo";
           ts 1672564500000000];
          [str "26163418659"; null; null; null;
           str "WatchEvent"; int 42; str "octo/repo";
           str "https://api.github.com/repos/octo/repo";
           ts 1672592400000000]].
Proof.
  assert (Hf : Described.has_event_fields (schema raw_events)).
  { repeat split;
      first [ do 2 eexists; reflexivity
            | do 4 eexists; split; reflexivity ]. }
  split; [exact Hf |].
  destruct (serialise_exports_the_clean_projection no_parse read_raw_events
              no_such_file write_ok fixed_clock fixed_uuid
              "s3://bronze/2023-01-01/*" "silver" "clean" raw_events empty_session
              eq_refl Hf (fun _ _ => eq_refl))
    as (out & H1 & H2 & _ & H4).
  exists out. split; [exact H1 | split; [exact H2 |]].
  rewrite H4. reflexivity.
Defined.

(** X15: when the grouping items bind and evaluate on every row of the
    source and the writer accepts the file, [aggregate_silver_data] returns;
    exactly one file was written, at
    [s3://bucket/key/agg_<timestamp>_<id>.parquet], holding the table
    [gharchive_agg], whose counts add up to the number of source rows. *)
Theorem aggregate_silver_exports_the_counts
    (parse : string -> option Z)
    (read_path : string -> PyExc + Relation)
    (write_file : string -> Relation -> option PyExc)
    (now : nat -> datetime) (uuid4 : nat -> Z)
    (source_path sink_bucket sink_key_path : string)
    (raw : Relation) (s : TState) :
  resolve read_path (catalog s) source_path = inr raw ->
  Forall (fun it => exists bt, bind_expr (schema raw) it.1 = inr bt) agg_items ->
  Forall (fun r =>
            Forall (fun it => exists v, cell_result parse (schema raw) it.1 r = inr v)
                   agg_items) (rows raw) ->
  (forall path r, write_file path r = None) ->
  exists out,
    let sink_path :=
      "s3://" +:+ sink_bucket +:+ "/" +:+ sink_key_path +:+ "/"
        +:+ export_filename (now (draws s)) (uuid4 (draws s)) "agg" "parquet" None in
    aggregate_silver_data parse read_path write_file now uuid4
      source_path sink_bucket sink_key_path s =
    (inr tt,
     mkT (t_log s ++
            [mkLog INFO ("DuckDB - aggregate raw data in " +:+ source_path);
             mkLog INFO ("DuckDB - export aggregated data to " +:+ sink_path)])
         (<["gharchive_agg" := out]> (catalog s))
         (exports s ++ [(sink_path, out)])
         (S (draws s)))
    /\ sum_event_count (rows out) = Z.of_nat (length (rows raw)).
Proof.
  intros Hres Hbind Hrows Hwrite.
  destruct (select_rows_total parse agg_items raw Hbind Hrows)
    as (bound & keys & Eb & Ek).
  assert (Hkeys : keys = map (agg_key parse (schema raw)) (rows raw))
    by (apply (rows_cells parse _ _ bound); assumption).
  set (groups := group_count keys).
  set (out := mkRel (zip (map snd agg_items) (map snd bound)
                       ++ [("event_count", TAtom "BIGINT")])
                    (map (fun g => g.1 ++ [VScalar (SInt g.2)]) groups)).
  assert (Hagg : select_count_group_by_all parse agg_items "event_count" raw
                 = inr out).
  { unfold select_count_group_by_all. now rewrite Eb, Ek. }
  destruct (group_count_spec keys) as (_ & _ & _ & Hfrom & Htot).
  fold groups in Hfrom, Htot.
  assert (Hlen : Forall (fun g => length g.1 = 5%nat) groups).
  { apply List.Forall_forall. intros [k n] Hin. simpl.
    apply Hfrom in Hin. rewrite Hkeys in Hin.
    apply in_map_iff in Hin as (r & <- & _). reflexivity. }
  exists out. split.
  - unfold aggregate_silver_data, Eff.try_except, aggregate_silver_data_try,
      aggregate_raw_gharchive, _create_sink_path, _generate_export_filename,
      write_parquet, from_target, create_or_replace_table, logging,
      Eff.bind, Eff.modify, Eff.lift_result, Eff.ret.
    cbn [alias catalog t_log exports draws fst snd].
    rewrite Hres, Hagg.
    cbn [alias catalog t_log exports draws fst snd].
    rewrite lookup_insert_eq, Hwrite.
    rewrite <- !app_assoc. reflexivity.
  - change (rows out) with (map (fun g => g.1 ++ [VScalar (SInt g.2)]) groups).
    rewrite sum_event_count_total by exact Hlen.
    rewrite Htot, Hkeys. now rewrite length_map.
Qed.

Lemma aggregate_silver_three_events :
  exists out,
    aggregate_silver_data no_parse read_clean_events write_ok
      fixed_clock fixed_uuid "s3://silver/clean/*.parquet" "gold" "agg"
      empty_session =
    (inr tt,
     mkT [mkLog INFO "DuckDB - aggregate raw data in s3://silver/clean/*.parquet";
          mkLog INFO "DuckDB - export aggregated data to s3://gold/agg/agg_20230101090000_80000000.parquet"]
         (<["gharchive_agg" := out]> ∅)
         [("s3://gold/agg/agg_20230101090000_80000000.parquet", out)]
         1)
    /\ sum_event_count (rows out) = 3.
Proof.
  destruct (aggregate_silver_exports_the_counts no_parse
              read_clean_events write_ok fixed_clock fixed_uuid
              "s3://silver/clean/*.parquet" "gold" "agg" clean_events
              empty_session) as (out & H1 & H2).
  - reflexivity.
  - repeat first [apply List.Forall_nil | apply List.Forall_cons];
      eexists; reflexivity.
  - repeat first [apply List.Forall_nil | apply List.Forall_cons];
      eexists; reflexivity.
  - reflexivity.
  - exists out. split; [exact H1 | exact H2].
Defined.

End PipelineFacts.

(** ** Export file names *)

Module NamingFacts.
Import Text TextFacts Transformer Examples MoreExamples TransformerFacts
  IngestionFacts.

Lemma append_inj_same_length (a b s t : string) :
  String.length a = String.length b -> a +:+ s = b +:+ t -> a = b.
Proof.
  revert b. induction a as [|x a IH]; intros [|y b] Hl H; simpl in Hl;
    try discriminate; [reflexivity |].
  rewrite !append_cons in H. inversion H; subst.
  f_equal. apply IH; [lia | assumption].
Qed.

Lemma append_inj_tail (a b s t : string) :
  String.length s = String.length t -> a +:+ s = b +:+ t -> a = b /\ s = t.
Proof.
  intros Hl H.
  assert (Hab : a = b).
  { apply (append_inj_same_length a b s t); [| exact H].
    apply (f_equal String.length) in H. rewrite !length_append in H. lia. }
  subst b. split; [reflexivity |]. now apply append_inj_l in H.
Qed.

Lemma timestamp_digits (d : datetime) :
  valid_datetime d ->
  strftime d "%Y%m%d%H%M%S" =
    decimal (year d) +:+ two_digits (month d) +:+ two_digits (day d)
      +:+ two_digits (hour d) +:+ two_digits (minute d) +:+ two_digits (second d)
  /\ 1 <= day d <= 31.
Proof.
  intros (Hy & Hm & Hd & Hh & Hmi & Hs & _).
  assert (Hd' : 1 <= day d <= 31).
  { unfold days_in_month in Hd.
    repeat match type of Hd with context [if ?b then _ else _] => destruct b end; lia. }
  split; [| exact Hd'].
  rewrite strftime_compact.
  rewrite !zpad2_decimal by lia. reflexivity.
Qed.

(** X16: two exports of one stage get the same file name exactly when their
    clock readings agree down to the second and the first eight hexadecimal
    digits of their uuids agree; microseconds and the rest of the uuid play
    no part. *)
Theorem export_filenames_collide_iff
    (d1 d2 : datetime) (u1 u2 : Z) (data_type : string) :
  valid_datetime d1 -> valid_datetime d2 ->
  export_filename d1 u1 data_type "parquet" None
    = export_filename d2 u2 data_type "parquet" None <->
  (year d1 = year d2 /\ month d1 = month d2 /\ day d1 = day d2
   /\ hour d1 = hour d2 /\ minute d1 = minute d2 /\ second d1 = second d2)
  /\ take 8 (str_uuid u1) = take 8 (str_uuid u2).
Proof.
  intros V1 V2.
  rewrite (proj1 (export_filename_without_partition_key d1 u1 data_type)).
  rewrite (proj1 (export_filename_without_partition_key d2 u2 data_type)).
  destruct (timestamp_digits d1 V1) as [E1 D1].
  destruct (timestamp_digits d2 V2) as [E2 D2].
  pose proof (proj2 (timestamp_fourteen_digits d1 V1)) as G1.
  pose proof (proj2 (timestamp_fourteen_digits d2 V2)) as G2.
  destruct V1 as (Hy1 & Hm1 & _ & Hh1 & Hmi1 & Hs1 & _).
  destruct V2 as (Hy2 & Hm2 & _ & Hh2 & Hmi2 & Hs2 & _).
  split.
  - intros H.
    apply append_inj_l, append_inj_l in H.
    destruct (run_inj is_digit "_"%char _ _ _ _ eq_refl G1 G2 H) as [Hts H'].
    rewrite E1, E2 in Hts.
    apply append_inj_tail in Hts as [Hyear Hts]; [| reflexivity].
    apply append_two_digits_inj in Hts as [Hmonth Hts].
    apply append_two_digits_inj in Hts as [Hday Hts].
    apply append_two_digits_inj in Hts as [Hhour Hts].
    apply append_two_digits_inj in Hts as [Hminute Hsecond].
    split.
    + split; [apply decimal_inj; [lia | lia | exact Hyear] |].
      repeat split; apply two_digits_inj; solve [lia | assumption].
    + apply (append_inj_same_length _ _ ".parquet" ".parquet"); [| exact H'].
      now rewrite (proj1 (short_id_eight_hex u1)), (proj1 (short_id_eight_hex u2)).
  - intros [(Ey & Em & Ed & Eh & Emi & Es) ->].
    rewrite E1, E2, Ey, Em, Ed, Eh, Emi, Es. reflexivity.
Qed.

Lemma export_filenames_differ_across_seconds :
  valid_datetime jan1_0900 /\ valid_datetime (mkDatetime 2023 1 1 9 0 1 0)
  /\ export_filename jan1_0900 (fixed_uuid 0) "clean" "parquet" None
     <> export_filename (mkDatetime 2023 1 1 9 0 1 0) (fixed_uuid 0)
          "clean" "parquet" None.
Proof.
  assert (V1 : valid_datetime jan1_0900)
    by (unfold valid_datetime; simpl; unfold days_in_month; simpl; lia).
  assert (V2 : valid_datetime (mkDatetime 2023 1 1 9 0 1 0))
    by (unfold valid_datetime; simpl; unfold days_in_month; simpl; lia).
  split; [exact V1 |]. split; [exact V2 |].
  intros H.
  apply (export_filenames_collide_iff jan1_0900 (mkDatetime 2023 1 1 9 0 1 0)
           (fixed_uuid 0) (fixed_uuid 0) "clean" V1 V2) in H
    as [(_ & _ & _ & _ & _ & Hs) _].
  discriminate Hs.
Defined.

End NamingFacts.

(** ** File names out of S3 paths *)

Module PathFacts.
Import Text TextFacts Sql Transformer Paths Examples MoreExamples
  TransformerFacts.

Lemma contains_char_append (c : ascii) (a b : string) :
  contains_char c (a +:+ b) = contains_char c a || contains_char c b.
Proof.
  induction a as [|x a IH]; [reflexivity |].
  rewrite append_cons. simpl. rewrite IH. now destruct (Ascii.eqb c x).
Qed.

Lemma all_chars_not_contains (p : ascii -> bool) (c : ascii) (s : string) :
  all_chars p s = true -> p c = false -> contains_char c s = false.
Proof.
  intros Hs Hc. induction s as [|x s IH]; [reflexivity |].
  simpl in *. apply andb_true_iff in Hs as [Hx Hs].
  destruct (Ascii.eqb c x) eqn:E; [| now apply IH].
  apply Ascii.eqb_eq in E. congruence.
Qed.

(** *** [rfind] *)

Lemma rfind_from_none (c : ascii) (s : string) (i last : Z) :
  contains_char c s = false -> rfind_from c s i last = last.
Proof.
  revert i last. induction s as [|x s IH]; intros i last H; [reflexivity |].
  simpl in *. destruct (Ascii.eqb c x); [discriminate |]. now apply IH.
Qed.

Lemma rfind_from_last (c : ascii) (a t : string) (i last : Z) :
  contains_char c t = false ->
  rfind_from c (a +:+ String c t) i last = i + Z.of_nat (String.length a).
Proof.
  intros Ht. revert i last. induction a as [|x a IH]; intros i last.
  - rewrite append_nil_l. simpl. rewrite Ascii.eqb_refl.
    rewrite rfind_from_none by exact Ht. lia.
  - rewrite append_cons. simpl rfind_from. rewrite IH. simpl String.length. lia.
Qed.

(** Whatever follows the last [c] holds no [c]. *)
Lemma after_rfind_clean (c : ascii) (s : string) (i last : Z) :
  let r := rfind_from c s i last in
  (r = last /\ contains_char c s = false)
  \/ (i <= r /\ contains_char c (drop_chars (Z.to_nat (r - i + 1)) s) = false).
Proof.
  revert i last. induction s as [|x s IH]; intros i last; simpl.
  - left. auto.
  - destruct (IH (i + 1) (if Ascii.eqb c x then i else last)) as [[Hr Hc] | [Hr Hc]].
    + destruct (Ascii.eqb c x) eqn:E.
      * right. rewrite Hr. split; [lia |].
        replace (Z.to_nat (i - i + 1)) with 1%nat by lia. exact Hc.
      * left. auto.
    + right. split; [lia |].
      replace (Z.to_nat (rfind_from c s (i + 1) (if Ascii.eqb c x then i else last)
                         - i + 1))
        with (S (Z.to_nat (rfind_from c s (i + 1) (if Ascii.eqb c x then i else last)
                           - (i + 1) + 1))) by lia.
      exact Hc.
Qed.

Lemma drop_chars_append (a b : string) :
  drop_chars (String.length a) (a +:+ b) = b.
Proof.
  induction a as [|x a IH]; [now destruct b |].
  rewrite append_cons. simpl. exact IH.
Qed.

Lemma drop_chars_past (a b : string) (c : ascii) :
  drop_chars (S (String.length a)) (a +:+ String c b) = b.
Proof.
  induction a as [|x a IH]; [now destruct b |].
  rewrite append_cons. exact IH.
Qed.

Lemma basename_after_slash (dir name : string) :
  contains_char "/" name = false ->
  basename (dir +:+ "/" +:+ name) = name.
Proof.
  intros Hn. unfold basename, slice_from, rfind.
  change ("/" +:+ name) with (String "/" name).
  rewrite rfind_from_last by exact Hn.
  replace (Z.to_nat (0 + Z.of_nat (String.length dir) + 1))
    with (S (String.length dir)) by lia.
  apply drop_chars_past.
Qed.

(** *** Removing the scheme *)

Lemma starts_with_scheme_has_colon (s : string) :
  starts_with "s3://" s = true -> contains_char ":" s = true.
Proof.
  destruct s as [|a [|b [|c s]]]; cbn [starts_with]; intros H;
    repeat match type of H with
           | (_ && _ = true) =>
               let E := fresh "E" in apply andb_true_iff in H as [E H]
           end; try discriminate.
  cbn [contains_char]. rewrite E1.
  destruct (Ascii.eqb ":" a); [reflexivity |].
  destruct (Ascii.eqb ":" b); reflexivity.
Qed.

Lemma remove_without_colon (s : string) :
  contains_char ":" s = false -> remove_go "s3://" 0 s = s.
Proof.
  induction s as [|x s IH]; intros H; [reflexivity |].
  cbn [remove_go].
  destruct (starts_with "s3://" (String x s)) eqn:E.
  - apply starts_with_scheme_has_colon in E. congruence.
  - f_equal. apply IH. cbn [contains_char] in H.
    now destruct (Ascii.eqb ":" x).
Qed.

Lemma str_remove_scheme (rest : string) :
  contains_char ":" rest = false -> str_remove "s3://" ("s3://" +:+ rest) = rest.
Proof.
  intros H. unfold str_remove.
  change ("s3://" +:+ rest)
    with (String "s" (String "3" (String ":" (String "/" (String "/" rest))))).
  cbn. now apply remove_without_colon.
Qed.

(** X17: without [remove_extension], the name extracted from any path holds
    no slash. *)
Theorem extracted_filename_has_no_slash (s3_path : string) :
  contains_char "/" (_extract_filename_from_s3_path s3_path false) = false.
Proof.
  unfold _extract_filename_from_s3_path, basename, slice_from, rfind.
  set (p := str_remove "s3://" s3_path).
  destruct (after_rfind_clean "/" p 0 (-1)) as [[Hr Hc] | [Hr Hc]].
  - rewrite Hr. simpl. now destruct p.
  - replace (rfind_from "/" p 0 (-1) + 1) with (rfind_from "/" p 0 (-1) - 0 + 1) by lia.
    exact Hc.
Qed.

Lemma extract_plain (dir name : string) :
  contains_char ":" dir = false ->
  contains_char ":" name = false ->
  contains_char "/" name = false ->
  str_remove "s3://" ("s3://" +:+ dir +:+ "/" +:+ name) = dir +:+ "/" +:+ name
  /\ basename (dir +:+ "/" +:+ name) = name.
Proof.
  intros Hd Hn Hs. split; [| now apply basename_after_slash].
  apply str_remove_scheme.
  rewrite !contains_char_append, Hd, Hn. reflexivity.
Qed.

Lemma export_filename_clean (d : datetime) (u : Z) (data_type : string) :
  valid_datetime d ->
  contains_char ":" data_type = false ->
  contains_char "/" data_type = false ->
  contains_char ":" (export_filename d u data_type "parquet" None) = false
  /\ contains_char "/" (export_filename d u data_type "parquet" None) = false.
Proof.
  intros V Hc Hs.
  rewrite (proj1 (export_filename_without_partition_key d u data_type)).
  destruct (timestamp_fourteen_digits d V) as [_ Hts].
  destruct (short_id_eight_hex u) as [_ Hid].
  rewrite !contains_char_append, Hc, Hs.
  rewrite !(all_chars_not_contains is_digit _ _ Hts) by reflexivity.
  rewrite !(all_chars_not_contains is_hex_digit _ _ Hid) by reflexivity.
  split; reflexivity.
Qed.

(** X18: the name extracted from a path made by [_create_sink_path] is the
    export file name generated for it, provided the bucket, the key path and
    the stage hold no colon and the stage holds no slash. *)
Theorem extract_filename_of_created_sink_path
    (now : nat -> datetime) (uuid4 : nat -> Z)
    (data_type sink_bucket sink_key_path : string) (s : TState) :
  valid_datetime (now (draws s)) ->
  contains_char ":" sink_bucket = false ->
  contains_char ":" sink_key_path = false ->
  contains_char ":" data_type = false ->
  contains_char "/" data_type = false ->
  exists sink_path,
    (_create_sink_path now uuid4 data_type sink_bucket sink_key_path s).1
      = inr sink_path
    /\ _extract_filename_from_s3_path sink_path false
       = export_filename (now (draws s)) (uuid4 (draws s)) data_type "parquet" None.
Proof.
  intros V Hb Hk Hc Hs.
  destruct (export_filename_clean (now (draws s)) (uuid4 (draws s)) data_type V Hc Hs)
    as [Hfc Hfs].
  eexists. split; [reflexivity |].
  unfold _extract_filename_from_s3_path.
  set (name := export_filename (now (draws s)) (uuid4 (draws s)) data_type
                 "parquet" None) in *.
  destruct (extract_plain (sink_bucket +:+ "/" +:+ sink_key_path) name)
    as [Hrm Hbase]; try assumption.
  { rewrite !contains_char_append, Hb, Hk. reflexivity. }
  rewrite !append_assoc in Hrm, Hbase.
  rewrite Hrm. exact Hbase.
Qed.

Lemma extract_filename_of_clean_sink_path :
  exists sink_path,
    (_create_sink_path fixed_clock fixed_uuid "clean" "silver" "gharchive/clean"
       empty_session).1 = inr sink_path
    /\ _extract_filename_from_s3_path sink_path false
       = "clean_20230101090000_80000000.parquet".
Proof.
  destruct (extract_filename_of_created_sink_path fixed_clock fixed_uuid
              "clean" "silver" "gharchive/clean" empty_session)
    as (sink_path & H1 & H2); try reflexivity.
  { unfold valid_datetime; simpl. unfold days_in_month; simpl. lia. }
  exists sink_path. split; [exact H1 |].
  rewrite H2. vm_compute; reflexivity.
Defined.

(** *** Extensions *)

Lemma rfind_from_ge (c : ascii) (s : string) (i last : Z) :
  last <= i -> last <= rfind_from c s i last.
Proof.
  intros H. destruct (after_rfind_clean c s i last) as [[Hr _] | [Hr _]]; lia.
Qed.

Lemma splitext_without_dot (s : string) :
  contains_char "." s = false -> splitext s = (s, "").
Proof.
  intros H. unfold splitext, rfind.
  rewrite (rfind_from_none "." s 0 (-1) H).
  assert (Hge : -1 <= rfind_from "/" s 0 (-1)) by (apply rfind_from_ge; lia).
  destruct (rfind_from "/" s 0 (-1) <? -1) eqn:E; [lia | reflexivity].
Qed.

Lemma has_name_char_found (fuel : nat) (p : string) (k j : nat) (ch : ascii) :
  (k <= j < k + fuel)%nat ->
  String.get j p = Some ch -> Ascii.eqb ch "." = false ->
  has_name_char fuel p k = true.
Proof.
  revert k. induction fuel as [|fuel IH]; intros k Hj Hg Hne; [lia |].
  simpl. destruct (String.get k p) as [x |] eqn:Ek; [| reflexivity].
  destruct (Ascii.eqb x ".") eqn:Ex; [| reflexivity].
  apply IH; [| assumption | assumption].
  assert (j <> k) by (intros ->; congruence). lia.
Qed.

Lemma not_only_dots (s : string) :
  all_chars (fun ch => Ascii.eqb ch ".") s = false ->
  exists j ch, (j < String.length s)%nat /\ String.get j s = Some ch
               /\ Ascii.eqb ch "." = false.
Proof.
  induction s as [|x s IH]; simpl; [discriminate |].
  destruct (Ascii.eqb x ".") eqn:Ex; simpl; intros H.
  - destruct (IH H) as (j & ch & Hj & Hg & Hne).
    exists (S j), ch. repeat split; [lia | exact Hg | exact Hne].
  - exists 0%nat, x. repeat split; [lia | exact Ex].
Qed.

(** A name with a stem that is not dots only, and an extension without a
    dot: [splitext] cuts at the last dot. *)
Lemma splitext_at_last_dot (stem ext : string) :
  contains_char "/" stem = false ->
  contains_char "/" ext = false ->
  contains_char "." ext = false ->
  all_chars (fun ch => Ascii.eqb ch ".") stem = false ->
  splitext (stem +:+ "." +:+ ext) = (stem, "." +:+ ext).
Proof.
  intros Hs He Hd Hstem. unfold splitext, rfind.
  assert (Hslash : contains_char "/" (stem +:+ "." +:+ ext) = false)
    by (rewrite !contains_char_append, Hs, He; reflexivity).
  rewrite (rfind_from_none "/" _ 0 (-1) Hslash).
  change ("." +:+ ext) with (String "." ext).
  rewrite rfind_from_last by exact Hd.
  assert (Hlt : (-1 <? 0 + Z.of_nat (String.length stem)) = true)
    by (apply Z.ltb_lt; lia).
  rewrite Hlt.
  destruct (not_only_dots stem Hstem) as (j & ch & Hj & Hg & Hne).
  rewrite (has_name_char_found _ _ _ j ch); [| lia | | exact Hne].
  - unfold slice_to, slice_from.
    replace (Z.to_nat (0 + Z.of_nat (String.length stem)))
      with (String.length stem) by lia.
    rewrite (take_append_exact _ stem _ eq_refl).
    now rewrite drop_chars_append.
  - rewrite <- Hg. symmetry. now apply append_correct1.
Qed.

Lemma lower_keeps_dot (d : ascii) :
  Ascii.eqb "." (lower_ascii d) = Ascii.eqb "." d.
Proof. destruct d as [[] [] [] [] [] [] [] []]; reflexivity. Qed.

Lemma lower_keeps_slash (d : ascii) :
  Ascii.eqb "/" (lower_ascii d) = Ascii.eqb "/" d.
Proof. destruct d as [[] [] [] [] [] [] [] []]; reflexivity. Qed.

Lemma lower_keeps_colon (d : ascii) :
  Ascii.eqb ":" (lower_ascii d) = Ascii.eqb ":" d.
Proof. destruct d as [[] [] [] [] [] [] [] []]; reflexivity. Qed.

Lemma contains_lower (c : ascii) (s : string) :
  (forall d, Ascii.eqb c (lower_ascii d) = Ascii.eqb c d) ->
  contains_char c (lower s) = contains_char c s.
Proof.
  intros H. induction s as [|x s IH]; [reflexivity |].
  simpl. now rewrite H, IH.
Qed.

Lemma compression_suffix_clean (comp : string) :
  In (lower comp) ["gz"; "bz2"; "zip"; "xz"; "zst"] ->
  contains_char "." comp = false /\ contains_char "/" comp = false
  /\ contains_char ":" comp = false
  /\ existsb (String.eqb (lower ("." +:+ comp))) compression_extensions = true.
Proof.
  intros H.
  rewrite <- (contains_lower "." comp lower_keeps_dot).
  rewrite <- (contains_lower "/" comp lower_keeps_slash).
  rewrite <- (contains_lower ":" comp lower_keeps_colon).
  change (lower ("." +:+ comp)) with (String "." (lower comp)).
  simpl in H.
  repeat (destruct H as [<- | H]; [repeat split; reflexivity |]).
  contradiction.
Qed.

(** X19: with [remove_extension], a name that ends in a compression suffix
    (gz, bz2, zip, xz, zst, in any letter case) loses that suffix and the
    extension under it: [.../stem.ext.gz] gives [stem]. *)
Theorem extract_strips_compression_and_extension
    (dir stem ext comp : string) :
  contains_char ":" dir = false ->
  contains_char ":" stem = false ->
  contains_char "/" stem = false ->
  all_chars (fun ch => Ascii.eqb ch ".") stem = false ->
  contains_char ":" ext = false ->
  contains_char "/" ext = false ->
  contains_char "." ext = false ->
  In (lower comp) ["gz"; "bz2"; "zip"; "xz"; "zst"] ->
  _extract_filename_from_s3_path
    ("s3://" +:+ dir +:+ "/" +:+ stem +:+ "." +:+ ext +:+ "." +:+ comp) true
  = stem.
Proof.
  intros Hd Hsc Hss Hstem Hec Hes Hed Hcomp.
  destruct (compression_suffix_clean comp Hcomp) as (Hcd & Hcs & Hcc & Hin).
  set (inner := stem +:+ "." +:+ ext).
  assert (Hname : stem +:+ "." +:+ ext +:+ "." +:+ comp = inner +:+ "." +:+ comp)
    by (unfold inner; now rewrite !append_assoc).
  rewrite Hname.
  assert (Hic : contains_char ":" inner = false)
    by (unfold inner; rewrite !contains_char_append, Hsc, Hec; reflexivity).
  assert (His : contains_char "/" inner = false)
    by (unfold inner; rewrite !contains_char_append, Hss, Hes; reflexivity).
  assert (Hidots : all_chars (fun ch => Ascii.eqb ch ".") inner = false)
    by (unfold inner; rewrite all_chars_append, Hstem; reflexivity).
  destruct (extract_plain dir (inner +:+ "." +:+ comp)) as [Hrm Hbase];
    try assumption;
    try (rewrite !contains_char_append, ?Hic, ?His, ?Hcc, ?Hcs; reflexivity).
  unfold _extract_filename_from_s3_path.
  rewrite Hrm, Hbase.
  rewrite (splitext_at_last_dot inner comp His Hcs Hcd Hidots).
  rewrite Hin. unfold inner.
  now rewrite (splitext_at_last_dot stem ext Hss Hes Hed Hstem).
Qed.

Lemma extract_strips_json_gz :
  _extract_filename_from_s3_path
    ("s3://" +:+ "bronze/gharchive/events/2023-01-01/09" +:+ "/"
       +:+ "2023-01-01-9" +:+ "." +:+ "json" +:+ "." +:+ "GZ") true
  = "2023-01-01-9".
Proof.
  apply extract_strips_compression_and_extension; try reflexivity.
  left; reflexivity.
Defined.

Lemma not_compression_suffix (ext : string) :
  ~ In (lower ext) ["gz"; "bz2"; "zip"; "xz"; "zst"] ->
  existsb (String.eqb (lower ("." +:+ ext))) compression_extensions = false.
Proof.
  intros H.
  change (lower ("." +:+ ext)) with (String "." (lower ext)).
  unfold compression_extensions. cbn [existsb].
  repeat match goal with
         | |- context [String.eqb (String "." (lower ext)) (String "." ?x)] =>
             let E := fresh "E" in
             destruct (String.eqb (String "." (lower ext)) (String "." x)) eqn:E;
             [apply String.eqb_eq in E; inversion E as [E'];
              exfalso; apply H; rewrite E'; simpl; tauto |]
         end.
  reflexivity.
Qed.

(** X20: with [remove_extension], a name whose last extension is no
    compression suffix loses that extension only: [.../stem.ext] gives
    [stem], also when [stem] itself holds dots. *)
Theorem extract_strips_plain_extension (dir stem ext : string) :
  contains_char ":" dir = false ->
  contains_char ":" stem = false ->
  contains_char "/" stem = false ->
  all_chars (fun ch => Ascii.eqb ch ".") stem = false ->
  contains_char ":" ext = false ->
  contains_char "/" ext = false ->
  contains_char "." ext = false ->
  ~ In (lower ext) ["gz"; "bz2"; "zip"; "xz"; "zst"] ->
  _extract_filename_from_s3_path
    ("s3://" +:+ dir +:+ "/" +:+ stem +:+ "." +:+ ext) true
  = stem.
Proof.
  intros Hd Hsc Hss Hstem Hec Hes Hed Hcomp.
  destruct (extract_plain dir (stem +:+ "." +:+ ext)) as [Hrm Hbase];
    try assumption;
    try (rewrite !contains_char_append, ?Hsc, ?Hss, ?Hec, ?Hes; reflexivity).
  unfold _extract_filename_from_s3_path.
  rewrite Hrm, Hbase.
  rewrite (splitext_at_last_dot stem ext Hss Hes Hed Hstem).
  now rewrite (not_compression_suffix ext Hcomp).
Qed.

Lemma extract_strips_parquet :
  _extract_filename_from_s3_path
    ("s3://" +:+ "silver/gharchive/clean" +:+ "/"
       +:+ "clean_20230101090000_80000000" +:+ "." +:+ "parquet") true
  = "clean_20230101090000_80000000".
Proof.
  apply extract_strips_plain_extension; try reflexivity.
  simpl. intros [H | [H | [H | [H | [H | []]]]]]; discriminate H.
Defined.

End PathFacts.

(** ** The connection of a transformer *)

Module LifecycleFacts.
Import Lifecycle.

Lemma count_event_app (ev : DbEvent) (a b : list DbEvent) :
  count_event ev (a ++ b) = (count_event ev a + count_event ev b)%nat.
Proof. unfold count_event. apply count_occ_app. Qed.

(** X21: building a transformer and discarding it closes a connection
    exactly once when [__init__] returned and never when it raised;
    [__init__] returns exactly when connecting, installing and loading
    [httpfs] all succeed, so a connection opened before a failing install or
    load is left open. *)
Theorem connection_closed_once_or_never
    (connect_result : option PyExc)
    (install_result load_result : string -> option PyExc)
    (t : list DbEvent) :
  let run := build_and_discard connect_result install_result load_result t in
  (run.1 = None <->
   connect_result = None /\ install_result "httpfs" = None
   /\ load_result "httpfs" = None)
  /\ count_event Close run.2
     = (count_event Close t
        + match run.1 with Some _ => 0 | None => 1 end)%nat
  /\ count_event Connect run.2
     = (count_event Connect t
        + match connect_result with Some _ => 0 | None => 1 end)%nat.
Proof.
  unfold build_and_discard, DataLakeTransformer_new, duckdb_connection,
    db_step, Eff.bind, __del__.
  destruct connect_result as [e1 |]; simpl.
  - repeat split; try discriminate; try lia. intros (H & _). discriminate.
  - destruct (install_result "httpfs") as [e2 |]; simpl.
    + rewrite !count_event_app. simpl.
      repeat split; try discriminate; try lia. intros (_ & H & _). discriminate.
    + destruct (load_result "httpfs") as [e3 |]; simpl.
      * rewrite !count_event_app. simpl.
        repeat split; try discriminate; try lia.
        intros (_ & _ & H). discriminate.
      * rewrite !count_event_app. simpl. repeat split; lia.
Qed.

End LifecycleFacts.

(** ** The ingestion driver *)

Module IngestDriverFacts.
Import Text TextFacts Ingester IngestDriver Examples MoreExamples
  IngesterFacts IngestionFacts.


Lemma ingest_hour_ok (ing : DataLakeIngester) (d : datetime) (h : Z) (w : World) :
  always_stores (data_storage ing) ->
  collects (data_collector ing) (data_url (replace_hour d h)) ->
  exists w',
    ingest_hour ing d h w = (inr tt, w')
    /\ w_calls w' = w_calls w ++ hour_calls (dataset_base_path ing) d h.
Proof.
  intros Hs Hc. unfold ingest_hour.
  unfold Eff.bind at 1. unfold logger at 1, Eff.modify at 1.
  set (w1 := mkWorld _ (w_objects w) (w_calls w)).
  destruct (Hc (w_log w1)) as (data & lg1 & Ec).
  destruct (Hs data
              (_generate_sink_key (replace_hour d h)
                 (data_filename (replace_hour d h)) (dataset_base_path ing))
              (lg1, w_objects w1)) as [[lg2 o2] Es].
  unfold Eff.bind.
  rewrite (ingest_run_ok ing (replace_hour d h) w1 data lg1 lg2 o2 Ec Es).
  unfold logger, Eff.modify. eexists. split; reflexivity.
Qed.


Lemma hours_ok (ing : DataLakeIngester) (d : datetime) (hs : list Z) (w : World) :
  always_stores (data_storage ing) ->
  (forall h, In h hs -> collects (data_collector ing) (data_url (replace_hour d h))) ->
  exists w',
    for_each (ingest_hour ing d) hs w = (inr tt, w')
    /\ w_calls w' = w_calls w ++ flat_map (hour_calls (dataset_base_path ing) d) hs
    /\ (hs = [] -> w' = w).
Proof.
  intros Hs. revert w. induction hs as [|h hs IH]; intros w Hc.
  - exists w. simpl. rewrite app_nil_r. auto.
  - destruct (ingest_hour_ok ing d h w Hs (Hc h (or_introl eq_refl)))
      as (w1 & E1 & C1).
    destruct (IH w1 (fun h' Hin => Hc h' (or_intror Hin))) as (w2 & E2 & C2 & _).
    exists w2. simpl. unfold Eff.bind. rewrite E1. split; [exact E2 |].
    split; [| discriminate].
    rewrite C2, C1. cbn [flat_map]. now rewrite <- app_assoc.
Qed.


Lemma lex_ltb_irrefl (l : list Z) : AggDriver.lex_ltb l l = false.
Proof.
  induction l as [|x l IH]; [reflexivity |].
  simpl. now rewrite Z.ltb_irrefl, Z.eqb_refl, IH.
Qed.

Lemma dt_leb_refl (d : datetime) : AggDriver.dt_leb d d = true.
Proof. unfold AggDriver.dt_leb, AggDriver.dt_ltb. now rewrite lex_ltb_irrefl. Qed.

Lemma dt_leb_year (a b : datetime) :
  AggDriver.dt_leb a b = true -> year a <= year b.
Proof.
  unfold AggDriver.dt_leb, AggDriver.dt_ltb, AggDriver.dt_key.
  cbn [AggDriver.lex_ltb]. intros H. apply negb_true_iff in H.
  apply orb_false_iff in H as [H _]. lia.
Qed.

Lemma days_bound_positive (a b : datetime) :
  AggDriver.dt_leb a b = true -> exists f, AggDriver.days_bound a b = S f.
Proof.
  intros H. apply dt_leb_year in H. unfold AggDriver.days_bound.
  exists (Z.to_nat ((year b - year a + 1) * 366)). lia.
Qed.

Lemma next_day_is_later (d n : datetime) :
  AggDriver.next_day d = inr n -> AggDriver.dt_leb n d = false.
Proof.
  unfold AggDriver.next_day, AggDriver.dt_leb, AggDriver.dt_ltb, AggDriver.dt_key.
  intros H. apply negb_false_iff.
  destruct (day d <? days_in_month (year d) (month d)) eqn:E1;
    [| destruct (month d <? 12) eqn:E2; [| destruct (year d <? 9999) eqn:E3]];
    inversion H; subst; cbn [AggDriver.lex_ltb year month day];
    rewrite ?Z.ltb_irrefl, ?Z.eqb_refl; cbn [orb andb];
    repeat match goal with
           | |- context [?a <? ?a + 1] =>
               replace (a <? a + 1) with true by (symmetry; apply Z.ltb_lt; lia)
           end; reflexivity.
Qed.

Lemma day_loop_past_end (fuel : nat) (ing : DataLakeIngester)
    (cur end_date : datetime) (w : World) :
  AggDriver.dt_leb cur end_date = false ->
  day_loop fuel ing cur end_date w = (inr tt, w).
Proof. intros H. destruct fuel; simpl; [| rewrite H]; reflexivity. Qed.

Section Driver.
Variable module_dir : string.
Variable config_files : string -> option (PyExc + ConfigParser).
Variable requests_get : string -> PyExc + Response.
Variable boto3_client : list (string * string) -> PyExc + S3Client.


(** X23: for a range of one day on which every hour collects and stores,
    the driver makes exactly the 24 collect-and-store pairs of that day, in
    the order of the hours 0 to 23, and returns. *)
Theorem ingest_driver_one_day_all_hours
    (d : datetime) (w w1 : World) (ing : DataLakeIngester) :
  DataLakeIngester_init module_dir config_files requests_get boto3_client
    "gharchive/events" None None None w = (inr ing, w1) ->
  always_stores (data_storage ing) ->
  (forall h, In h range24 ->
     collects (data_collector ing) (data_url (replace_hour d h))) ->
  exists w',
    main module_dir config_files requests_get boto3_client d d w
      = (AggDriver.ExitOk, w')
    /\ w_calls w' =
         w_calls w1 ++ flat_map (hour_calls (dataset_base_path ing) d) range24.
Proof.
  intros Hinit Hs Hok.
  destruct (days_bound_positive d d (dt_leb_refl d)) as [f Hf].
  set (w2 := mkWorld (w_log w1 ++ [mkLog INFO ("processing for day "
                                               +:+ str_date d)])
               (w_objects w1) (w_calls w1)).
  destruct (hours_ok ing d range24 w2 Hs Hok) as (w3 & E3 & C3 & _).
  assert (Hlt : AggDriver.dt_ltb d d = false)
    by (unfold AggDriver.dt_ltb; apply lex_ltb_irrefl).
  unfold main. rewrite Hlt.
  unfold Eff.try_except, Eff.bind. rewrite Hinit, Hf.
  cbn [day_loop]. rewrite (dt_leb_refl d).
  unfold Eff.bind at 1. unfold logger at 1, Eff.modify at 1.
  fold w2. unfold Eff.bind at 1. rewrite E3.
  unfold Eff.bind, Eff.lift_result.
  destruct (AggDriver.next_day d) as [e | n] eqn:En.
  - unfold Eff.raise, logger, Eff.modify. eexists. split; [reflexivity |].
    exact C3.
  - unfold Eff.ret.
    rewrite (day_loop_past_end f ing n d w3 (next_day_is_later d n En)).
    eexists. split; [reflexivity |]. exact C3.
Qed.
End Driver.

Lemma configured_storage_always_stores : always_stores configured_storage.
Proof.
  intros data key [lg objs]. eexists.
  unfold configured_storage, store, S3DataStorage_store, Eff.try_except,
    Eff.bind, log_st, Eff.modify. reflexivity.
Qed.

Lemma ok_hour_collects (get : string -> PyExc + Response) (u : string) (body : list byte) :
  get u = inr (mkResponse 200 "OK" u body) ->
  collects (HttpDataCollector get) u.
Proof.
  intros Hg lg. eexists _, _.
  apply (collect_200 get u (mkResponse 200 "OK" u body) lg Hg eq_refl).
Qed.


Lemma ingest_driver_whole_first_of_january :
  exists w',
    main "/app" test_config_file ok_response good_client jan1 jan1 empty_world
      = (AggDriver.ExitOk, w')
    /\ w_calls w' =
         w_calls configured_world
         ++ flat_map (hour_calls "gharchive/events" jan1) range24.
Proof.
  destruct (ingest_driver_one_day_all_hours "/app" test_config_file ok_response
              good_client jan1 empty_world configured_world
              (configured_ingester ok_response))
    as (w' & Hm & Hc).
  - reflexivity.
  - exact configured_storage_always_stores.
  - intros h _. eapply ok_hour_collects. reflexivity.
  - exists w'. split; [exact Hm | exact Hc].
Defined.

End IngestDriverFacts.
